(** * LLM gateway: chat-completion handler, log worker and auto top-up.

    A shallow embedding of [packages/models/src/models.ts] (the gateway's
    chat handler with its helper functions, and the worker with the log
    queue and the auto top-up pass), followed by the properties of the
    specification that were checked against it.

    Conventions of the embedding.
    - A JavaScript [number] is a rational [Q]; [null]/[undefined] at a
      typed position ([number | null], [string | null]) is [None].
    - A value of type [any] (an upstream JSON body, a transformed chunk)
      is a [Json] tree; optional chaining [a?.b?.[0]] is the total
      accessor [get].  Where the source reads a property of a value
      that may be [null], or calls a method that the value may lack,
      the embedding says where it throws ([transformThrows], the [null]
      body of a unary response).
    - Strings are [string]; [length] counts characters as [.length]
      counts UTF-16 units, which agree on the ASCII range the model uses.
    - Where the source reads a value of type [any] at a position it
      declares as [string] or [number], a value of another type is read
      as absent.
    - Sums of token counts are exact.  The sum of costs that the
      worker forms, and its subtraction in the datastore, are
      parameters of the worker, so that their rounding is left open.
    - [Date.now()] is a parameter [now : Z] (milliseconds).
    - Functions imported from other packages (catalog helpers, cache,
      database, tokenizer, [JSON.parse], payment SDK) are parameters;
      the queue helpers of the worker follow the specification.
    - A log row carries the fields the properties read; the tool calls
      of a streamed response are accumulated apart, in [ToolCalls].
    - The filters of the recent-logs view
      ([apps/ui/src/components/activity/recent-logs.tsx]) are embedded
      in [RecentLogs]. *)

From Stdlib Require Import String Ascii List ZArith QArith Qround Lia Bool.
From Stdlib Require Import DecimalString.
Import ListNotations.

Set Warnings "-register-all".

Open Scope string_scope.
Open Scope Z_scope.

(* ================================================================== *)
(** * JavaScript values                                                 *)
(* ================================================================== *)

Module JS.

(** ** Strings *)

Definition lower_ascii (c : ascii) : ascii :=
  let n := nat_of_ascii c in
  if (Nat.leb 65 n && Nat.leb n 90)%bool then ascii_of_nat (n + 32) else c.

(** [s.toLowerCase()] *)
Fixpoint toLowerCase (s : string) : string :=
  match s with
  | EmptyString => EmptyString
  | String c r => String (lower_ascii c) (toLowerCase r)
  end.

(** [s.startsWith(p)] *)
Definition startsWith (p s : string) : bool := String.prefix p s.

(** [s.includes(p)] for a one-character needle. *)
Fixpoint includes_char (c : ascii) (s : string) : bool :=
  match s with
  | EmptyString => false
  | String d r => if Ascii.eqb c d then true else includes_char c r
  end.

Fixpoint rev_string (acc s : string) : string :=
  match s with
  | EmptyString => acc
  | String c r => rev_string (String c acc) r
  end.

(** [s.split(sep)] for a non-empty separator.  [skip] counts the
    characters of a matched separator that are still to be dropped and
    [cur] holds the current piece, reversed. *)
Fixpoint split_aux (sep : string) (skip : nat) (cur s : string) : list string :=
  match s with
  | EmptyString => [rev_string EmptyString cur]
  | String c r =>
      match skip with
      | S k => split_aux sep k cur r
      | O =>
          if String.prefix sep s
          then rev_string EmptyString cur
               :: split_aux sep (String.length sep - 1) EmptyString r
          else split_aux sep 0 (String c cur) r
      end
  end.

Definition split (sep s : string) : list string :=
  split_aux sep 0 EmptyString s.

(** [parts.join(sep)] *)
Fixpoint join (sep : string) (parts : list string) : string :=
  match parts with
  | [] => EmptyString
  | [p] => p
  | p :: rest => p ++ sep ++ join sep rest
  end.

(** ** Numbers *)

(** [Math.round(x)]: the nearest integer, halves rounded up. *)
Definition Math_round (x : Q) : Z := Qfloor (x + (1 # 2)).

(** [Math.floor], [Math.ceil] *)
Definition Math_floor (x : Q) : Z := Qfloor x.
Definition Math_ceil (x : Q) : Z := Qceiling x.

Definition num_of_nat (n : nat) : Q := inject_Z (Z.of_nat n).

(** Truthiness of a [number | null]: [null] and [0] are falsy. *)
Definition truthy_num (o : option Q) : bool :=
  match o with
  | Some q => negb (Qeq_bool q 0)
  | None => false
  end.

(** Truthiness of a [string | null]: [null] and the empty string are
    falsy. *)
Definition truthy_str (o : option string) : bool :=
  match o with
  | Some EmptyString => false
  | Some _ => true
  | None => false
  end.

(** [x || null] at type [number]. *)
Definition num_or_null (o : option Q) : option Q :=
  if truthy_num o then o else None.

(** [x || null] at type [string]. *)
Definition str_or_null (o : option string) : option string :=
  if truthy_str o then o else None.

(** [x || 0] at type [number]. *)
Definition num_or_zero (o : option Q) : Q :=
  match o with
  | Some q => if Qeq_bool q 0 then 0%Q else q
  | None => 0%Q
  end.

(** ** Untyped values *)

Inductive Json : Type :=
| JUndefined
| JNull
| JBool (b : bool)
| JNum (n : Q)
| JStr (s : string)
| JArr (items : list Json)
| JObj (fields : list (string * Json)).

Fixpoint assoc {A : Type} (k : string) (l : list (string * A)) : option A :=
  match l with
  | [] => None
  | (k', v) :: r => if String.eqb k k' then Some v else assoc k r
  end.

(** [j?.k] *)
Definition field (k : string) (j : Json) : Json :=
  match j with
  | JObj fs => match assoc k fs with Some v => v | None => JUndefined end
  | _ => JUndefined
  end.

(** [j?.[i]]: the element of an array, the property of an object whose
    key is the decimal numeral of [i], the character of a string. *)
Definition item (i : nat) (j : Json) : Json :=
  match j with
  | JArr l => nth i l JUndefined
  | JObj _ => field (NilZero.string_of_uint (Nat.to_uint i)) j
  | JStr s =>
      match String.get i s with
      | Some c => JStr (String c EmptyString)
      | None => JUndefined
      end
  | _ => JUndefined
  end.

Inductive Key : Type :=
| K (name : string)
| I (index : nat).

Definition step (k : Key) (j : Json) : Json :=
  match k with
  | K name => field name j
  | I index => item index j
  end.

(** A chain of optional accesses, left to right. *)
Definition get (path : list Key) (j : Json) : Json :=
  fold_left (fun acc k => step k acc) path j.

Definition truthy (j : Json) : bool :=
  match j with
  | JUndefined | JNull => false
  | JBool b => b
  | JNum n => negb (Qeq_bool n 0)
  | JStr EmptyString => false
  | JStr _ => true
  | JArr _ | JObj _ => true
  end.

(** [a || b] *)
Definition or_else (a b : Json) : Json := if truthy a then a else b.

(** Reading a value of type [any] at a typed position.  A value of
    another type than the declared one is read as absent. *)
Definition as_num (j : Json) : option Q :=
  match j with
  | JNum n => Some n
  | _ => None
  end.

Definition as_str (j : Json) : option string :=
  match j with
  | JStr s => Some s
  | _ => None
  end.

Definition of_num (o : option Q) : Json :=
  match o with
  | Some n => JNum n
  | None => JNull
  end.

Definition of_str (o : option string) : Json :=
  match o with
  | Some s => JStr s
  | None => JNull
  end.

(** [{...(c && {k: v})}]: the field is present only when [c] holds. *)
Definition spread_if (c : bool) (k : string) (v : Json) : list (string * Json) :=
  if c then [(k, v)] else [].

(** [{...o, k: v}]: [k] is overwritten in place, or appended. *)
Fixpoint set_assoc (k : string) (v : Json) (l : list (string * Json))
  : list (string * Json) :=
  match l with
  | [] => [(k, v)]
  | (k', v') :: r =>
      if String.eqb k k' then (k, v) :: r else (k', v') :: set_assoc k v r
  end.

(** The elements of an array under their indices. *)
Fixpoint indexed (i : nat) (l : list Json) : list (string * Json) :=
  match l with
  | [] => []
  | x :: r => (NilZero.string_of_uint (Nat.to_uint i), x) :: indexed (S i) r
  end.

(** [{...j}]: the own properties of a value, which are the fields of an
    object, the elements of an array and the characters of a string
    under their indices; another value has none. *)
Definition spread (j : Json) : list (string * Json) :=
  match j with
  | JObj fs => fs
  | JArr l => indexed 0 l
  | JStr s =>
      indexed 0 (map (fun c => JStr (String c EmptyString)) (list_ascii_of_string s))
  | _ => []
  end.

(** [{...j, k: v}] *)
Definition set_field (k : string) (v : Json) (j : Json) : Json :=
  JObj (set_assoc k v (spread j)).

End JS.

Import JS.

(* ================================================================== *)
(** * Catalog types and request data                                    *)
(* ================================================================== *)

Definition Provider := string.

Module Catalog.

(** [ProviderModelMapping], with the fields the handler reads. *)
Record ProviderModelMapping : Type := {
  providerId : Provider;
  modelName : string;
  maxOutput : option Q;
  streaming : bool;
  reasoning : option bool
}.

(** [ModelDefinition]; dates are milliseconds since the epoch. *)
Record ModelDefinition : Type := {
  id : string;
  providers : list ProviderModelMapping;
  jsonOutput : option bool;
  deprecatedAt : option Z;
  deactivatedAt : option Z
}.

(** An entry of the [providers] table. *)
Record ProviderDefinition : Type := {
  provider_id : Provider;
  cancellation : option bool
}.

End Catalog.

Import Catalog.

(** The [content] of a message: a string, or an array of parts. *)
Inductive MessageContent : Type :=
| CString (s : string)
| CParts (parts : list Json).

Record Message : Type := {
  role : string;
  content : MessageContent;
  name : option string
}.

(** [m.content?.length || 0] *)
Definition content_length (m : Message) : nat :=
  match content m with
  | CString s => String.length s
  | CParts parts => List.length parts
  end.

(** [messages.reduce((acc, m) => acc + (m.content?.length || 0), 0)] *)
Definition total_content_length (messages : list Message) : nat :=
  fold_left (fun acc m => (acc + content_length m)%nat) messages 0%nat.

(* ================================================================== *)
(** * Token estimation                                                  *)
(* ================================================================== *)

Module Tokens.

(** [estimateTokensFromContent] *)
Definition estimateTokensFromContent (content : string) : Z :=
  Z.max 1 (Math_round (num_of_nat (String.length content) / 4)).

Section Tokenizer.

(** [encodeChat(chatMessages, DEFAULT_TOKENIZER_MODEL).length] and
    [encode(content).length] of gpt-tokenizer; [None] when the call
    throws. *)
Variable encodeChat : list Message -> option nat.
Variable encode : string -> option nat.

(** [estimateTokens]: the pair [(calculatedPromptTokens,
    calculatedCompletionTokens)]. *)
Definition estimateTokens (usedProvider : Provider) (messages : list Message)
    (content : option string) (promptTokens completionTokens : option Q)
  : option Q * option Q :=
  if (negb (truthy_num promptTokens) || negb (truthy_num completionTokens))%bool
  then
    let calculatedPromptTokens :=
      if (negb (truthy_num promptTokens)
          && Nat.ltb 0 (List.length messages))%bool
      then match encodeChat messages with
           | Some n => Some (num_of_nat n)
           | None => Some (num_of_nat (total_content_length messages) / 4)%Q
           end
      else promptTokens in
    let calculatedCompletionTokens :=
      if (negb (truthy_num completionTokens) && truthy_str content)%bool
      then match content with
           | Some c =>
               match encode c with
               | Some n => Some (num_of_nat n)
               | None => Some (num_of_nat (String.length c) / 4)%Q
               end
           | None => completionTokens
           end
      else completionTokens in
    (calculatedPromptTokens, calculatedCompletionTokens)
  else (promptTokens, completionTokens).

End Tokenizer.

End Tokens.

(* ================================================================== *)
(** * Response normalisation                                            *)
(* ================================================================== *)

Module Normalize.

Definition is_str (s : string) (j : Json) : bool :=
  match j with
  | JStr t => String.eqb s t
  | _ => false
  end.

Definition one_of (p : Provider) (l : list Provider) : bool :=
  existsb (String.eqb p) l.

Definition google_family : list Provider :=
  ["google-vertex"; "google-ai-studio"].

(** The providers the source lists before its [default] case. *)
Definition openai_like : list Provider :=
  ["inference.net"; "together.ai"; "groq"; "deepseek"; "perplexity"; "alibaba"].

(** [json.a?.b || null] read at type [string] and at type [number]. *)
Definition str_at (path : list Key) (j : Json) : option string :=
  str_or_null (as_str (get path j)).

Definition num_at (path : list Key) (j : Json) : option Q :=
  num_or_null (as_num (get path j)).

(** [getFinishReasonForError] *)
Definition getFinishReasonForError (statusCode : Z) : string :=
  if 500 <=? statusCode then "upstream_error" else "gateway_error".

(** The result of [parseProviderResponse]. *)
Record Parsed : Type := {
  p_content : option string;
  p_reasoningContent : option string;
  p_finishReason : option string;
  p_promptTokens : option Q;
  p_completionTokens : option Q;
  p_totalTokens : option Q;
  p_reasoningTokens : option Q;
  p_cachedTokens : option Q;
  p_toolCalls : Json
}.

Definition add_opt (a b : option Q) : option Q :=
  match a, b with
  | Some x, Some y => Some (Qred (x + y))
  | _, _ => None
  end.

Section Parse.

(** The Mistral post-step of [parseProviderResponse] (the fenced
    [json] block is extracted with a regular expression and
    re-serialised); it is applied only to a content that includes the
    fence marker. *)
Variable unwrapJsonFence : string -> string.
Variable includesJsonFence : string -> bool.

(** [parseProviderResponse] *)
Definition parseProviderResponse (usedProvider : Provider) (json : Json) : Parsed :=
  if String.eqb usedProvider "anthropic" then
    {| p_content := str_at [K "content"; I 0; K "text"] json;
       p_reasoningContent := None;
       p_finishReason := str_at [K "stop_reason"] json;
       p_promptTokens := num_at [K "usage"; K "input_tokens"] json;
       p_completionTokens := num_at [K "usage"; K "output_tokens"] json;
       p_totalTokens :=
         if (truthy (get [K "usage"; K "input_tokens"] json)
             && truthy (get [K "usage"; K "output_tokens"] json))%bool
         then add_opt (as_num (get [K "usage"; K "input_tokens"] json))
                      (as_num (get [K "usage"; K "output_tokens"] json))
         else None;
       p_reasoningTokens := num_at [K "usage"; K "reasoning_output_tokens"] json;
       p_cachedTokens := num_at [K "usage"; K "cache_read_input_tokens"] json;
       p_toolCalls := JNull |}
  else if one_of usedProvider google_family then
    let promptTokens := num_at [K "usageMetadata"; K "promptTokenCount"] json in
    let completionTokens := num_at [K "usageMetadata"; K "candidatesTokenCount"] json in
    {| p_content := str_at [K "candidates"; I 0; K "content"; K "parts"; I 0; K "text"] json;
       p_reasoningContent := None;
       p_finishReason := str_at [K "candidates"; I 0; K "finishReason"] json;
       p_promptTokens := promptTokens;
       p_completionTokens := completionTokens;
       p_totalTokens :=
         match promptTokens, completionTokens with
         | Some a, Some b => Some (Qred (a + b))
         | _, _ => num_at [K "usageMetadata"; K "totalTokenCount"] json
         end;
       p_reasoningTokens := num_at [K "usageMetadata"; K "thoughtsTokenCount"] json;
       p_cachedTokens := None;
       p_toolCalls := JNull |}
  else if one_of usedProvider openai_like then
    let promptTokens := num_at [K "usage"; K "prompt_tokens"] json in
    let completionTokens := num_at [K "usage"; K "completion_tokens"] json in
    {| p_content := str_at [K "choices"; I 0; K "message"; K "content"] json;
       p_reasoningContent :=
         str_at [K "choices"; I 0; K "message"; K "reasoning_content"] json;
       p_finishReason := str_at [K "choices"; I 0; K "finish_reason"] json;
       p_promptTokens := promptTokens;
       p_completionTokens := completionTokens;
       p_totalTokens :=
         match promptTokens, completionTokens with
         | Some a, Some b => Some (Qred (a + b))
         | _, _ => num_at [K "usage"; K "total_tokens"] json
         end;
       p_reasoningTokens := num_at [K "usage"; K "reasoning_tokens"] json;
       p_cachedTokens := None;
       p_toolCalls := JNull |}
  else if String.eqb usedProvider "mistral" then
    let content := str_at [K "choices"; I 0; K "message"; K "content"] json in
    {| p_content :=
         match content with
         | Some c => if includesJsonFence c then Some (unwrapJsonFence c) else Some c
         | None => None
         end;
       p_reasoningContent := None;
       p_finishReason := str_at [K "choices"; I 0; K "finish_reason"] json;
       p_promptTokens := num_at [K "usage"; K "prompt_tokens"] json;
       p_completionTokens := num_at [K "usage"; K "completion_tokens"] json;
       p_totalTokens := num_at [K "usage"; K "total_tokens"] json;
       p_reasoningTokens := num_at [K "usage"; K "reasoning_tokens"] json;
       p_cachedTokens := None;
       p_toolCalls := JNull |}
  else
    {| p_content := str_at [K "choices"; I 0; K "message"; K "content"] json;
       p_reasoningContent :=
         str_at [K "choices"; I 0; K "message"; K "reasoning_content"] json;
       p_finishReason := str_at [K "choices"; I 0; K "finish_reason"] json;
       p_promptTokens := num_at [K "usage"; K "prompt_tokens"] json;
       p_completionTokens := num_at [K "usage"; K "completion_tokens"] json;
       p_totalTokens := num_at [K "usage"; K "total_tokens"] json;
       p_reasoningTokens := num_at [K "usage"; K "reasoning_tokens"] json;
       p_cachedTokens :=
         num_at [K "usage"; K "prompt_tokens_details"; K "cached_tokens"] json;
       p_toolCalls :=
         or_else (get [K "choices"; I 0; K "message"; K "tool_calls"] json) JNull |}.

End Parse.

(** [`chatcmpl-${Date.now()}`] *)
Definition chatcmpl_id (now : Z) : Json :=
  JStr ("chatcmpl-" ++ DecimalString.NilZero.string_of_int (Z.to_int now)).

(** [Math.floor(Date.now() / 1000)] *)
Definition created_at (now : Z) : Json :=
  JNum (inject_Z (Math_floor (inject_Z now / 1000))).

(** [r?.toLowerCase() || "stop"] *)
Definition lower_or_stop (r : option string) : string :=
  match str_or_null (option_map toLowerCase r) with
  | Some s => s
  | None => "stop"
  end.

(** The [finish_reason] of the unary Google branch:
    [finishReason === "STOP" ? "stop" : finishReason?.toLowerCase() || "stop"] *)
Definition google_finish (finishReason : option string) : string :=
  match finishReason with
  | Some r => if String.eqb r "STOP" then "stop" else lower_or_stop finishReason
  | None => lower_or_stop finishReason
  end.

(** The [finish_reason] of the unary Anthropic branch:
    [finishReason === "end_turn" ? "stop" : finishReason?.toLowerCase() || "stop"] *)
Definition anthropic_finish (finishReason : option string) : string :=
  match finishReason with
  | Some r => if String.eqb r "end_turn" then "stop" else lower_or_stop finishReason
  | None => lower_or_stop finishReason
  end.

(** The [finish_reason] of the streaming Anthropic branches:
    [stopReason === "end_turn" ? "stop" : stopReason === "tool_use" ?
     "tool_calls" : stopReason?.toLowerCase() || "stop"] *)
Definition anthropic_stream_finish (stopReason : option string) : string :=
  match stopReason with
  | Some r =>
      if String.eqb r "end_turn" then "stop"
      else if String.eqb r "tool_use" then "tool_calls"
      else lower_or_stop stopReason
  | None => lower_or_stop stopReason
  end.

Definition usage_object (promptTokens completionTokens totalTokens
                         reasoningTokens cachedTokens : option Q)
                        (withCached : bool) : Json :=
  JObj ([("prompt_tokens", of_num promptTokens);
         ("completion_tokens", of_num completionTokens);
         ("total_tokens", of_num totalTokens)]
        ++ spread_if (match reasoningTokens with Some _ => true | None => false end)
             "reasoning_tokens" (of_num reasoningTokens)
        ++ spread_if (withCached
                      && match cachedTokens with Some _ => true | None => false end)
             "prompt_tokens_details"
             (JObj [("cached_tokens", of_num cachedTokens)])).

Definition completion_object (now : Z) (usedModel : string)
    (content reasoningContent : option string) (toolCalls : Json)
    (withToolCalls : bool) (finish_reason : string) (usage : Json) : Json :=
  JObj [("id", chatcmpl_id now);
        ("object", JStr "chat.completion");
        ("created", created_at now);
        ("model", JStr usedModel);
        ("choices",
         JArr [JObj [("index", JNum 0);
                     ("message",
                      JObj ([("role", JStr "assistant");
                             ("content", of_str content)]
                            ++ spread_if
                                 (match reasoningContent with
                                  | Some _ => true
                                  | None => false
                                  end)
                                 "reasoning_content" (of_str reasoningContent)
                            ++ spread_if (withToolCalls && truthy toolCalls)
                                 "tool_calls" toolCalls));
                     ("finish_reason", JStr finish_reason)]]);
        ("usage", usage)].

(** [transformToOpenAIFormat] *)
Definition transformToOpenAIFormat (now : Z) (usedProvider : Provider)
    (usedModel : string) (json : Json)
    (content reasoningContent finishReason : option string)
    (promptTokens completionTokens totalTokens reasoningTokens cachedTokens : option Q)
    (toolCalls : Json) : Json :=
  if one_of usedProvider google_family then
    completion_object now usedModel content reasoningContent toolCalls true
      (google_finish finishReason)
      (usage_object promptTokens completionTokens totalTokens
         reasoningTokens cachedTokens true)
  else if String.eqb usedProvider "anthropic" then
    completion_object now usedModel content reasoningContent toolCalls true
      (anthropic_finish finishReason)
      (usage_object promptTokens completionTokens totalTokens
         reasoningTokens cachedTokens true)
  else if one_of usedProvider ["inference.net"; "together.ai"; "groq"] then
    if negb (truthy (field "id" json)) then
      completion_object now usedModel content reasoningContent toolCalls false
        (match str_or_null finishReason with Some r => r | None => "stop" end)
        (usage_object promptTokens completionTokens totalTokens
           reasoningTokens cachedTokens false)
    else json
  else json.

End Normalize.

(* ================================================================== *)
(** * Streaming helpers                                                 *)
(* ================================================================== *)

Module Streaming.

Import Normalize.

(** [extractContentFromProvider] *)
Definition extractContentFromProvider (data : Json) (provider : Provider) : string :=
  let text_or_empty (j : Json) :=
    match str_or_null (as_str j) with Some s => s | None => EmptyString end in
  if one_of provider google_family then
    text_or_empty (get [K "candidates"; I 0; K "content"; K "parts"; I 0; K "text"] data)
  else if String.eqb provider "anthropic" then
    text_or_empty (get [K "delta"; K "text"] data)
  else
    text_or_empty (get [K "choices"; I 0; K "delta"; K "content"] data).

(** [extractReasoningContentFromProvider] *)
Definition extractReasoningContentFromProvider (data : Json) (provider : Provider)
  : string :=
  match str_or_null (as_str (get [K "choices"; I 0; K "delta"; K "reasoning_content"] data)) with
  | Some s => s
  | None => EmptyString
  end.

(** The result of [extractTokenUsage]. *)
Record Usage : Type := {
  u_promptTokens : option Q;
  u_completionTokens : option Q;
  u_totalTokens : option Q;
  u_reasoningTokens : option Q;
  u_cachedTokens : option Q
}.

Definition no_usage : Usage :=
  {| u_promptTokens := None; u_completionTokens := None; u_totalTokens := None;
     u_reasoningTokens := None; u_cachedTokens := None |}.

(** [extractTokenUsage] *)
Definition extractTokenUsage (data : Json) (provider : Provider) : Usage :=
  if one_of provider google_family then
    if truthy (field "usageMetadata" data) then
      {| u_promptTokens := num_at [K "usageMetadata"; K "promptTokenCount"] data;
         u_completionTokens := num_at [K "usageMetadata"; K "candidatesTokenCount"] data;
         u_totalTokens := num_at [K "usageMetadata"; K "totalTokenCount"] data;
         u_reasoningTokens := None;
         u_cachedTokens := None |}
    else no_usage
  else if String.eqb provider "anthropic" then
    if truthy (field "usage" data) then
      let promptTokens := num_at [K "usage"; K "input_tokens"] data in
      let completionTokens := num_at [K "usage"; K "output_tokens"] data in
      {| u_promptTokens := promptTokens;
         u_completionTokens := completionTokens;
         u_totalTokens :=
           Some (Qred (num_or_zero promptTokens + num_or_zero completionTokens));
         u_reasoningTokens := num_at [K "usage"; K "reasoning_output_tokens"] data;
         u_cachedTokens := num_at [K "usage"; K "cache_read_input_tokens"] data |}
    else no_usage
  else if one_of provider openai_like then
    if truthy (field "usage" data) then
      {| u_promptTokens := num_at [K "usage"; K "prompt_tokens"] data;
         u_completionTokens := num_at [K "usage"; K "completion_tokens"] data;
         u_totalTokens := num_at [K "usage"; K "total_tokens"] data;
         u_reasoningTokens := num_at [K "usage"; K "reasoning_tokens"] data;
         u_cachedTokens := None |}
    else no_usage
  else
    if truthy (field "usage" data) then
      {| u_promptTokens := num_at [K "usage"; K "prompt_tokens"] data;
         u_completionTokens := num_at [K "usage"; K "completion_tokens"] data;
         u_totalTokens := num_at [K "usage"; K "total_tokens"] data;
         u_reasoningTokens := num_at [K "usage"; K "reasoning_tokens"] data;
         u_cachedTokens :=
           num_at [K "usage"; K "prompt_tokens_details"; K "cached_tokens"] data |}
    else no_usage.

Definition assistant_delta (fields : list (string * Json)) : Json :=
  JObj (fields ++ [("role", JStr "assistant")]).

(** The chunk literal the Anthropic branches share. *)
Definition anthropic_chunk (now : Z) (usedModel : string) (data delta finish : Json)
  : Json :=
  JObj [("id", or_else (field "id" data) (chatcmpl_id now));
        ("object", JStr "chat.completion.chunk");
        ("created", or_else (field "created" data) (created_at now));
        ("model", or_else (field "model" data) (JStr usedModel));
        ("choices",
         JArr [JObj [("index", JNum 0); ("delta", delta); ("finish_reason", finish)]]);
        ("usage", or_else (field "usage" data) JNull)].

(** The [usage] of the Google chunks. *)
Definition google_chunk_usage (data : Json) : Json :=
  if (truthy (field "usageMetadata" data)
      && truthy (get [K "usageMetadata"; K "candidatesTokenCount"] data))%bool
  then JObj [("prompt_tokens",
              or_else (get [K "usageMetadata"; K "promptTokenCount"] data) (JNum 0));
             ("completion_tokens", get [K "usageMetadata"; K "candidatesTokenCount"] data);
             ("total_tokens",
              or_else (get [K "usageMetadata"; K "totalTokenCount"] data) (JNum 0))]
  else JNull.

Definition google_chunk (now : Z) (usedModel : string) (data delta finish : Json)
  : Json :=
  JObj [("id", chatcmpl_id now);
        ("object", JStr "chat.completion.chunk");
        ("created", created_at now);
        ("model", JStr usedModel);
        ("choices",
         JArr [JObj [("index", JNum 0); ("delta", delta); ("finish_reason", finish)]]);
        ("usage", google_chunk_usage data)].

(** The [choices.map] of the default branch: [role] is set in each delta
    that lacks one. *)
Definition with_delta_role (choice : Json) : Json :=
  let delta := field "delta" choice in
  set_field "delta"
    (if truthy delta
     then set_field "role" (or_else (field "role" delta) (JStr "assistant")) delta
     else delta)
    choice.

(** [null] or [undefined]: reading a property of it throws. *)
Definition nullish (j : Json) : bool :=
  match j with
  | JUndefined | JNull => true
  | _ => false
  end.

(** A truthy value that is no string: [reason?.toLowerCase()] finds no
    such method on it and throws. *)
Definition no_string (j : Json) : bool :=
  match j with
  | JStr _ => false
  | _ => truthy j
  end.

(** Where [transformStreamingChunkToOpenAIFormat] throws a [TypeError]
    instead of returning a chunk: at a chunk that is [null]; in the
    Anthropic and Google branches that lower-case a stop reason that is
    no string; and in the last branch, where [data.choices?.map] is
    called on [choices] that are neither an array nor [null], and
    [choice.delta] is read of a [null] choice.  The function below gives
    the chunk of the other cases. *)
Definition transformThrows (usedProvider : Provider) (data : Json) : bool :=
  if nullish data then true
  else if String.eqb usedProvider "anthropic" then
    let type := field "type" data in
    if (is_str "content_block_delta" type && truthy (get [K "delta"; K "text"] data))%bool
    then false
    else if (is_str "content_block_start" type
             && is_str "tool_use" (get [K "content_block"; K "type"] data))%bool
    then false
    else if (is_str "content_block_delta" type
             && truthy (get [K "delta"; K "partial_json"] data))%bool
    then false
    else if (is_str "message_delta" type
             && truthy (get [K "delta"; K "stop_reason"] data))%bool
    then no_string (get [K "delta"; K "stop_reason"] data)
    else if (is_str "message_stop" type || truthy (field "stop_reason" data))%bool
    then no_string (field "stop_reason" data)
    else false
  else if one_of usedProvider google_family then
    if truthy (get [K "candidates"; I 0; K "content"; K "parts"; I 0; K "text"] data)
    then false
    else no_string (get [K "candidates"; I 0; K "finishReason"] data)
  else
    if (negb (truthy (field "id" data)) || negb (truthy (field "object" data)))%bool
    then false
    else
      match field "choices" data with
      | JArr choices => existsb nullish choices
      | JUndefined | JNull => false
      | _ => true
      end.

(** [transformStreamingChunkToOpenAIFormat] *)
Definition transformStreamingChunkToOpenAIFormat (now : Z) (usedProvider : Provider)
    (usedModel : string) (data : Json) : Json :=
  if String.eqb usedProvider "anthropic" then
    let type := field "type" data in
    if (is_str "content_block_delta" type && truthy (get [K "delta"; K "text"] data))%bool then
      anthropic_chunk now usedModel data
        (assistant_delta [("content", get [K "delta"; K "text"] data)]) JNull
    else if (is_str "content_block_start" type
             && is_str "tool_use" (get [K "content_block"; K "type"] data))%bool then
      anthropic_chunk now usedModel data
        (assistant_delta
           [("tool_calls",
             JArr [JObj [("index", or_else (field "index" data) (JNum 0));
                         ("id", get [K "content_block"; K "id"] data);
                         ("type", JStr "function");
                         ("function",
                          JObj [("name", get [K "content_block"; K "name"] data);
                                ("arguments", JStr EmptyString)])]])])
        JNull
    else if (is_str "content_block_delta" type
             && truthy (get [K "delta"; K "partial_json"] data))%bool then
      anthropic_chunk now usedModel data
        (assistant_delta
           [("tool_calls",
             JArr [JObj [("index", or_else (field "index" data) (JNum 0));
                         ("function",
                          JObj [("arguments", get [K "delta"; K "partial_json"] data)])]])])
        JNull
    else if (is_str "message_delta" type
             && truthy (get [K "delta"; K "stop_reason"] data))%bool then
      anthropic_chunk now usedModel data (assistant_delta [])
        (JStr (anthropic_stream_finish (as_str (get [K "delta"; K "stop_reason"] data))))
    else if (is_str "message_stop" type || truthy (field "stop_reason" data))%bool then
      anthropic_chunk now usedModel data (assistant_delta [])
        (JStr (anthropic_stream_finish
                 (as_str (or_else (field "stop_reason" data) (JStr "end_turn")))))
    else if truthy (get [K "delta"; K "text"] data) then
      anthropic_chunk now usedModel data
        (assistant_delta [("content", get [K "delta"; K "text"] data)]) JNull
    else
      anthropic_chunk now usedModel data (assistant_delta []) JNull
  else if one_of usedProvider google_family then
    if truthy (get [K "candidates"; I 0; K "content"; K "parts"; I 0; K "text"] data) then
      google_chunk now usedModel data
        (assistant_delta
           [("content", get [K "candidates"; I 0; K "content"; K "parts"; I 0; K "text"] data)])
        JNull
    else if truthy (get [K "candidates"; I 0; K "finishReason"] data) then
      google_chunk now usedModel data (assistant_delta [])
        (JStr (google_finish (as_str (get [K "candidates"; I 0; K "finishReason"] data))))
    else data
  else
    if (negb (truthy (field "id" data)) || negb (truthy (field "object" data)))%bool then
      JObj [("id", or_else (field "id" data) (chatcmpl_id now));
            ("object", JStr "chat.completion.chunk");
            ("created", or_else (field "created" data) (created_at now));
            ("model", or_else (field "model" data) (JStr usedModel));
            ("choices",
             or_else (field "choices" data)
               (JArr [JObj [("index", JNum 0);
                            ("delta",
                             if truthy (field "delta" data)
                             then set_field "role" (JStr "assistant") (field "delta" data)
                             else JObj [("content", or_else (field "content" data) (JStr EmptyString));
                                        ("tool_calls", or_else (field "tool_calls" data) JNull);
                                        ("role", JStr "assistant")]);
                            ("finish_reason", or_else (field "finish_reason" data) JNull)]]));
            ("usage", or_else (field "usage" data) JNull)]
    else
      set_field "choices"
        (match field "choices" data with
         | JArr choices => JArr (map with_delta_role choices)
         | other => other
         end)
        data.

End Streaming.

(* ================================================================== *)
(** * The tool calls of a streamed response                             *)
(* ================================================================== *)

(** [extractToolCallsFromProvider] and the accumulation of
    [fullToolCalls] in the line-by-line path of the read loop (lines
    2418-2476), for the [toolCalls] field of the streamed log row.  The
    values are read at the types the source declares: the pieces of a
    call are strings, [tool_calls] is an array of objects and an
    [index] is a natural number.  The accumulation inside the scanner
    of the Google providers (lines 2203-2225), whose objects carry no
    [choices], is left out. *)

Module ToolCalls.

Import Normalize.

(** An element of [fullToolCalls].  [id] and [name] are absent when the
    Anthropic block that starts the call lacks them. *)
Record ToolCall : Type := {
  tc_id : option string;
  tc_type : string;
  tc_name : option string;
  tc_arguments : string
}.

(** An element of [delta.tool_calls] of an OpenAI-format chunk, read at
    the types the accumulation uses it at; [index] is a natural
    number. *)
Record ToolCallDelta : Type := {
  d_index : nat;
  d_id : option string;
  d_type : option string;
  d_name : option string;
  d_arguments : option string
}.

(** [deltaToolCall.index || 0] *)
Definition index_of (deltaToolCall : Json) : nat :=
  match as_num (field "index" deltaToolCall) with
  | Some q => Z.to_nat (Qfloor q)
  | None => 0%nat
  end.

Definition readDelta (deltaToolCall : Json) : ToolCallDelta :=
  {| d_index := index_of deltaToolCall;
     d_id := as_str (field "id" deltaToolCall);
     d_type := as_str (field "type" deltaToolCall);
     d_name := as_str (get [K "function"; K "name"] deltaToolCall);
     d_arguments := as_str (get [K "function"; K "arguments"] deltaToolCall) |}.

(** The result of [extractToolCallsFromProvider]: the calls the
    Anthropic branch builds, or the deltas of an OpenAI-format chunk. *)
Inductive ToolCallsChunk : Type :=
| Calls (l : list ToolCall)
| Deltas (l : list ToolCallDelta).

(** [extractToolCallsFromProvider] *)
Definition extractToolCallsFromProvider (data : Json) (provider : Provider)
  : option ToolCallsChunk :=
  if String.eqb provider "anthropic" then
    if (is_str "content_block_start" (field "type" data)
        && is_str "tool_use" (get [K "content_block"; K "type"] data))%bool
    then Some (Calls [{| tc_id := as_str (get [K "content_block"; K "id"] data);
                         tc_type := "function";
                         tc_name := as_str (get [K "content_block"; K "name"] data);
                         tc_arguments := EmptyString |}])
    else if is_str "content_block_delta" (field "type" data) then
      match str_at [K "delta"; K "partial_json"] data with
      | Some partial_json =>
          Some (Calls [{| tc_id := Some EmptyString; tc_type := "function";
                          tc_name := Some EmptyString;
                          tc_arguments := partial_json |}])
      | None => None
      end
    else None
  else
    match get [K "choices"; I 0; K "delta"; K "tool_calls"] data with
    | JArr items => Some (Deltas (map readDelta items))
    | _ => None
    end.

(** The call the loop pushes to fill the array up to an index. *)
Definition blank : ToolCall :=
  {| tc_id := Some EmptyString; tc_type := "function"; tc_name := Some EmptyString;
     tc_arguments := EmptyString |}.

(** [while (fullToolCalls.length <= index) fullToolCalls.push({...})] *)
Definition pad (index : nat) (calls : list ToolCall) : list ToolCall :=
  (calls ++ repeat blank (S index - List.length calls))%list.

(** [fullToolCalls[index] = f(fullToolCalls[index])] within the array. *)
Fixpoint update_at (index : nat) (f : ToolCall -> ToolCall) (calls : list ToolCall)
    {struct calls} : list ToolCall :=
  match calls, index with
  | [], _ => []
  | c :: r, O => f c :: r
  | c :: r, S i => c :: update_at i f r
  end.

Definition add_arguments (arguments : string) (tc : ToolCall) : ToolCall :=
  {| tc_id := tc_id tc; tc_type := tc_type tc; tc_name := tc_name tc;
     tc_arguments := (tc_arguments tc ++ arguments)%string |}.

(** Lines 2444-2475: one delta of an OpenAI-format chunk. *)
Definition applyDelta (calls : list ToolCall) (d : ToolCallDelta) : list ToolCall :=
  update_at (d_index d)
    (fun tc =>
       {| tc_id := match str_or_null (d_id d) with Some i => Some i | None => tc_id tc end;
          tc_type := match str_or_null (d_type d) with Some t => t | None => tc_type tc end;
          tc_name :=
            match str_or_null (d_name d) with Some n => Some n | None => tc_name tc end;
          tc_arguments :=
            (tc_arguments tc
             ++ match str_or_null (d_arguments d) with
                | Some a => a
                | None => EmptyString
                end)%string |})
    (pad (d_index d) calls).

(** Lines 2434-2440: the arguments go to the last call, if there is
    one. *)
Definition append_to_last (arguments : string) (calls : list ToolCall)
  : list ToolCall :=
  match List.length calls with
  | O => calls
  | S lastIndex => update_at lastIndex (add_arguments arguments) calls
  end.

(** Lines 2418-2476: what one parsed line of the line-by-line path does
    to [fullToolCalls]. *)
Definition accumulate (usedProvider : Provider)
    (fullToolCalls : option (list ToolCall)) (data : Json)
  : option (list ToolCall) :=
  match extractToolCallsFromProvider data usedProvider with
  | None => fullToolCalls
  | Some toolCallsChunk =>
      let calls := match fullToolCalls with Some l => l | None => [] end in
      Some
        (if String.eqb usedProvider "anthropic" then
           match toolCallsChunk with
           | Calls l =>
               fold_left
                 (fun calls toolCall =>
                    if is_str "content_block_start" (field "type" data)
                    then (calls ++ [toolCall])%list
                    else if is_str "content_block_delta" (field "type" data)
                         then append_to_last (tc_arguments toolCall) calls
                         else calls)
                 l calls
           | Deltas _ => calls
           end
         else
           match toolCallsChunk with
           | Deltas l => fold_left applyDelta l calls
           | Calls _ => calls
           end)
  end.

End ToolCalls.

(* ================================================================== *)
(** * The chat-completion handler: data                                 *)
(* ================================================================== *)

Module Handler.

Import Normalize Streaming.

(** ** Rows of the datastore *)

(** Modelled from the spec: the [ApiKey] row of [@llmgateway/db], an
    opaque bearer token mapped to a project and a status.  The handler
    reads [id] and [projectId]. *)
Record ApiKey : Type := {
  ak_id : string;
  ak_token : string;
  ak_projectId : string;
  ak_status : string
}.

(** The [Project] row: organization and billing mode. *)
Record Project : Type := {
  pr_id : string;
  pr_organizationId : string;
  pr_mode : string
}.

Record Organization : Type := {
  org_id : string;
  org_credits : Q
}.

(** A [providerKey] row. *)
Record ProviderKey : Type := {
  pk_id : string;
  pk_organizationId : string;
  pk_provider : Provider;
  pk_token : string;
  pk_baseUrl : option string;
  pk_status : string
}.

(** ** The request *)

Record Request : Type := {
  (** [c.req.header("Authorization")] and [c.req.header("x-request-id")] *)
  h_authorization : option string;
  h_request_id : option string;
  (** [c.req.raw.headers.entries()]: one entry for each header name,
      the name in lower case, the values of a repeated header joined *)
  h_all : list (string * string);
  (** the validated JSON body *)
  b_model : string;
  b_messages : list Message;
  b_temperature : option Q;
  b_max_tokens : option Q;
  b_top_p : option Q;
  b_frequency_penalty : option Q;
  b_presence_penalty : option Q;
  b_response_format : option string;
  b_stream : bool;
  b_tools : Json;
  b_tool_choice : Json;
  b_reasoning_effort : option string
}.

(** ** The upstream *)

(** A streamed body: the chunks that [reader.read()] yields until the
    stream is done, each decoded with [TextDecoder].  A read that fails
    with another error than an abort ends the loop like the end of the
    stream does. *)
Definition StreamBody : Type := list string.

(** The [Response] of [fetch]. *)
Record UpstreamResponse : Type := {
  r_ok : bool;
  r_status : Z;
  r_statusText : string;
  (** [await res.text()] *)
  r_text : string;
  (** [await res.json()]; [None] when it throws *)
  r_json : option Json;
  (** [res.body]; [None] when the response has none *)
  r_body : option StreamBody
}.

(** What [fetch] does when the client does not abort: it resolves, or
    rejects with an error that is not an [AbortError]. *)
Inductive FetchOutcome : Type :=
| Resolves (res : UpstreamResponse)
| Rejects (message : string).

(** When the client connection is closed: never, while the [fetch] is
    pending, or while the read after [n] chunks is pending. *)
Inductive ClientAbort : Type :=
| NoAbort
| AbortDuringFetch
| AbortAfterChunks (n : nat).

(** ** Costs *)

(** The result of [calculateCosts]. *)
Record Costs : Type := {
  inputCost : option Q;
  outputCost : option Q;
  cachedInputCost : option Q;
  requestCost : option Q;
  totalCost : option Q;
  estimatedCost : bool
}.

(** ** Everything the handler imports or reads from its surroundings *)

Record Env : Type := {
  (** the catalog of [@llmgateway/models] *)
  providers : list ProviderDefinition;
  models : list ModelDefinition;
  getCheapestFromAvailableProviders :
    list ProviderModelMapping -> ModelDefinition -> option ProviderModelMapping;
  (** [getProviderEndpoint(provider, baseUrl, model, token)]: [None]
      when it throws, [Some None] when it returns [undefined] *)
  getProviderEndpoint :
    Provider -> option string -> string -> option string -> option (option string);
  getModelStreamingSupport : string -> Provider -> option bool;
  (** [../lib/provider] and [process.env] *)
  hasProviderEnvironmentToken : Provider -> bool;
  getProviderEnvVar : Provider -> option string;
  process_env : string -> option string;
  (** [../lib/costs] *)
  calculateCosts :
    string -> Provider -> option Q -> option Q -> option Q ->
    list Message -> option string -> Costs;
  (** gpt-tokenizer *)
  encodeChat : list Message -> option nat;
  encode : string -> option nat;
  (** [JSON.parse(text)]; [None] when it throws *)
  JSON_parse : string -> option Json;
  (** the Mistral fence post-step *)
  unwrapJsonFence : string -> string;
  includesJsonFence : string -> bool;
  (** the datastore *)
  apiKey_findFirst : string -> option ApiKey;
  providerKey_rows : list ProviderKey;
  (** [../lib/cache] *)
  getProject : string -> option Project;
  getOrganization : string -> option Organization;
  getProviderKey : string -> Provider -> option ProviderKey;
  getCustomProviderKey : string -> string -> option ProviderKey;
  checkCustomProviderExists : string -> string -> bool;
  (** [isCachingEnabled(project.id)]: the flag and the duration *)
  isCachingEnabled : string -> bool * Z;
  (** [generateCacheKey]; the key is a [string] *)
  generateCacheKey :
    string -> list Message -> option Q -> option Q -> option Q -> option Q ->
    option Q -> option string -> string;
  getCache : string -> option Json;
  (** the clock: [Date.now()] when the request arrives, and the
      milliseconds that pass until the log row is written *)
  now : Z;
  elapsed : Z;
  (** [shortid(40)] *)
  shortid : string;
  (** [JSON.stringify(value).length] *)
  stringify_length : Json -> nat;
  (** the text of a number in a template literal *)
  numberText : Q -> string;
  (** the upstream and the client *)
  upstream : FetchOutcome;
  clientAbort : ClientAbort
}.

(** ** Log rows *)

(** The result of [createLogEntry]. *)
Record BaseLogEntry : Type := {
  requestId : string;
  organizationId : string;
  projectId : string;
  apiKeyId : string;
  usedMode : string;
  usedModel : string;
  usedProvider : string;
  requestedModel : string;
  requestedProvider : option string;
  messages : list Message;
  temperature : option Q;
  maxTokens : option Q;
  topP : option Q;
  frequencyPenalty : option Q;
  presencePenalty : option Q;
  customHeaders : option (list (string * string));
  mode : string
}.

(** The argument of [insertLog]: the base entry and the fields each call
    site adds.  A cost field a call site leaves out is [None], an
    [estimatedCost] it leaves out is [false]. *)
Record LogRow : Type := {
  base : BaseLogEntry;
  duration : Z;
  responseSize : nat;
  l_content : option string;
  l_reasoningContent : option string;
  finishReason : option string;
  promptTokens : option Q;
  completionTokens : option Q;
  totalTokens : option Q;
  reasoningTokens : option Q;
  cachedTokens : option Q;
  hasError : bool;
  streamed : bool;
  canceled : bool;
  errorStatus : option Z;
  l_inputCost : option Q;
  l_outputCost : option Q;
  l_cachedInputCost : option Q;
  l_requestCost : option Q;
  cost : option Q;
  l_estimatedCost : bool;
  cached : bool
}.

(** ** Effects *)

(** An SSE event written with [stream.writeSSE]. *)
Inductive SSEData : Type :=
| Text (s : string)
| Stringified (j : Json).

Record SSEEvent : Type := {
  sse_event : option string;
  sse_data : SSEData;
  sse_id : nat
}.

(** A [fetch] to the upstream. *)
Record Fetch : Type := {
  f_url : string;
  f_provider : Provider;
  f_token : string;
  f_model : string;
  f_stream : bool;
  f_cancellable : bool
}.

(** What a run of the handler leaves behind: the rows given to
    [insertLog], the requests sent upstream, the events written to the
    client and the entries given to [setCache], each in order. *)
Record Effects : Type := {
  logs : list LogRow;
  fetches : list Fetch;
  events : list SSEEvent;
  cacheSets : list (string * Json * Z)
}.

Definition no_effects : Effects :=
  {| logs := []; fetches := []; events := []; cacheSets := [] |}.

(** What the handler throws: an [HTTPException], another error before
    the response has started, or an error inside the [streamSSE]
    callback, when the event stream is already open. *)
Inductive Exn : Type :=
| HTTPException (status : Z) (message : string)
| JsError (message : string)
| StreamError (message : string).

(** What the handler returns. *)
Inductive Reply : Type :=
| JsonReply (status : Z) (body : Json)
| SSEReply.

(** The handler's monad: effects are accumulated, an exception ends the
    run and keeps the effects made so far. *)
Definition M (A : Type) : Type := Effects -> (Exn + A) * Effects.

Definition ret {A : Type} (a : A) : M A := fun e => (inr a, e).

Definition bind {A B : Type} (m : M A) (k : A -> M B) : M B :=
  fun e =>
    match m e with
    | (inl x, e') => (inl x, e')
    | (inr a, e') => k a e'
    end.

Definition throw {A : Type} (x : Exn) : M A := fun e => (inl x, e).

Definition insertLog (row : LogRow) : M unit :=
  fun e => (inr tt, {| logs := logs e ++ [row]; fetches := fetches e;
                       events := events e; cacheSets := cacheSets e |}).

Definition sendFetch (f : Fetch) : M unit :=
  fun e => (inr tt, {| logs := logs e; fetches := fetches e ++ [f];
                       events := events e; cacheSets := cacheSets e |}).

(** [eventId++]: the events of a response are numbered from 0. *)
Fixpoint numbered (start : nat) (l : list (option string * SSEData))
  : list SSEEvent :=
  match l with
  | [] => []
  | (ev, d) :: r =>
      {| sse_event := ev; sse_data := d; sse_id := start |} :: numbered (S start) r
  end.

Definition writeSSE (evs : list (option string * SSEData)) : M unit :=
  fun e => (inr tt, {| logs := logs e; fetches := fetches e;
                       events := events e ++ numbered (List.length (events e)) evs;
                       cacheSets := cacheSets e |}).

Definition setCache (key : string) (value : Json) (ttl : Z) : M unit :=
  fun e => (inr tt, {| logs := logs e; fetches := fetches e;
                       events := events e;
                       cacheSets := cacheSets e ++ [(key, value, ttl)] |}).

Declare Scope handler_scope.
Delimit Scope handler_scope with handler.

Notation "x <- m ;; k" := (bind m (fun x => k))
  (at level 100, m at next level, right associativity) : handler_scope.
Notation "m ;;; k" := (bind m (fun _ => k))
  (at level 100, right associativity) : handler_scope.

Definition run {A : Type} (m : M A) : (Exn + A) * Effects := m no_effects.

(* ================================================================== *)
(** * The chat-completion handler: stages                               *)
(* ================================================================== *)

Open Scope handler_scope.

Definition http {A : Type} (status : Z) (message : string) : M A :=
  throw (HTTPException status message).

(** [customHeaders[suffix] = value] on the object literal [{}]: the
    value of the key is set, in place when the key is there. *)
Fixpoint set_header (k v : string) (l : list (string * string))
  : list (string * string) :=
  match l with
  | [] => [(k, v)]
  | (k', v') :: r =>
      if String.eqb k k' then (k, v) :: r else (k', v') :: set_header k v r
  end.

(** [extractCustomHeaders] (lines 187-203), over the entries of the
    [Headers] object.  For the suffix [__proto__] the assignment reaches
    the setter that [{}] inherits from [Object.prototype], which ignores
    a string: no property is made. *)
Definition extractCustomHeaders (headers : list (string * string))
  : list (string * string) :=
  fold_left
    (fun acc kv =>
       let key := toLowerCase (fst kv) in
       if startsWith "x-llmgateway-" key
       then
         let suffix :=
           String.substring (String.length "x-llmgateway-")
             (String.length key - String.length "x-llmgateway-") key in
         if String.eqb suffix "__proto__" then acc
         else set_header suffix (snd kv) acc
       else acc)
    headers [].

(** [createLogEntry] *)
Definition createLogEntry (requestId : string) (project : Project) (apiKey : ApiKey)
    (providerKeyId : option string) (usedModel usedProvider requestedModel : string)
    (requestedProvider : option string) (messages : list Message)
    (temperature max_tokens top_p frequency_penalty presence_penalty : option Q)
    (customHeaders : list (string * string)) : BaseLogEntry :=
  {| requestId := requestId;
     organizationId := pr_organizationId project;
     projectId := ak_projectId apiKey;
     apiKeyId := ak_id apiKey;
     usedMode := if truthy_str providerKeyId then "api-keys" else "credits";
     usedModel := usedModel;
     usedProvider := usedProvider;
     requestedModel := requestedModel;
     requestedProvider := requestedProvider;
     messages := messages;
     temperature := num_or_null temperature;
     maxTokens := num_or_null max_tokens;
     topP := num_or_null top_p;
     frequencyPenalty := num_or_null frequency_penalty;
     presencePenalty := num_or_null presence_penalty;
     customHeaders :=
       if Nat.ltb 0 (List.length customHeaders) then Some customHeaders else None;
     mode := pr_mode project |}.

Section Stages.

Variable env : Env.
Variable req : Request.

(** [getProviderTokenFromEnv] *)
Definition getProviderTokenFromEnv (usedProvider : Provider) : M string :=
  match str_or_null (getProviderEnvVar env usedProvider) with
  | None =>
      http 400 ("No environment variable set for provider: " ++ usedProvider)
  | Some envVar =>
      match str_or_null (process_env env envVar) with
      | None =>
          http 400 ("No API key set in environment for provider: " ++ usedProvider)
      | Some token => ret token
      end
  end.

Definition has_provider (m : ModelDefinition) (p : Provider) : bool :=
  existsb (fun pm => String.eqb (providerId pm) p) (Catalog.providers m).

Definition has_model_name (m : ModelDefinition) (n : string) : bool :=
  existsb (fun pm => String.eqb (modelName pm) n) (Catalog.providers m).

Definition known_provider (p : Provider) : bool :=
  existsb (fun d => String.eqb (provider_id d) p) (providers env).

(** What the first block of the handler settles: the requested model,
    the requested provider and the name of a custom provider. *)
Record Requested : Type := {
  rq_model : string;
  rq_provider : option Provider;
  rq_customProviderName : option string
}.

(** Lines 1249-1330: the model string is matched against the catalog. *)
Definition resolveRequested : M Requested :=
  let modelInput := b_model req in
  if (String.eqb modelInput "auto" || String.eqb modelInput "custom")%bool then
    ret {| rq_model := modelInput; rq_provider := Some "llmgateway";
           rq_customProviderName := None |}
  else if includes_char "/" modelInput then
    let parts := split "/" modelInput in
    let providerCandidate := hd EmptyString parts in
    let modelName := join "/" (tl parts) in
    let customProviderName :=
      if known_provider providerCandidate then None else Some providerCandidate in
    let requestedProvider :=
      if known_provider providerCandidate then providerCandidate else "custom" in
    if String.eqb requestedProvider "custom" then
      ret {| rq_model := modelName; rq_provider := Some requestedProvider;
             rq_customProviderName := customProviderName |}
    else
      let modelDef :=
        match find (fun m => String.eqb (id m) modelName) (models env) with
        | Some m => Some m
        | None =>
            find (fun m =>
                    existsb (fun p => String.eqb (Catalog.modelName p) modelName
                                      && String.eqb (providerId p) requestedProvider)%bool
                      (Catalog.providers m))
              (models env)
        end in
      match modelDef with
      | None => http 400 ("Requested model " ++ modelName ++ " not supported")
      | Some modelDef =>
          if negb (has_provider modelDef requestedProvider) then
            http 400 ("Provider " ++ requestedProvider
                      ++ " does not support model " ++ modelName)
          else
            let requestedModel :=
              match find (fun p => String.eqb (providerId p) requestedProvider)
                      (Catalog.providers modelDef) with
              | Some providerMapping => Catalog.modelName providerMapping
              | None => modelName
              end in
            ret {| rq_model := requestedModel; rq_provider := Some requestedProvider;
                   rq_customProviderName := customProviderName |}
      end
  else
    match find (fun m => String.eqb (id m) modelInput) (models env) with
    | Some _ =>
        ret {| rq_model := modelInput; rq_provider := None;
               rq_customProviderName := None |}
    | None =>
        match find (fun m => has_model_name m modelInput) (models env) with
        | Some model =>
            http 400
              ("Model " ++ modelInput
               ++ " must be requested with a provider prefix. Use the format: "
               ++ match find (fun p => String.eqb (Catalog.modelName p) modelInput)
                          (Catalog.providers model) with
                  | Some provider => providerId provider
                  | None => "undefined"
                  end
               ++ "/" ++ id model)
        | None => http 400 ("Requested model " ++ modelInput ++ " not supported")
        end
    end.

(** The mock [modelInfo] of a custom provider. *)
Definition custom_model_info (model : string) : ModelDefinition :=
  {| id := model;
     Catalog.providers :=
       [{| providerId := "custom"; modelName := model; maxOutput := Some 4096%Q;
           streaming := true; reasoning := None |}];
     jsonOutput := Some true;
     deprecatedAt := None;
     deactivatedAt := None |}.

Definition past (date : option Z) : bool :=
  match date with
  | Some d => d <? now env
  | None => false
  end.

Definition is_true (o : option bool) : bool :=
  match o with
  | Some b => b
  | None => false
  end.

(** Lines 1332-1416: the provider is known, the model has a catalog
    entry, is not deactivated and supports what the request asks. *)
Definition validateModel (r : Requested) : M ModelDefinition :=
  if (truthy_str (rq_provider r)
      && negb (match rq_provider r with
               | Some p => String.eqb p "custom"
               | None => false
               end)
      && negb (match rq_provider r with
               | Some p => known_provider p
               | None => false
               end))%bool
  then http 400 ("Requested provider "
                 ++ match rq_provider r with Some p => p | None => EmptyString end
                 ++ " not supported")
  else
    modelInfo <-
      (if match rq_provider r with
          | Some p => String.eqb p "custom"
          | None => false
          end
       then ret (custom_model_info (rq_model r))
       else
         match find (fun m => String.eqb (id m) (rq_model r)) (models env) with
         | Some m => ret m
         | None =>
             match find (fun m => has_model_name m (rq_model r)) (models env) with
             | Some m => ret m
             | None => http 400 ("Unsupported model: " ++ rq_model r)
             end
         end) ;;
    if past (deactivatedAt modelInfo) then
      http 410 ("Model " ++ rq_model r
                ++ " has been deactivated and is no longer available")
    else if (match b_response_format req with
             | Some t => String.eqb t "json_object"
             | None => false
             end
             && negb (is_true (jsonOutput modelInfo)))%bool then
      http 400 ("Model " ++ rq_model r ++ " does not support JSON output mode")
    else if (match b_reasoning_effort req with Some _ => true | None => false end
             && negb (existsb (fun p => is_true (reasoning p))
                        (Catalog.providers modelInfo)))%bool then
      http 400 ("Model " ++ rq_model r
                ++ " does not support reasoning. Remove the reasoning_effort"
                ++ " parameter or use a reasoning-capable model.")
    else ret modelInfo.

(** Lines 1421-1456: the bearer token and its api-key row. *)
Definition authenticate : M ApiKey :=
  match str_or_null (h_authorization req) with
  | None =>
      http 401 ("Unauthorized: No Authorization header provided."
                ++ " Expected 'Bearer your-api-token'")
  | Some auth =>
      let parts := split "Bearer " auth in
      if negb (Nat.eqb (List.length parts) 2) then
        http 401 ("Unauthorized: Invalid Authorization header format."
                  ++ " Expected 'Bearer your-api-token'")
      else
        match str_or_null (Some (nth 1 parts EmptyString)) with
        | None => http 401 "Unauthorized: No token provided"
        | Some token =>
            match apiKey_findFirst env token with
            | None =>
                http 401 ("Unauthorized: Invalid LLMGateway API token. Please make"
                          ++ " sure the token is not deleted or disabled. Go to the"
                          ++ " LLMGateway 'API Keys' page to generate a new token.")
            | Some apiKey => ret apiKey
            end
        end
  end.

(** Lines 1459-1478: the project, and the custom provider if one was
    named. *)
Definition loadProject (r : Requested) (apiKey : ApiKey) : M Project :=
  match getProject env (ak_projectId apiKey) with
  | None => http 500 "Could not find project"
  | Some project =>
      match rq_provider r, str_or_null (rq_customProviderName r) with
      | Some p, Some customProviderName =>
          if (String.eqb p "custom"
              && negb (checkCustomProviderExists env (pr_organizationId project)
                         customProviderName))%bool
          then http 400 ("Provider '" ++ customProviderName ++ "' not found.")
          else ret project
      | _, _ => ret project
      end
  end.

(** ** Routing *)

Definition includes (l : list Provider) (p : Provider) : bool :=
  existsb (String.eqb p) l.

(** [[...new Set(l)]]: the first occurrence of each element. *)
Fixpoint unique (seen l : list Provider) : list Provider :=
  match l with
  | [] => []
  | p :: r => if includes seen p then unique seen r else p :: unique (p :: seen) r
  end.

(** [db.query.providerKey.findMany] for the active keys of an
    organization. *)
Definition active_keys (organizationId : string) : list ProviderKey :=
  filter (fun k => String.eqb (pk_status k) "active"
                   && String.eqb (pk_organizationId k) organizationId)%bool
    (providerKey_rows env).

(** The providers with a token in the environment, the gateway's own
    pseudo-provider left out. *)
Definition envProviders : list Provider :=
  filter (hasProviderEnvironmentToken env)
    (map provider_id
       (filter (fun p => negb (String.eqb (provider_id p) "llmgateway"))
          (providers env))).

(** The [availableProviders] of the [auto] branch. *)
Definition availableProviders (project : Project) : list Provider :=
  if String.eqb (pr_mode project) "api-keys" then
    map pk_provider (active_keys (pr_organizationId project))
  else if (String.eqb (pr_mode project) "credits"
           || String.eqb (pr_mode project) "hybrid")%bool then
    if String.eqb (pr_mode project) "credits" then envProviders
    else unique []
           (map pk_provider (active_keys (pr_organizationId project)) ++ envProviders)
  else [].

(** The loop over the catalog of the [auto] branch: the first mapping
    with an available provider of the first model that is neither
    [auto] nor [custom] nor deprecated and has one. *)
Fixpoint autoSelect (available : list Provider) (catalog : list ModelDefinition)
  : option ProviderModelMapping :=
  match catalog with
  | [] => None
  | modelDef :: rest =>
      if (String.eqb (id modelDef) "auto" || String.eqb (id modelDef) "custom")%bool
      then autoSelect available rest
      else if past (deprecatedAt modelDef) then autoSelect available rest
      else
        match filter (fun p => includes available (providerId p))
                (Catalog.providers modelDef) with
        | first :: _ => Some first
        | [] => autoSelect available rest
        end
  end.

(** Lines 1481-1619: [usedProvider] and [usedModel]. *)
Definition routeModel (r : Requested) (modelInfo : ModelDefinition)
    (project : Project) : M (option Provider * string) :=
  let usedProvider := rq_provider r in
  let usedModel := rq_model r in
  if String.eqb usedModel "auto" then
    let selected :=
      match autoSelect (availableProviders project) (models env) with
      | Some first => (Some (providerId first), modelName first)
      | None => (usedProvider, usedModel)
      end in
    if (match fst selected with
        | Some p => String.eqb p "llmgateway"
        | None => false
        end
        || negb (truthy_str (fst selected)))%bool
    then ret (Some "openai", "gpt-4o-mini")
    else ret selected
  else if String.eqb usedModel "custom" then
    ret (Some "llmgateway", "custom")
  else if negb (truthy_str usedProvider) then
    match Catalog.providers modelInfo with
    | [only] => ret (Some (providerId only), modelName only)
    | _ =>
        let providerIds := map providerId (Catalog.providers modelInfo) in
        let providerKeys :=
          filter (fun k => includes providerIds (pk_provider k))
            (active_keys (pr_organizationId project)) in
        let availableProviders :=
          if String.eqb (pr_mode project) "api-keys"
          then map pk_provider providerKeys
          else envProviders in
        match filter (fun p => includes availableProviders (providerId p))
                (Catalog.providers modelInfo) with
        | [] =>
            http 400
              (if String.eqb (pr_mode project) "api-keys"
               then "No provider key set for any of the providers that support model "
                    ++ usedModel
                    ++ ". Please add the provider key in the settings or switch"
                    ++ " the project mode to credits or hybrid."
               else "No available provider could be found for model " ++ usedModel)
        | first :: others =>
            match find (fun m => String.eqb (id m) usedModel) (models env) with
            | Some modelWithPricing =>
                match getCheapestFromAvailableProviders env (first :: others)
                        modelWithPricing with
                | Some cheapestResult =>
                    ret (Some (providerId cheapestResult), modelName cheapestResult)
                | None => ret (Some (providerId first), modelName first)
                end
            | None => ret (Some (providerId first), modelName first)
            end
        end
    end
  else ret (usedProvider, usedModel).

(** Lines 1621-1625 *)
Definition requireProvider (routed : option Provider * string)
  : M (Provider * string) :=
  match str_or_null (fst routed) with
  | None => http 500 "An error occurred while routing the request"
  | Some usedProvider => ret (usedProvider, snd routed)
  end.

(** Lines 1629-1654: [finalModelInfo] and [baseModelName]. *)
Definition finalModelInfo (usedProvider : Provider) (usedModel : string)
  : option ModelDefinition :=
  if String.eqb usedProvider "custom" then Some (custom_model_info usedModel)
  else find (fun m => String.eqb (id m) usedModel || has_model_name m usedModel)%bool
         (models env).

Definition baseModelName (usedProvider : Provider) (usedModel : string) : string :=
  if String.eqb usedProvider "custom" then usedModel
  else
    match finalModelInfo usedProvider usedModel with
    | Some m => match str_or_null (Some (id m)) with Some i => i | None => usedModel end
    | None => usedModel
    end.

(** ** Credentials *)

Definition stored_key (project : Project) (usedProvider : Provider)
    (customProviderName : option string) : option ProviderKey :=
  match str_or_null customProviderName with
  | Some name =>
      if String.eqb usedProvider "custom"
      then getCustomProviderKey env (pr_organizationId project) name
      else getProviderKey env (pr_organizationId project) usedProvider
  | None => getProviderKey env (pr_organizationId project) usedProvider
  end.

(** The credits check and the environment token of the [credits] mode
    and of the [hybrid] mode without a stored key. *)
Definition credits_token (project : Project) (usedProvider : Provider)
    (insufficient : string) : M string :=
  match getOrganization env (pr_organizationId project) with
  | None => http 500 "Could not find organization"
  | Some organization =>
      if Qle_bool (org_credits organization) 0 then http 402 insufficient
      else getProviderTokenFromEnv usedProvider
  end.

(** Lines 1660-1751: the provider key, if one is used, and the token
    sent upstream. *)
Definition resolveCredential (project : Project) (usedProvider : Provider)
    (customProviderName : option string) : M (option ProviderKey * string) :=
  if (String.eqb (pr_mode project) "credits"
      && String.eqb usedProvider "custom")%bool then
    http 400 ("Custom providers are not supported in credits mode. Please change"
              ++ " your project settings to API keys or hybrid mode.")
  else
    chosen <-
      (if String.eqb (pr_mode project) "api-keys" then
         match stored_key project usedProvider customProviderName with
         | None =>
             http 400
               ("No API key set for provider: "
                ++ match str_or_null customProviderName with
                   | Some name =>
                       if String.eqb usedProvider "custom" then name else usedProvider
                   | None => usedProvider
                   end
                ++ ". Please add a provider key in your settings or add credits"
                ++ " and switch to credits or hybrid mode.")
         | Some providerKey => ret (Some providerKey, pk_token providerKey)
         end
       else if String.eqb (pr_mode project) "credits" then
         token <- credits_token project usedProvider
                    "Organization has insufficient credits" ;;
         ret (None, token)
       else if String.eqb (pr_mode project) "hybrid" then
         match stored_key project usedProvider customProviderName with
         | Some providerKey => ret (Some providerKey, pk_token providerKey)
         | None =>
             token <- credits_token project usedProvider
                        ("No API key set for provider and organization has"
                         ++ " insufficient credits") ;;
             ret (None, token)
         end
       else http 400 ("Invalid project mode: " ++ pr_mode project)) ;;
    if negb (truthy_str (Some (snd chosen))) then http 500 "No token"
    else ret chosen.

(** Lines 1753-1782: the upstream URL. *)
Definition resolveUrl (usedProvider : Provider) (usedModel : string)
    (providerKey : option ProviderKey) (usedToken : string) : M string :=
  match getProviderEndpoint env usedProvider
          (str_or_null (match providerKey with
                        | Some k => pk_baseUrl k
                        | None => None
                        end))
          usedModel
          (if String.eqb usedProvider "google-ai-studio" then Some usedToken else None)
  with
  | None =>
      if (String.eqb usedProvider "llmgateway"
          && negb (String.eqb usedModel "custom"))%bool
      then http 400 ("Invalid model: " ++ usedModel ++ " for provider: " ++ usedProvider)
      else http 500 ("Could not use provider: " ++ usedProvider ++ ". ")
  | Some url =>
      match str_or_null url with
      | None =>
          http 400 ("No base URL set for provider: " ++ usedProvider
                    ++ ". Please add a base URL in your settings.")
      | Some u => ret u
      end
  end.

(** ** What every log row of a request shares *)

Record Context : Type := {
  c_requestId : string;
  c_project : Project;
  c_apiKey : ApiKey;
  c_providerKey : option ProviderKey;
  c_usedModel : string;
  c_usedProvider : Provider;
  c_requestedModel : string;
  c_requestedProvider : option Provider;
  c_customHeaders : list (string * string);
  c_url : string;
  c_usedToken : string
}.

(** The call of [createLogEntry] that every log site repeats. *)
Definition baseLogEntry (c : Context) : BaseLogEntry :=
  createLogEntry (c_requestId c) (c_project c) (c_apiKey c)
    (option_map pk_id (c_providerKey c))
    (c_usedModel c) (c_usedProvider c) (c_requestedModel c) (c_requestedProvider c)
    (b_messages req) (b_temperature req) (b_max_tokens req) (b_top_p req)
    (b_frequency_penalty req) (b_presence_penalty req) (c_customHeaders c).

(** The row of a cache hit (lines 1824-1848). *)
Definition cachedLogRow (c : Context) (cachedResponse : Json) : LogRow :=
  {| base := baseLogEntry c;
     duration := 0;
     responseSize := stringify_length env cachedResponse;
     l_content := str_at [K "choices"; I 0; K "message"; K "content"] cachedResponse;
     l_reasoningContent :=
       str_at [K "choices"; I 0; K "message"; K "reasoning_content"] cachedResponse;
     finishReason := str_at [K "choices"; I 0; K "finish_reason"] cachedResponse;
     promptTokens := num_at [K "usage"; K "prompt_tokens"] cachedResponse;
     completionTokens := num_at [K "usage"; K "completion_tokens"] cachedResponse;
     totalTokens := num_at [K "usage"; K "total_tokens"] cachedResponse;
     reasoningTokens := num_at [K "usage"; K "reasoning_tokens"] cachedResponse;
     cachedTokens := None;
     hasError := false;
     streamed := false;
     canceled := false;
     errorStatus := None;
     l_inputCost := Some 0%Q;
     l_outputCost := Some 0%Q;
     l_cachedInputCost := Some 0%Q;
     l_requestCost := Some 0%Q;
     cost := Some 0%Q;
     l_estimatedCost := false;
     cached := true |}.

(** The row of a canceled request (lines 1959-1978 and 2796-2816). *)
Definition canceledLogRow (c : Context) (isStream : bool) : LogRow :=
  {| base := baseLogEntry c;
     duration := elapsed env;
     responseSize := 0;
     l_content := None;
     l_reasoningContent := None;
     finishReason := Some "canceled";
     promptTokens := None;
     completionTokens := None;
     totalTokens := None;
     reasoningTokens := None;
     cachedTokens := None;
     hasError := false;
     streamed := isStream;
     canceled := true;
     errorStatus := None;
     l_inputCost := None;
     l_outputCost := None;
     l_cachedInputCost := None;
     l_requestCost := None;
     cost := None;
     l_estimatedCost := false;
     cached := false |}.

(** The row of an upstream error (lines 2043-2066 and 2858-2882). *)
Definition errorLogRow (c : Context) (isStream : bool) (res : UpstreamResponse)
  : LogRow :=
  {| base := baseLogEntry c;
     duration := elapsed env;
     responseSize := String.length (r_text res);
     l_content := None;
     l_reasoningContent := None;
     finishReason := Some (getFinishReasonForError (r_status res));
     promptTokens := None;
     completionTokens := None;
     totalTokens := None;
     reasoningTokens := None;
     cachedTokens := None;
     hasError := true;
     streamed := isStream;
     canceled := false;
     errorStatus := Some (r_status res);
     l_inputCost := None;
     l_outputCost := None;
     l_cachedInputCost := None;
     l_requestCost := None;
     cost := None;
     l_estimatedCost := false;
     cached := false |}.

(** [providers.find((p) => p.id === usedProvider)?.cancellation === true] *)
Definition requestCanBeCanceled (usedProvider : Provider) : bool :=
  match find (fun p => String.eqb (provider_id p) usedProvider) (providers env) with
  | Some p => is_true (cancellation p)
  | None => false
  end.

(** What the [fetch] of this request does: it is aborted when the
    client closes the connection while it is pending and the provider
    supports cancellation (only then is the signal passed on). *)
Inductive Fetched : Type :=
| AbortError
| OtherError (message : string)
| Response (res : UpstreamResponse).

Definition fetch (c : Context) : M Fetched :=
  sendFetch {| f_url := c_url c; f_provider := c_usedProvider c;
               f_token := c_usedToken c; f_model := c_usedModel c;
               f_stream := b_stream req;
               f_cancellable := requestCanBeCanceled (c_usedProvider c) |} ;;;
  match clientAbort env with
  | AbortDuringFetch =>
      if requestCanBeCanceled (c_usedProvider c) then ret AbortError
      else match upstream env with
           | Resolves res => ret (Response res)
           | Rejects message => ret (OtherError message)
           end
  | _ =>
      match upstream env with
      | Resolves res => ret (Response res)
      | Rejects message => ret (OtherError message)
      end
  end.

Definition error_body (res : UpstreamResponse) (extra : list (string * Json)) : Json :=
  JObj [("error",
         JObj ([("message",
                 JStr ("Error from provider: "
                       ++ NilZero.string_of_int (Z.to_int (r_status res))
                       ++ " " ++ r_statusText res));
                ("type", JStr (getFinishReasonForError (r_status res)));
                ("param", JNull);
                ("code", JStr (getFinishReasonForError (r_status res)))]
               ++ extra
               ++ [("responseText", JStr (r_text res))]))].

(** ** The non-streaming path (lines 2739-3015) *)

Definition unaryDispatch (c : Context) (cachingEnabled : bool)
    (cacheKey : option string) (cacheDuration : Z) : M Reply :=
  fetched <- fetch c ;;
  match fetched with
  | OtherError message => throw (JsError message)
  | AbortError =>
      insertLog (canceledLogRow c false) ;;;
      ret (JsonReply 400
             (JObj [("error",
                     JObj [("message", JStr "Request canceled by client");
                           ("type", JStr "canceled");
                           ("param", JNull);
                           ("code", JStr "request_canceled")])]))
  | Response res =>
      if negb (r_ok res) then
        insertLog (errorLogRow c false res) ;;;
        ret (JsonReply 500
               (error_body res
                  [("requestedProvider",
                    match c_requestedProvider c with
                    | Some p => JStr p
                    | None => JUndefined
                    end);
                   ("usedProvider", JStr (c_usedProvider c));
                   ("requestedModel", JStr (c_requestedModel c));
                   ("usedModel", JStr (c_usedModel c))]))
      else
        match r_json res with
        | None => throw (JsError "res.json() failed")
        | Some json =>
            (* [parseProviderResponse] reads [json.content], [json.choices]
               and the like: a body that is [null] makes it throw *)
            if nullish json
            then throw (JsError "Cannot read properties of null")
            else
            let parsed :=
              parseProviderResponse (unwrapJsonFence env) (includesJsonFence env)
                (c_usedProvider c) json in
            let estimated :=
              Tokens.estimateTokens (encodeChat env) (encode env) (c_usedProvider c)
                (b_messages req) (p_content parsed)
                (p_promptTokens parsed) (p_completionTokens parsed) in
            let calculatedPromptTokens := fst estimated in
            let calculatedCompletionTokens := snd estimated in
            let costs :=
              calculateCosts env (c_usedModel c) (c_usedProvider c)
                calculatedPromptTokens calculatedCompletionTokens
                (p_cachedTokens parsed) (b_messages req) (p_content parsed) in
            let sum :=
              Qred (num_or_zero calculatedPromptTokens
                    + num_or_zero calculatedCompletionTokens) in
            insertLog
              {| base := baseLogEntry c;
                 duration := elapsed env;
                 responseSize := stringify_length env json;
                 l_content := p_content parsed;
                 l_reasoningContent := p_reasoningContent parsed;
                 finishReason := p_finishReason parsed;
                 promptTokens := calculatedPromptTokens;
                 completionTokens := calculatedCompletionTokens;
                 totalTokens :=
                   if truthy_num (p_totalTokens parsed) then p_totalTokens parsed
                   else Some sum;
                 reasoningTokens := p_reasoningTokens parsed;
                 cachedTokens := p_cachedTokens parsed;
                 hasError := false;
                 streamed := false;
                 canceled := false;
                 errorStatus := None;
                 l_inputCost := inputCost costs;
                 l_outputCost := outputCost costs;
                 l_cachedInputCost := cachedInputCost costs;
                 l_requestCost := requestCost costs;
                 cost := totalCost costs;
                 l_estimatedCost := estimatedCost costs;
                 cached := false |} ;;;
            let transformedResponse :=
              transformToOpenAIFormat (now env) (c_usedProvider c) (c_usedModel c)
                json (p_content parsed) (p_reasoningContent parsed)
                (p_finishReason parsed) calculatedPromptTokens
                calculatedCompletionTokens (Some sum) (p_reasoningTokens parsed)
                (p_cachedTokens parsed) (p_toolCalls parsed) in
            (if (cachingEnabled && truthy_str cacheKey && negb (b_stream req))%bool
             then match cacheKey with
                  | Some key => setCache key transformedResponse cacheDuration
                  | None => ret tt
                  end
             else ret tt) ;;;
            ret (JsonReply 200 transformedResponse)
        end
  end.

(** ** The streaming path (lines 1906-2737) *)

(** The locals of the read loop, and the events written so far. *)
Record StreamState : Type := {
  st_buffer : string;
  st_out : list (option string * SSEData);
  st_fullContent : string;
  st_fullReasoningContent : string;
  st_finishReason : option string;
  st_promptTokens : option Q;
  st_completionTokens : option Q;
  st_totalTokens : option Q;
  st_reasoningTokens : option Q;
  st_cachedTokens : option Q;
  (** an exception other than the cancellation has ended the read loop
      (the [catch] of line 2560) *)
  st_thrown : bool
}.

Definition initial_state : StreamState :=
  {| st_buffer := EmptyString; st_out := [];
     st_fullContent := EmptyString; st_fullReasoningContent := EmptyString;
     st_finishReason := None; st_promptTokens := None;
     st_completionTokens := None; st_totalTokens := None;
     st_reasoningTokens := None; st_cachedTokens := None; st_thrown := false |}.

Definition done_event : option string * SSEData := (Some "done", Text "[DONE]").

Definition data_event (j : Json) : option string * SSEData := (None, Stringified j).

(** [Math.round(messages.reduce(...) / 4)] *)
Definition roundedPromptEstimate : Q :=
  inject_Z (Math_round (num_of_nat (total_content_length (b_messages req)) / 4)).

Definition or_some (a b : option Q) : option Q :=
  match a with
  | Some _ => a
  | None => b
  end.

(** The chunk that carries only a [usage] object. *)
Definition usageChunk (usedModel : string) (usage : list (string * Json)) : Json :=
  JObj [("id", chatcmpl_id (now env));
        ("object", JStr "chat.completion.chunk");
        ("created", created_at (now env));
        ("model", JStr usedModel);
        ("choices",
         JArr [JObj [("index", JNum 0); ("delta", JObj []); ("finish_reason", JNull)]]);
        ("usage", JObj usage)].

(** The line [data: [DONE]] (lines 2299-2360). *)
Definition onDoneLine (usedModel : string) (st : StreamState) : StreamState :=
  let finalPromptTokens := or_some (st_promptTokens st) (Some roundedPromptEstimate) in
  let finalCompletionTokens :=
    or_some (st_completionTokens st)
      (Some (inject_Z (Tokens.estimateTokensFromContent (st_fullContent st)))) in
  let finalTotalTokens :=
    or_some (st_totalTokens st)
      (Some (Qred (num_or_zero finalPromptTokens + num_or_zero finalCompletionTokens))) in
  let usage :=
    match finalPromptTokens, finalCompletionTokens, finalTotalTokens with
    | None, None, None => []
    | _, _, _ =>
        [data_event
           (usageChunk usedModel
              [("prompt_tokens", JNum (num_or_zero finalPromptTokens));
               ("completion_tokens", JNum (num_or_zero finalCompletionTokens));
               ("total_tokens", JNum (num_or_zero finalTotalTokens))])]
    end in
  {| st_buffer := st_buffer st;
     st_out := st_out st ++ usage ++ [done_event];
     st_fullContent := st_fullContent st;
     st_fullReasoningContent := st_fullReasoningContent st;
     st_finishReason := st_finishReason st;
     st_promptTokens := st_promptTokens st;
     st_completionTokens := st_completionTokens st;
     st_totalTokens := st_totalTokens st;
     st_reasoningTokens := st_reasoningTokens st;
     st_cachedTokens := st_cachedTokens st;
     st_thrown := st_thrown st |}.

Definition is_undefined (j : Json) : bool :=
  match j with
  | JUndefined => true
  | _ => false
  end.

(** Lines 2373-2394: a partial Anthropic [usage] is completed. *)
Definition completeAnthropicUsage (usedProvider : Provider) (transformedData : Json)
  : Json :=
  let usage := field "usage" transformedData in
  if (String.eqb usedProvider "anthropic" && truthy usage
      && negb (is_undefined (field "output_tokens" usage))
      && is_undefined (field "prompt_tokens" usage))%bool
  then
    set_field "usage"
      (JObj [("prompt_tokens", JNum roundedPromptEstimate);
             ("completion_tokens", field "output_tokens" usage);
             ("total_tokens",
              JNum (Qred (roundedPromptEstimate
                          + num_or_zero (as_num (field "output_tokens" usage)))))])
      transformedData
  else transformedData.

(** Lines 2478-2509: the finish reason a chunk carries, if any. *)
Definition chunkFinishReason (usedProvider : Provider) (data : Json)
  : option string :=
  if String.eqb usedProvider "anthropic" then
    if (is_str "message_delta" (field "type" data)
        && truthy_str (str_at [K "delta"; K "stop_reason"] data))%bool
    then str_at [K "delta"; K "stop_reason"] data
    else if (is_str "message_stop" (field "type" data)
             || truthy_str (str_at [K "stop_reason"] data))%bool
    then match str_at [K "stop_reason"] data with
         | Some r => Some r
         | None => Some "end_turn"
         end
    else str_at [K "delta"; K "stop_reason"] data
  else str_at [K "choices"; I 0; K "finish_reason"] data.

(** A [data: ] line whose payload parsed and was transformed (lines
    2362-2547).  The tool calls a chunk carries are accumulated for the
    [toolCalls] field of the log row only, which [LogRow] leaves out;
    they are read at their declared types, at which the accumulation
    does not throw. *)
Definition onDataLine (usedProvider : Provider) (usedModel : string)
    (data : Json) (st : StreamState) : StreamState :=
  let transformedData :=
    completeAnthropicUsage usedProvider
      (transformStreamingChunkToOpenAIFormat (now env) usedProvider usedModel data) in
  let fullContent := st_fullContent st ++ extractContentFromProvider data usedProvider in
  let fullReasoningContent :=
    st_fullReasoningContent st ++ extractReasoningContentFromProvider data usedProvider in
  let finishReason :=
    match chunkFinishReason usedProvider data with
    | Some r => Some r
    | None => st_finishReason st
    end in
  let usage := extractTokenUsage data usedProvider in
  let promptTokens := or_some (u_promptTokens usage) (st_promptTokens st) in
  let completionTokens := or_some (u_completionTokens usage) (st_completionTokens st) in
  let totalTokens := or_some (u_totalTokens usage) (st_totalTokens st) in
  let estimate :=
    (truthy_str finishReason
     && (negb (truthy_num promptTokens) || negb (truthy_num completionTokens)))%bool in
  let promptTokens' :=
    if (estimate && negb (truthy_num promptTokens))%bool
    then Some roundedPromptEstimate else promptTokens in
  let completionTokens' :=
    if (estimate && negb (truthy_num completionTokens))%bool
    then Some (inject_Z (Tokens.estimateTokensFromContent fullContent))
    else completionTokens in
  {| st_buffer := st_buffer st;
     st_out := st_out st ++ [data_event transformedData];
     st_fullContent := fullContent;
     st_fullReasoningContent := fullReasoningContent;
     st_finishReason := finishReason;
     st_promptTokens := promptTokens';
     st_completionTokens := completionTokens';
     st_totalTokens :=
       if estimate
       then Some (Qred (num_or_zero promptTokens' + num_or_zero completionTokens'))
       else totalTokens;
     st_reasoningTokens := or_some (u_reasoningTokens usage) (st_reasoningTokens st);
     st_cachedTokens := or_some (u_cachedTokens usage) (st_cachedTokens st);
     st_thrown := st_thrown st |}.

Definition set_buffer (buffer : string) (st : StreamState) : StreamState :=
  {| st_buffer := buffer;
     st_out := st_out st;
     st_fullContent := st_fullContent st;
     st_fullReasoningContent := st_fullReasoningContent st;
     st_finishReason := st_finishReason st;
     st_promptTokens := st_promptTokens st;
     st_completionTokens := st_completionTokens st;
     st_totalTokens := st_totalTokens st;
     st_reasoningTokens := st_reasoningTokens st;
     st_cachedTokens := st_cachedTokens st;
     st_thrown := st_thrown st |}.

(** An exception leaves the [try] block of the read loop. *)
Definition set_thrown (st : StreamState) : StreamState :=
  {| st_buffer := st_buffer st;
     st_out := st_out st;
     st_fullContent := st_fullContent st;
     st_fullReasoningContent := st_fullReasoningContent st;
     st_finishReason := st_finishReason st;
     st_promptTokens := st_promptTokens st;
     st_completionTokens := st_completionTokens st;
     st_totalTokens := st_totalTokens st;
     st_reasoningTokens := st_reasoningTokens st;
     st_cachedTokens := st_cachedTokens st;
     st_thrown := true |}.

(** One line of the buffer (lines 2297-2557).  A line that does not
    start with [data: ] is passed over.  When the payload does not
    parse, or the transformation of what it parses to throws, the
    [catch] block of line 2548 passes over the line: no event is
    written for it. *)
Definition onLine (usedProvider : Provider) (usedModel : string)
    (st : StreamState) (line : string) : StreamState :=
  if startsWith "data: " line then
    if String.eqb line "data: [DONE]" then onDoneLine usedModel st
    else
      match JSON_parse env (String.substring 6 (String.length line - 6) line) with
      | Some data =>
          if transformThrows usedProvider data then st
          else onDataLine usedProvider usedModel data st
      | None => st
      end
  else st.

(** A JSON object of a Google stream (lines 2168-2265), the
    accumulation of tool calls apart.  No [try] encloses the
    transformation here: when it throws, the exception leaves the read
    loop. *)
Definition onGoogleObject (usedProvider : Provider) (usedModel : string)
    (st : StreamState) (data : Json) : StreamState :=
  if transformThrows usedProvider data then set_thrown st else
  let transformedData :=
    transformStreamingChunkToOpenAIFormat (now env) usedProvider usedModel data in
  let fullContent := st_fullContent st ++ extractContentFromProvider data usedProvider in
  let fullReasoningContent :=
    st_fullReasoningContent st ++ extractReasoningContentFromProvider data usedProvider in
  let chunkReason :=
    if truthy (field "candidates" data)
    then str_at [K "candidates"; I 0; K "finishReason"] data
    else None in
  let usage := extractTokenUsage data usedProvider in
  {| st_buffer := st_buffer st;
     st_out :=
       st_out st ++ [data_event transformedData]
       ++ (if truthy_str chunkReason then [done_event] else []);
     st_fullContent := fullContent;
     st_fullReasoningContent := fullReasoningContent;
     st_finishReason :=
       match chunkReason with
       | Some r => Some r
       | None => st_finishReason st
       end;
     st_promptTokens := or_some (u_promptTokens usage) (st_promptTokens st);
     st_completionTokens :=
       if (negb (truthy_num (u_completionTokens usage))
           && truthy_str (Some fullContent))%bool
       then None
       else or_some (u_completionTokens usage) (st_completionTokens st);
     st_totalTokens := or_some (u_totalTokens usage) (st_totalTokens st);
     st_reasoningTokens := or_some (u_reasoningTokens usage) (st_reasoningTokens st);
     st_cachedTokens := st_cachedTokens st;
     st_thrown := st_thrown st |}.

Definition newline : string := String (ascii_of_nat 10) EmptyString.

(** [s.endsWith(suffix)] *)
Definition endsWith (suffix s : string) : bool :=
  (Nat.leb (String.length suffix) (String.length s)
   && String.eqb
        (String.substring (String.length s - String.length suffix)
           (String.length suffix) s)
        suffix)%bool.

(** [s.substring(from)] *)
Definition suffix_from (from : nat) (s : string) : string :=
  String.substring from (String.length s - from) s.

(** [10 * 1024 * 1024] *)
Definition MAX_BUFFER_SIZE : Z := 10 * 1024 * 1024.

(** [tryParseJSON(str, startIndex)] (lines 2142-2152): the shortest
    piece of [str] from [startIndex] that parses, and the index of its
    last character. *)
Fixpoint tryParseJSON_at (str : string) (startIndex i : nat) (left : nat)
  : option (Json * nat) :=
  match left with
  | O => None
  | S left' =>
      match JSON_parse env (String.substring startIndex (i + 1 - startIndex) str) with
      | Some data => Some (data, i)
      | None => tryParseJSON_at str startIndex (S i) left'
      end
  end.

Definition tryParseJSON (str : string) (startIndex : nat) : option (Json * nat) :=
  tryParseJSON_at str startIndex startIndex (String.length str - startIndex).

(** The scanner of the Google providers (lines 2155-2277): the loop
    [while (buffer.length > 0)], which an exception leaves.  Every turn
    that goes on shortens the buffer, so [fuel] above its length is
    never used up. *)
Fixpoint scanGoogle (fuel : nat) (usedProvider : Provider) (usedModel : string)
    (st : StreamState) : StreamState :=
  match fuel with
  | O => st
  | S fuel' =>
      let buffer := st_buffer st in
      if st_thrown st then st
      else if Nat.ltb 0 (String.length buffer) then
        match String.index 0 "{" buffer with
        | None => set_buffer EmptyString st
        | Some jsonStartIndex =>
            match tryParseJSON buffer jsonStartIndex with
            | Some (data, endIndex) =>
                scanGoogle fuel' usedProvider usedModel
                  (onGoogleObject usedProvider usedModel
                     (set_buffer (suffix_from (endIndex + 1) buffer) st) data)
            | None =>
                match String.index (jsonStartIndex + 1) "{" buffer with
                | Some nextStart =>
                    scanGoogle fuel' usedProvider usedModel
                      (set_buffer (suffix_from nextStart buffer) st)
                | None => st
                end
            end
        end
      else st
  end.

(** One turn of the read loop (lines 2119-2558), which is not taken
    once an exception has left the loop: the chunk is added to the
    buffer; a buffer of more than 10 MiB is dropped; otherwise the
    Google scanner runs, or the buffer is split into lines, of which the
    last is kept back when it is not ended by a newline. *)
Definition onChunk (usedProvider : Provider) (usedModel : string)
    (st : StreamState) (chunk : string) : StreamState :=
  let buffer := (st_buffer st ++ chunk)%string in
  if st_thrown st then st
  else if MAX_BUFFER_SIZE <? Z.of_nat (String.length buffer) then
    set_buffer EmptyString st
  else if one_of usedProvider google_family then
    scanGoogle (S (String.length buffer)) usedProvider usedModel (set_buffer buffer st)
  else
    let lines := split newline buffer in
    let incomplete :=
      (Nat.ltb 0 (String.length buffer) && negb (endsWith newline buffer)
       && Nat.ltb 1 (List.length lines))%bool in
    fold_left (onLine usedProvider usedModel)
      (if incomplete then removelast lines else lines)
      (set_buffer (if incomplete then last lines EmptyString else EmptyString) st).

Definition read_until {A : Type} (cut : option nat) (l : list A) : list A :=
  match cut with
  | Some n => firstn n l
  | None => l
  end.

(** The read loop.  When the provider supports cancellation and the
    client closes the connection while the read after [n] chunks is
    pending, that read throws an [AbortError], unless another exception
    has ended the loop before; the result tells whether one did. *)
Definition readLoop (usedProvider : Provider) (usedModel : string)
    (body : StreamBody) : StreamState * bool :=
  let cut :=
    match clientAbort env with
    | AbortAfterChunks n =>
        if (requestCanBeCanceled usedProvider && Nat.leb n (List.length body))%bool
        then Some n else None
    | _ => None
    end in
  let st :=
    fold_left (onChunk usedProvider usedModel) (read_until cut body) initial_state in
  (st,
   match cut with
   | Some _ => negb (st_thrown st)
   | None => false
   end).

(** The first truthy of [a || b || 0]. *)
Definition first_truthy (a b : option Q) : Q :=
  if truthy_num a then num_or_zero a else num_or_zero b.

(** What the [finally] block computes (lines 2573-2618): the calculated
    prompt, completion and total tokens. *)
Definition calculatedTokens (st : StreamState) : option Q * option Q * option Q :=
  if (negb (truthy_num (st_promptTokens st))
      || negb (truthy_num (st_completionTokens st)))%bool
  then
    let calculatedPromptTokens :=
      if (negb (truthy_num (st_promptTokens st))
          && Nat.ltb 0 (List.length (b_messages req)))%bool
      then match encodeChat env (b_messages req) with
           | Some n => Some (num_of_nat n)
           | None => Some (num_of_nat (total_content_length (b_messages req)) / 4)%Q
           end
      else st_promptTokens st in
    let calculatedCompletionTokens :=
      if (negb (truthy_num (st_completionTokens st))
          && truthy_str (Some (st_fullContent st)))%bool
      then match encode env (st_fullContent st) with
           | Some n => Some (num_of_nat n)
           | None =>
               Some (inject_Z (Tokens.estimateTokensFromContent (st_fullContent st)))
           end
      else st_completionTokens st in
    (calculatedPromptTokens, calculatedCompletionTokens,
     Some (Qred (num_or_zero calculatedPromptTokens
                 + num_or_zero calculatedCompletionTokens)))
  else (st_promptTokens st, st_completionTokens st, st_totalTokens st).

Definition is_null (o : option Q) : bool :=
  match o with
  | Some _ => false
  | None => true
  end.

(** [needsUsageChunk] (lines 2624-2630) *)
Definition needsUsageChunk (st : StreamState) : bool :=
  let '(calculatedPromptTokens, calculatedCompletionTokens, _) := calculatedTokens st in
  ((is_null (st_promptTokens st) && is_null (st_completionTokens st)
    && is_null (st_totalTokens st)
    && (negb (is_null calculatedPromptTokens)
        || negb (is_null calculatedCompletionTokens)))
   || (is_null (st_completionTokens st)
       && negb (is_null calculatedCompletionTokens)))%bool.

(** The events the [finally] block writes (lines 2632-2678). *)
Definition finalEvents (usedModel : string) (st : StreamState)
  : list (option string * SSEData) :=
  let '(calculatedPromptTokens, calculatedCompletionTokens, calculatedTotalTokens) :=
    calculatedTokens st in
  if needsUsageChunk st then
    [data_event
       (usageChunk usedModel
          ([("prompt_tokens",
             JNum (inject_Z (Math_round
                               (first_truthy (st_promptTokens st) calculatedPromptTokens))));
            ("completion_tokens",
             JNum (inject_Z (Math_round
                               (first_truthy (st_completionTokens st)
                                  calculatedCompletionTokens))));
            ("total_tokens",
             JNum (inject_Z (Math_round
                               (first_truthy (st_totalTokens st) calculatedTotalTokens))))]
           ++ spread_if (negb (is_null (st_cachedTokens st)))
                "prompt_tokens_details"
                (JObj [("cached_tokens", of_num (st_cachedTokens st))])));
     done_event]
  else [].

(** The row the [finally] block logs (lines 2680-2734). *)
Definition streamLogRow (c : Context) (st : StreamState) (wasCanceled : bool)
  : LogRow :=
  let '(calculatedPromptTokens, calculatedCompletionTokens, calculatedTotalTokens) :=
    calculatedTokens st in
  let costs :=
    calculateCosts env (c_usedModel c) (c_usedProvider c)
      calculatedPromptTokens calculatedCompletionTokens (st_cachedTokens st)
      (b_messages req) (Some (st_fullContent st)) in
  {| base := baseLogEntry c;
     duration := elapsed env;
     responseSize := String.length (st_fullContent st);
     l_content := Some (st_fullContent st);
     l_reasoningContent := str_or_null (Some (st_fullReasoningContent st));
     finishReason := st_finishReason st;
     promptTokens := calculatedPromptTokens;
     completionTokens := calculatedCompletionTokens;
     totalTokens := calculatedTotalTokens;
     reasoningTokens := st_reasoningTokens st;
     cachedTokens := st_cachedTokens st;
     hasError := false;
     streamed := true;
     canceled := wasCanceled;
     errorStatus := None;
     l_inputCost := inputCost costs;
     l_outputCost := outputCost costs;
     l_cachedInputCost := cachedInputCost costs;
     l_requestCost := requestCost costs;
     cost := totalCost costs;
     l_estimatedCost := estimatedCost costs;
     cached := false |}.

Definition streamingDispatch (c : Context) : M Reply :=
  fetched <- fetch c ;;
  match fetched with
  | OtherError message => throw (StreamError message)
  | AbortError =>
      insertLog (canceledLogRow c true) ;;;
      writeSSE [(Some "canceled",
                 Stringified (JObj [("message", JStr "Request canceled by client")]));
                done_event] ;;;
      ret SSEReply
  | Response res =>
      if negb (r_ok res) then
        writeSSE [(Some "error", Stringified (error_body res [])); done_event] ;;;
        insertLog (errorLogRow c true res) ;;;
        ret SSEReply
      else
        match r_body res with
        | None =>
            writeSSE [(Some "error",
                       Stringified
                         (JObj [("error",
                                 JObj [("message", JStr "No response body from provider");
                                       ("type", JStr "gateway_error");
                                       ("param", JNull);
                                       ("code", JStr "gateway_error")])]));
                      done_event] ;;;
            ret SSEReply
        | Some body =>
            let '(st, wasCanceled) :=
              readLoop (c_usedProvider c) (c_usedModel c) body in
            writeSSE (st_out st ++ finalEvents (c_usedModel c) st) ;;;
            insertLog (streamLogRow c st wasCanceled) ;;;
            ret SSEReply
        end
  end.

(** ** The handler *)

(** Lines 1788-1852: the cached response of a non-streaming request on a
    project with caching enabled, if there is one. *)
Definition cacheKeyOf (project : Project) (usedModel : string) : option string :=
  if (fst (isCachingEnabled env (pr_id project)) && negb (b_stream req))%bool
  then Some (generateCacheKey env usedModel (b_messages req) (b_temperature req)
               (b_max_tokens req) (b_top_p req) (b_frequency_penalty req)
               (b_presence_penalty req) (b_response_format req))
  else None.

Definition cachedResponseOf (cacheKey : option string) : option Json :=
  match str_or_null cacheKey with
  | Some key =>
      match getCache env key with
      | Some cachedResponse =>
          if truthy cachedResponse then Some cachedResponse else None
      | None => None
      end
  | None => None
  end.

(** Lines 1854-1881: [max_tokens] against the mapping's [maxOutput], and
    streaming support. *)
Definition checkLimits (usedProvider : Provider) (usedModel : string) : M unit :=
  let tooMany :=
    match b_max_tokens req, finalModelInfo usedProvider usedModel with
    | Some max_tokens, Some info =>
        match find (fun p => String.eqb (providerId p) usedProvider
                             && String.eqb (modelName p) usedModel)%bool
                (Catalog.providers info) with
        | Some providerMapping =>
            match maxOutput providerMapping with
            | Some limit =>
                if negb (Qle_bool max_tokens limit) then Some (max_tokens, limit)
                else None
            | None => None
            end
        | None => None
        end
    | _, _ => None
    end in
  match tooMany with
  | Some (max_tokens, limit) =>
      http 400 ("The requested max_tokens (" ++ numberText env max_tokens
                ++ ") exceeds the maximum output tokens allowed for model "
                ++ usedModel ++ " (" ++ numberText env limit ++ ")")
  | None =>
      if (b_stream req
          && match getModelStreamingSupport env
                     (baseModelName usedProvider usedModel) usedProvider with
             | Some false => true
             | _ => false
             end)%bool
      then http 400 ("Model " ++ usedModel ++ " with provider " ++ usedProvider
                     ++ " does not support streaming")
      else ret tt
  end.

(** Lines 1222-1782: everything up to the upstream URL.  No effect is
    made here; a failure is an [HTTPException]. *)
Definition prepare : M Context :=
  let requestId :=
    match str_or_null (h_request_id req) with
    | Some i => i
    | None => shortid env
    end in
  let customHeaders := extractCustomHeaders (h_all req) in
  r <- resolveRequested ;;
  modelInfo <- validateModel r ;;
  apiKey <- authenticate ;;
  project <- loadProject r apiKey ;;
  routed <- routeModel r modelInfo project ;;
  used <- requireProvider routed ;;
  credential <- resolveCredential project (fst used) (rq_customProviderName r) ;;
  url <- resolveUrl (fst used) (snd used) (fst credential) (snd credential) ;;
  ret {| c_requestId := requestId; c_project := project; c_apiKey := apiKey;
         c_providerKey := fst credential; c_usedModel := snd used;
         c_usedProvider := fst used; c_requestedModel := rq_model r;
         c_requestedProvider := rq_provider r; c_customHeaders := customHeaders;
         c_url := url; c_usedToken := snd credential |}.

(** Lines 1784-3015: the cache, the limits and the dispatch. *)
Definition serve (c : Context) : M Reply :=
  let cacheKey := cacheKeyOf (c_project c) (c_usedModel c) in
  match cachedResponseOf cacheKey with
  | Some cachedResponse =>
      insertLog (cachedLogRow c cachedResponse) ;;;
      ret (JsonReply 200 cachedResponse)
  | None =>
      checkLimits (c_usedProvider c) (c_usedModel c) ;;;
      if b_stream req then streamingDispatch c
      else unaryDispatch c (fst (isCachingEnabled env (pr_id (c_project c)))) cacheKey
             (snd (isCachingEnabled env (pr_id (c_project c))))
  end.

(** [chat.openapi(completions, async (c) => ...)] *)
Definition handler : M Reply :=
  c <- prepare ;;
  serve c.

End Stages.

(** The HTTP status the client sees: the status of the reply, the
    status of an [HTTPException], 500 for any other exception, 200 for
    an event stream. *)
Definition statusOf (result : Exn + Reply) : Z :=
  match result with
  | inr (JsonReply status _) => status
  | inr SSEReply => 200
  | inl (HTTPException status _) => status
  | inl (JsError _) => 500
  | inl (StreamError _) => 200
  end.

End Handler.

(* ================================================================== *)
(** * The auto top-up pass                                              *)
(* ================================================================== *)

Module AutoTopUp.

(** The [organization] columns the pass reads.  Decimal columns are
    read as strings, so [x || d] replaces only [null]. *)
Record Organization : Type := {
  org_id : string;
  credits : option Q;
  autoTopUpEnabled : bool;
  autoTopUpThreshold : option Q;
  autoTopUpAmount : option Q;
  plan : string;
  stripeCustomerId : string
}.

(** A [transaction] row; [createdAt] in milliseconds. *)
Record Transaction : Type := {
  t_id : nat;
  t_organizationId : string;
  t_type : string;
  t_status : string;
  t_createdAt : Z;
  t_creditAmount : Q;
  t_amount : Q;
  t_stripePaymentIntentId : option string;
  t_description : string
}.

Record PaymentMethod : Type := {
  pm_organizationId : string;
  pm_isDefault : bool;
  pm_stripePaymentMethodId : string
}.

(** A [lock] row.  Modelled from the spec: the lock is a row with a
    [key] and an [updatedAt], acquired by conditional insert (the key is
    unique) and released by delete. *)
Record Lock : Type := {
  lock_key : string;
  lock_updatedAt : Z
}.

Record DB : Type := {
  locks : list Lock;
  organizations : list Organization;
  transactions : list Transaction;
  paymentMethods : list PaymentMethod
}.

(** The result of [calculateFees]. *)
Record FeeBreakdown : Type := {
  baseAmount : Q;
  totalFees : Q;
  totalAmount : Q
}.

(** What [stripe.paymentIntents.create] does. *)
Inductive IntentResult : Type :=
| IntentThrows (message : string)
| Intent (intent_id status : string).

(** The payment SDK, the fee calculator, and the text of an amount in a
    template literal. *)
Record Payments : Type := {
  (** [stripe.paymentMethods.retrieve(id)]: [None] when it throws,
      otherwise the card country, if any *)
  paymentMethods_retrieve : string -> option (option string);
  (** [stripe.paymentIntents.create], by organization and amount in
      cents *)
  paymentIntents_create : string -> Z -> IntentResult;
  calculateFees : Q -> string -> option string -> FeeBreakdown;
  amountText : Q -> string
}.

Definition AUTO_TOPUP_LOCK_KEY : string := "auto_topup_check".
Definition LOCK_DURATION_MINUTES : Z := 10.

Definition with_locks (l : list Lock) (db : DB) : DB :=
  {| locks := l; organizations := organizations db;
     transactions := transactions db; paymentMethods := paymentMethods db |}.

Definition with_transactions (l : list Transaction) (db : DB) : DB :=
  {| locks := locks db; organizations := organizations db;
     transactions := l; paymentMethods := paymentMethods db |}.

(** [acquireLock]: a stale lock is deleted, then the insert succeeds
    unless a row with the key is left. *)
Definition acquireLock (now : Z) (key : string) (db : DB) : bool * DB :=
  let lockExpiry := now - LOCK_DURATION_MINUTES * 60 * 1000 in
  let kept :=
    filter (fun l => negb (String.eqb (lock_key l) key
                           && (lock_updatedAt l <? lockExpiry)))%bool
      (locks db) in
  if existsb (fun l => String.eqb (lock_key l) key) kept
  then (false, with_locks kept db)
  else (true, with_locks (kept ++ [{| lock_key := key; lock_updatedAt := now |}]) db).

(** [releaseLock] *)
Definition releaseLock (key : string) (db : DB) : DB :=
  with_locks (filter (fun l => negb (String.eqb (lock_key l) key)) (locks db)) db.

(** [Number(org.credits || 0) < Number(org.autoTopUpThreshold || 10)] *)
Definition needsTopUp (org : Organization) : bool :=
  negb (Qle_bool
          (match autoTopUpThreshold org with Some t => t | None => 10%Q end)
          (match credits org with Some c => c | None => 0%Q end)).

Definition is_topup_of (organizationId : string) (t : Transaction) : bool :=
  (String.eqb (t_organizationId t) organizationId
   && String.eqb (t_type t) "credit_topup")%bool.

(** [findFirst] with [orderBy: { createdAt: "desc" }]: the latest row;
    among rows of the same instant, the first of the table. *)
Fixpoint latest (best : option Transaction) (l : list Transaction)
  : option Transaction :=
  match l with
  | [] => best
  | t :: r =>
      match best with
      | Some b => if t_createdAt b <? t_createdAt t then latest (Some t) r
                  else latest best r
      | None => latest (Some t) r
      end
  end.

Definition recentTransaction (organizationId : string) (db : DB)
  : option Transaction :=
  latest None (filter (is_topup_of organizationId) (transactions db)).

(** Lines 3109-3127: the pass leaves the organization alone. *)
Definition skipsFor (now : Z) (recent : option Transaction) : bool :=
  match recent with
  | Some t =>
      let oneHourAgo := now - 60 * 60 * 1000 in
      ((oneHourAgo <? t_createdAt t)
       && (String.eqb (t_status t) "pending" || String.eqb (t_status t) "failed"))%bool
  | None => false
  end.

Definition fresh_id (l : list Transaction) : nat :=
  S (fold_right Nat.max 0%nat (map t_id l)).

(** [db.update(tables.transaction).set(...).where(eq(id, ...))] *)
Definition update_transaction (tid : nat) (f : Transaction -> Transaction)
    (l : list Transaction) : list Transaction :=
  map (fun t => if Nat.eqb (t_id t) tid then f t else t) l.

Definition set_intent (intent : string) (t : Transaction) : Transaction :=
  {| t_id := t_id t; t_organizationId := t_organizationId t; t_type := t_type t;
     t_status := t_status t; t_createdAt := t_createdAt t;
     t_creditAmount := t_creditAmount t; t_amount := t_amount t;
     t_stripePaymentIntentId := Some intent; t_description := t_description t |}.

Definition set_failed (why : string) (t : Transaction) : Transaction :=
  {| t_id := t_id t; t_organizationId := t_organizationId t; t_type := t_type t;
     t_status := "failed"; t_createdAt := t_createdAt t;
     t_creditAmount := t_creditAmount t; t_amount := t_amount t;
     t_stripePaymentIntentId := t_stripePaymentIntentId t;
     t_description := "Auto top-up failed: " ++ why |}.

(** The body of the loop over the organizations (lines 3092-3249). *)
Definition topUpOrganization (now : Z) (pay : Payments) (db : DB)
    (org : Organization) : DB :=
  if skipsFor now (recentTransaction (org_id org) db) then db
  else
    match find (fun m => String.eqb (pm_organizationId m) (org_id org)
                         && pm_isDefault m)%bool
            (paymentMethods db) with
    | None => db
    | Some defaultPaymentMethod =>
        let topUpAmount :=
          match autoTopUpAmount org with Some a => a | None => 10%Q end in
        match paymentMethods_retrieve pay
                (pm_stripePaymentMethodId defaultPaymentMethod) with
        | None => db
        | Some cardCountry =>
            let feeBreakdown :=
              calculateFees pay topUpAmount (plan org) (str_or_null cardCountry) in
            let pendingTransaction :=
              {| t_id := fresh_id (transactions db);
                 t_organizationId := org_id org;
                 t_type := "credit_topup";
                 t_status := "pending";
                 t_createdAt := now;
                 t_creditAmount := baseAmount feeBreakdown;
                 t_amount := totalAmount feeBreakdown;
                 t_stripePaymentIntentId := None;
                 t_description :=
                   "Auto top-up for " ++ amountText pay topUpAmount
                   ++ " USD (total: " ++ amountText pay (totalAmount feeBreakdown)
                   ++ " including fees)" |} in
            let inserted := (transactions db ++ [pendingTransaction])%list in
            match paymentIntents_create pay (org_id org)
                    (Math_round (totalAmount feeBreakdown * 100)) with
            | IntentThrows message =>
                with_transactions
                  (update_transaction (t_id pendingTransaction) (set_failed message)
                     inserted)
                  db
            | Intent intent status =>
                let linked :=
                  update_transaction (t_id pendingTransaction) (set_intent intent)
                    inserted in
                if (String.eqb status "succeeded"
                    || String.eqb status "requires_action")%bool
                then with_transactions linked db
                else with_transactions
                       (update_transaction (t_id pendingTransaction)
                          (set_failed status) linked)
                       db
            end
        end
    end.

(** [processAutoTopUp] *)
Definition processAutoTopUp (now : Z) (pay : Payments) (db : DB) : DB :=
  let '(lockAcquired, locked) := acquireLock now AUTO_TOPUP_LOCK_KEY db in
  if negb lockAcquired then locked
  else
    let filteredOrgs :=
      filter needsTopUp (filter autoTopUpEnabled (organizations locked)) in
    releaseLock AUTO_TOPUP_LOCK_KEY
      (fold_left (topUpOrganization now pay) filteredOrgs locked).

End AutoTopUp.

(* ================================================================== *)
(** * The log queue worker                                              *)
(* ================================================================== *)

Module Worker.

Import Handler.

(** Modelled from the spec: the main and the processing queue of
    [./lib/redis]; a message is a serialised log row, new messages are
    appended to the main queue. *)
Record Queues : Type := {
  mainQueue : list string;
  processingQueue : list string
}.

(** Modelled from the spec: [moveToProcessingQueue] moves up to [n]
    messages from the main queue to the processing queue and returns
    them, or returns [null] when there is none. *)
Definition moveToProcessingQueue (n : nat) (q : Queues)
  : option (list string) * Queues :=
  match mainQueue q with
  | [] => (None, q)
  | _ :: _ =>
      (Some (firstn n (mainQueue q)),
       {| mainQueue := skipn n (mainQueue q);
          processingQueue := processingQueue q ++ firstn n (mainQueue q) |})
  end.

(** Modelled from the spec: [removeFromProcessingQueue] acknowledges a
    batch of [count] messages, the ones claimed last. *)
Definition removeFromProcessingQueue (count : nat) (q : Queues) : Queues :=
  {| mainQueue := mainQueue q;
     processingQueue :=
       firstn (List.length (processingQueue q) - count) (processingQueue q) |}.

(** Modelled from the spec: [recoverProcessingQueue] moves every message
    of the processing queue back to the main queue. *)
Definition recoverProcessingQueue (q : Queues) : Queues :=
  {| mainQueue := mainQueue q ++ processingQueue q; processingQueue := [] |}.

(** The [log] table and the credits of each organization. *)
Record Store : Type := {
  logTable : list LogRow;
  creditsOf : list (string * Q)
}.

Record WorkerEnv : Type := {
  (** [JSON.parse(message) as LogInsertData]; [None] when it throws *)
  JSON_parse : string -> option LogRow;
  (** [(await getOrganization(id))?.retentionLevel] *)
  retentionLevel : string -> option string;
  (** [(await getProject(id))?.mode] *)
  projectMode : string -> option string;
  (** [a + b] on two costs: the double the engine rounds the sum to.
      A cost is read at its value; the rounding is left open. *)
  js_add : Q -> Q -> Q;
  (** [credits - totalCost] as the datastore computes it in the
      [update] statement, its rounding left open as well *)
  sql_subtract : Q -> Q -> Q
}.

(** Where a datastore or queue call of one pass throws, if one does:
    [getOrganization], [db.insert], [getProject], the [db.update] of
    the organization number [after], [removeFromProcessingQueue]. *)
Inductive PersistStep : Type :=
| AtRetention
| AtInsert
| AtProjectLookup
| AtCreditUpdate (after : nat)
| AtAcknowledge.

Inductive Fault : Type :=
| NoFault
| ClaimThrows
| PersistThrows (step : PersistStep) (recoveryThrows : bool).

(** How a pass of [processLogQueue] ends. *)
Inductive Outcome : Type :=
| Idle
| Persisted
| Discarded
| Recovered
| LeftInProcessing
| Threw.

Record State : Type := {
  queues : Queues;
  store : Store
}.

(** The retention policy: [messages] and [content] are left out. *)
Definition metadataOnly (data : LogRow) : LogRow :=
  let b := base data in
  {| base :=
       {| requestId := requestId b; organizationId := organizationId b;
          projectId := projectId b; apiKeyId := apiKeyId b; usedMode := usedMode b;
          usedModel := usedModel b; usedProvider := usedProvider b;
          requestedModel := requestedModel b;
          requestedProvider := requestedProvider b; messages := [];
          temperature := temperature b; maxTokens := maxTokens b; topP := topP b;
          frequencyPenalty := frequencyPenalty b;
          presencePenalty := presencePenalty b;
          customHeaders := customHeaders b; mode := mode b |};
     duration := duration data; responseSize := responseSize data;
     l_content := None; l_reasoningContent := l_reasoningContent data;
     finishReason := finishReason data; promptTokens := promptTokens data;
     completionTokens := completionTokens data; totalTokens := totalTokens data;
     reasoningTokens := reasoningTokens data; cachedTokens := cachedTokens data;
     hasError := hasError data; streamed := streamed data;
     canceled := canceled data; errorStatus := errorStatus data;
     l_inputCost := l_inputCost data; l_outputCost := l_outputCost data;
     l_cachedInputCost := l_cachedInputCost data;
     l_requestCost := l_requestCost data; cost := cost data;
     l_estimatedCost := l_estimatedCost data; cached := cached data |}.

Definition applyRetention (w : WorkerEnv) (data : LogRow) : LogRow :=
  match retentionLevel w (organizationId (base data)) with
  | Some level => if String.eqb level "none" then metadataOnly data else data
  | None => data
  end.

(** [creditUpdates.set(id, (creditUpdates.get(id) || 0) + cost)] *)
Fixpoint addCost (w : WorkerEnv) (organizationId : string) (amount : Q)
    (l : list (string * Q)) : list (string * Q) :=
  match l with
  | [] => [(organizationId, js_add w (num_or_zero None) amount)]
  | (k, v) :: r =>
      if String.eqb k organizationId
      then (k, js_add w (num_or_zero (Some v)) amount) :: r
      else (k, v) :: addCost w organizationId amount r
  end.

(** Lines 3324-3343: the cost to debit per organization. *)
Definition creditUpdates (w : WorkerEnv) (logData : list LogRow)
  : list (string * Q) :=
  fold_left
    (fun acc data =>
       if (negb (truthy_num (cost data)) || cached data)%bool then acc
       else
         match projectMode w (projectId (base data)) with
         | Some m =>
             if String.eqb m "api-keys" then acc
             else addCost w (organizationId (base data)) (num_or_zero (cost data)) acc
         | None => addCost w (organizationId (base data)) (num_or_zero (cost data)) acc
         end)
    logData [].

(** [credits = credits - totalCost] for one organization. *)
Definition debit (w : WorkerEnv) (credits : list (string * Q)) (update : string * Q)
  : list (string * Q) :=
  map (fun kv => if String.eqb (fst kv) (fst update)
                 then (fst kv, sql_subtract w (snd kv) (snd update)) else kv)
    credits.

Definition with_queues (q : Queues) (s : State) : State :=
  {| queues := q; store := store s |}.

(** The [catch] of [processLogQueue]: the batch goes back to the main
    queue, unless that throws as well. *)
Definition recover (recoveryThrows : bool) (s : State) : State * Outcome :=
  if recoveryThrows then (s, LeftInProcessing)
  else (with_queues (recoverProcessingQueue (queues s)) s, Recovered).

Definition is_some {A : Type} (o : option A) : bool :=
  match o with
  | Some _ => true
  | None => false
  end.

Fixpoint somes {A : Type} (l : list (option A)) : list A :=
  match l with
  | [] => []
  | Some a :: r => a :: somes r
  | None :: r => somes r
  end.

(** [processLogQueue] *)
Definition processLogQueue (w : WorkerEnv) (fault : Fault) (s : State)
  : State * Outcome :=
  match fault with
  | ClaimThrows => (s, Threw)
  | _ =>
      match moveToProcessingQueue 10 (queues s) with
      | (None, _) => (s, Idle)
      | (Some claimed, q) =>
          let s1 := with_queues q s in
          let failing :=
            match fault with
            | PersistThrows step recoveryThrows => Some (step, recoveryThrows)
            | _ => None
            end in
          let fails_at (p : PersistStep -> bool) : option bool :=
            match failing with
            | Some (step, recoveryThrows) =>
                if p step then Some recoveryThrows else None
            | None => None
            end in
          let logData := somes (map (JSON_parse w) claimed) in
          match logData with
          | [] =>
              match fails_at (fun st => match st with AtAcknowledge => true | _ => false end) with
              | Some recoveryThrows => recover recoveryThrows s1
              | None =>
                  (with_queues (removeFromProcessingQueue (List.length claimed) q) s1,
                   Discarded)
              end
          | _ :: _ =>
              match fails_at (fun st => match st with
                                        | AtRetention | AtInsert => true
                                        | _ => false
                                        end) with
              | Some recoveryThrows => recover recoveryThrows s1
              | None =>
                  let inserted :=
                    (logTable (store s1) ++ map (applyRetention w) logData)%list in
                  let updates := creditUpdates w logData in
                  let looksUp :=
                    existsb (fun data => truthy_num (cost data) && negb (cached data))%bool
                      logData in
                  let limit :=
                    match failing with
                    | Some (AtProjectLookup, _) => if looksUp then Some 0%nat else None
                    | Some (AtCreditUpdate after, _) =>
                        if Nat.ltb after (List.length updates) then Some after else None
                    | _ => None
                    end in
                  match limit, failing with
                  | Some after, Some (_, recoveryThrows) =>
                      recover recoveryThrows
                        {| queues := q;
                           store :=
                             {| logTable := inserted;
                                creditsOf :=
                                  fold_left (debit w) (firstn after updates)
                                    (creditsOf (store s1)) |} |}
                  | _, _ =>
                      let s2 :=
                        {| queues := q;
                           store :=
                             {| logTable := inserted;
                                creditsOf :=
                                  fold_left (debit w) updates (creditsOf (store s1)) |} |} in
                      match fails_at (fun st => match st with
                                                | AtAcknowledge => true
                                                | _ => false
                                                end) with
                      | Some recoveryThrows => recover recoveryThrows s2
                      | None =>
                          (with_queues
                             (removeFromProcessingQueue (List.length claimed) q) s2,
                           Persisted)
                      end
                  end
              end
          end
      end
  end.

(** The start of [startWorker] (lines 3388-3394): the messages a dead
    worker left in the processing queue go back to the main queue,
    unless the call throws. *)
Definition recoverOnStartup (recoveryThrows : bool) (s : State) : State :=
  if recoveryThrows then s
  else with_queues (recoverProcessingQueue (queues s)) s.

(** One turn of the loop of [startWorker], with the counter of the auto
    top-up.  A pass that throws is caught by the loop, which goes on
    with the next turn. *)
Record Turn : Type := {
  turn_fault : Fault;
  turn_now : Z;
  turn_payments : AutoTopUp.Payments
}.

Record Running : Type := {
  state : State;
  billing : AutoTopUp.DB;
  autoTopUpCounter : nat
}.

Definition turn (w : WorkerEnv) (count : nat) (r : Running) (t : Turn) : Running :=
  match processLogQueue w (turn_fault t) (state r) with
  | (s, Threw) =>
      {| state := s; billing := billing r; autoTopUpCounter := autoTopUpCounter r |}
  | (s, _) =>
      if Nat.leb count (S (autoTopUpCounter r))
      then {| state := s;
              billing :=
                AutoTopUp.processAutoTopUp (turn_now t) (turn_payments t) (billing r);
              autoTopUpCounter := 0 |}
      else {| state := s; billing := billing r;
              autoTopUpCounter := S (autoTopUpCounter r) |}
  end.

(** [startWorker]: nothing when a worker runs already; otherwise the
    recovery and one turn per element of [turns], the turns that pass
    until [stopWorker] is called.  [production] is
    [process.env.NODE_ENV === "production"]. *)
Definition startWorker (w : WorkerEnv) (isWorkerRunning production : bool)
    (startupRecoveryThrows : bool) (turns : list Turn)
    (s : State) (db : AutoTopUp.DB) : Running :=
  if isWorkerRunning
  then {| state := s; billing := db; autoTopUpCounter := 0 |}
  else
    fold_left (turn w (if production then 120%nat else 5%nat)) turns
      {| state := recoverOnStartup startupRecoveryThrows s; billing := db;
         autoTopUpCounter := 0 |}.

End Worker.

(* ================================================================== *)
(** * The recent-logs view                                              *)
(* ================================================================== *)

(** The filters of [apps/ui/src/components/activity/recent-logs.tsx]:
    the state of the component, the parameters of the URL it pushes and
    the query it sends for the logs.  [URLSearchParams] is the list of
    its pairs; a handler is the function from the state and the
    parameters it reads to the state it sets and the parameters it
    pushes. *)

Module RecentLogs.

(** [URLSearchParams]: the pairs, in order. *)
Definition SearchParams : Type := list (string * string).

(** [params.get(name)]: the first value of that name. *)
Definition params_get (name : string) (params : SearchParams) : option string :=
  assoc name params.

(** [params.delete(name)] *)
Definition params_delete (name : string) (params : SearchParams) : SearchParams :=
  filter (fun kv => negb (String.eqb (fst kv) name)) params.

(** [params.set(name, value)]: the first pair of that name takes the
    value and the others are removed; without one the pair is
    appended. *)
Fixpoint params_set (name value : string) (params : SearchParams) : SearchParams :=
  match params with
  | [] => [(name, value)]
  | (k, v) :: r =>
      if String.eqb k name then (name, value) :: params_delete name r
      else (k, v) :: params_set name value r
  end.

(** The filters [handleFilterChange] is used with. *)
Inductive FilterKey : Type :=
| FinishReason
| UnifiedFinishReason
| ProviderFilter
| ModelFilter.

Definition key_name (k : FilterKey) : string :=
  match k with
  | FinishReason => "finishReason"
  | UnifiedFinishReason => "unifiedFinishReason"
  | ProviderFilter => "provider"
  | ModelFilter => "model"
  end.

(** A [DateRange], its dates as [toISOString] gives them. *)
Record DateRange : Type := {
  range_start : option string;
  range_end : option string
}.

(** The state of the component. *)
Record Filters : Type := {
  dateRange : option DateRange;
  finishReason : option string;
  unifiedFinishReason : option string;
  provider : option string;
  model : option string
}.

Definition filter_of (k : FilterKey) (f : Filters) : option string :=
  match k with
  | FinishReason => finishReason f
  | UnifiedFinishReason => unifiedFinishReason f
  | ProviderFilter => provider f
  | ModelFilter => model f
  end.

(** The setter [handleFilterChange] is given for each key. *)
Definition set_filter (k : FilterKey) (value : option string) (f : Filters) : Filters :=
  match k with
  | FinishReason =>
      {| dateRange := dateRange f; finishReason := value;
         unifiedFinishReason := unifiedFinishReason f; provider := provider f;
         model := model f |}
  | UnifiedFinishReason =>
      {| dateRange := dateRange f; finishReason := finishReason f;
         unifiedFinishReason := value; provider := provider f; model := model f |}
  | ProviderFilter =>
      {| dateRange := dateRange f; finishReason := finishReason f;
         unifiedFinishReason := unifiedFinishReason f; provider := value;
         model := model f |}
  | ModelFilter =>
      {| dateRange := dateRange f; finishReason := finishReason f;
         unifiedFinishReason := unifiedFinishReason f; provider := provider f;
         model := value |}
  end.


(** [updateUrlWithFilters]: the parameters of the URL it pushes. *)
Definition updateUrlWithFilters (searchParams : SearchParams)
    (newParams : list (string * option string)) : SearchParams :=
  fold_left
    (fun params kv =>
       match str_or_null (snd kv) with
       | Some value =>
           if negb (String.eqb value "all") then params_set (fst kv) value params
           else params_delete (fst kv) params
       | None => params_delete (fst kv) params
       end)
    newParams searchParams.

(** [handleFilterChange(filterKey, setter)(value)]: the new state and
    the parameters of the URL. *)
Definition handleFilterChange (k : FilterKey) (value : string)
    (f : Filters) (searchParams : SearchParams) : Filters * SearchParams :=
  let filterValue := if String.eqb value "all" then None else Some value in
  (set_filter k filterValue f,
   updateUrlWithFilters searchParams [(key_name k, filterValue)]).

(** The [queryParams] of the request for the logs. *)
Definition queryParams (f : Filters) (projectId : option string)
  : list (string * string) :=
  let given (name : string) (value : option string) :=
    match str_or_null value with
    | Some v => if negb (String.eqb v "all") then [(name, v)] else []
    | None => []
    end in
  ([("orderBy", "createdAt_desc")]
  ++ match dateRange f with
     | Some r => match range_start r with Some d => [("startDate", d)] | None => [] end
     | None => []
     end
  ++ match dateRange f with
     | Some r => match range_end r with Some d => [("endDate", d)] | None => [] end
     | None => []
     end
  ++ given "finishReason" (finishReason f)
  ++ given "unifiedFinishReason" (unifiedFinishReason f)
  ++ given "provider" (provider f)
  ++ given "model" (model f)
  ++ match str_or_null projectId with
     | Some p => [("projectId", p)]
     | None => []
     end)%list.

End RecentLogs.

(* ================================================================== *)
(** * A small deployment, for the concrete runs                         *)
(* ================================================================== *)

Module Demo.

Import Handler.

Definition mapping (provider : Provider) (model : string) : ProviderModelMapping :=
  {| providerId := provider; modelName := model; maxOutput := Some 4096%Q;
     streaming := true; reasoning := None |}.

Definition model (name : string) (mappings : list ProviderModelMapping)
    (deprecated : option Z) : ModelDefinition :=
  {| id := name; Catalog.providers := mappings; jsonOutput := Some true;
     deprecatedAt := deprecated; deactivatedAt := None |}.

Definition provider_table : list ProviderDefinition :=
  [{| provider_id := "llmgateway"; cancellation := None |};
   {| provider_id := "openai"; cancellation := Some true |};
   {| provider_id := "anthropic"; cancellation := Some true |};
   {| provider_id := "google-ai-studio"; cancellation := None |}].

(** A catalog in the order of the source: the gateway's own models
    first.  [mini_deprecated] is the deprecation date of gpt-4o-mini. *)
Definition catalog (mini_deprecated : option Z) : list ModelDefinition :=
  [model "auto" [mapping "llmgateway" "auto"] None;
   model "custom" [mapping "llmgateway" "custom"] None;
   model "gpt-4o-mini" [mapping "openai" "gpt-4o-mini"] mini_deprecated;
   model "claude-3-5-sonnet" [mapping "anthropic" "claude-3-5-sonnet-latest"] None;
   model "gemini-2.5-flash" [mapping "google-ai-studio" "gemini-2.5-flash"] None].

Definition api_key : ApiKey :=
  {| ak_id := "key_1"; ak_token := "sk-demo"; ak_projectId := "proj_1";
     ak_status := "active" |}.

Definition stored_anthropic_key : ProviderKey :=
  {| pk_id := "pk_1"; pk_organizationId := "org_1"; pk_provider := "anthropic";
     pk_token := "stored-anthropic"; pk_baseUrl := None; pk_status := "active" |}.

Definition no_costs : Costs :=
  {| inputCost := Some 0%Q; outputCost := Some 0%Q; cachedInputCost := Some 0%Q;
     requestCost := Some 0%Q; totalCost := Some 0%Q; estimatedCost := false |}.

(** JSON text is written with single quotes here and converted. *)
Fixpoint json_text (s : string) : string :=
  match s with
  | EmptyString => EmptyString
  | String c r =>
      String (if Ascii.eqb c "'"%char then ascii_of_nat 34 else c) (json_text r)
  end.

(** The payloads of an Anthropic event stream, with what [JSON.parse]
    makes of each: the message starts, one text delta, the delta with
    the stop reason and the output tokens, the stop. *)
Definition message_start : string :=
  json_text
    "{'type':'message_start','message':{'usage':{'input_tokens':9,'output_tokens':1}}}".

Definition content_block_delta : string :=
  json_text
    "{'type':'content_block_delta','index':0,'delta':{'type':'text_delta','text':'Hello!'}}".

Definition message_delta : string :=
  json_text
    "{'type':'message_delta','delta':{'stop_reason':'end_turn'},'usage':{'output_tokens':5}}".

Definition message_stop : string := json_text "{'type':'message_stop'}".

(** Two chunks of an OpenAI stream and one object of a Google stream. *)
Definition openai_first : string :=
  json_text
    "{'id':'c1','object':'chat.completion.chunk','choices':[{'index':0,'delta':{'content':'Hi'},'finish_reason':null}]}".

Definition openai_last : string :=
  json_text
    "{'id':'c1','object':'chat.completion.chunk','choices':[{'index':0,'delta':{},'finish_reason':'stop'}]}".

(** A chunk whose [choices] are no array. *)
Definition openai_malformed : string :=
  json_text "{'id':'c1','object':'chat.completion.chunk','choices':{}}".

Definition google_object : string :=
  json_text
    "{'candidates':[{'content':{'parts':[{'text':'Hi'}]},'finishReason':'STOP'}],'usageMetadata':{'promptTokenCount':3,'candidatesTokenCount':1,'totalTokenCount':4}}".

(** [JSON.parse] on the payloads of the runs below. *)
Definition known_payloads : list (string * Json) :=
  [(openai_first,
    JObj [("id", JStr "c1"); ("object", JStr "chat.completion.chunk");
          ("choices",
           JArr [JObj [("index", JNum 0);
                       ("delta", JObj [("content", JStr "Hi")]);
                       ("finish_reason", JNull)]])]);
   (openai_last,
    JObj [("id", JStr "c1"); ("object", JStr "chat.completion.chunk");
          ("choices",
           JArr [JObj [("index", JNum 0);
                       ("delta", JObj []);
                       ("finish_reason", JStr "stop")]])]);
   (google_object,
    JObj [("candidates",
           JArr [JObj [("content", JObj [("parts", JArr [JObj [("text", JStr "Hi")]])]);
                       ("finishReason", JStr "STOP")]]);
          ("usageMetadata",
           JObj [("promptTokenCount", JNum 3); ("candidatesTokenCount", JNum 1);
                 ("totalTokenCount", JNum 4)])]);
   (message_start,
    JObj [("type", JStr "message_start");
          ("message",
           JObj [("usage", JObj [("input_tokens", JNum 9);
                                 ("output_tokens", JNum 1)])])]);
   (content_block_delta,
    JObj [("type", JStr "content_block_delta");
          ("index", JNum 0);
          ("delta", JObj [("type", JStr "text_delta"); ("text", JStr "Hello!")])]);
   (message_delta,
    JObj [("type", JStr "message_delta");
          ("delta", JObj [("stop_reason", JStr "end_turn")]);
          ("usage", JObj [("output_tokens", JNum 5)])]);
   (message_stop, JObj [("type", JStr "message_stop")]);
   (openai_malformed,
    JObj [("id", JStr "c1"); ("object", JStr "chat.completion.chunk");
          ("choices", JObj [])])].

(** The text of a number without a fraction, as the numbers of the runs
    are. *)
Definition integer_text (n : Q) : string :=
  NilZero.string_of_int (Z.to_int (Qfloor n)).

Definition sse_lines (lines : list string) : string :=
  String.concat EmptyString (map (fun l => (l ++ newline)%string) lines).

(** An OpenAI stream, ended by the line [data: [DONE]], and a Google
    stream of one object. *)
Definition openai_events : list string :=
  [sse_lines ["data: " ++ openai_first; EmptyString; "data: " ++ openai_last;
              EmptyString; "data: [DONE]"; EmptyString]%string].

Definition google_events : list string := ["[" ++ google_object ++ "]"]%string.

(** The event stream as Anthropic sends it, without a [data: [DONE]]
    line, in two chunks that break inside the third event. *)
Definition anthropic_events : list string :=
  [(sse_lines ["event: message_start"; "data: " ++ message_start; EmptyString;
               "event: content_block_delta"; "data: " ++ content_block_delta;
               EmptyString; "event: message_delta"]
    ++ "data: " ++ String.substring 0 30 message_delta)%string;
   (String.substring 30 (String.length message_delta - 30) message_delta ++ newline
    ++ sse_lines [EmptyString; "event: message_stop"; "data: " ++ message_stop;
                  EmptyString])%string].

(** One organization with 5 credits, one project in the given billing
    mode, an environment token for the listed providers and the stored
    keys given. *)
Definition deployment (projectMode : string) (mini_deprecated : option Z)
    (envTokens : list Provider) (keys : list ProviderKey)
    (caching : bool) (cache : string -> option Json)
    (up : FetchOutcome) (abort : ClientAbort) : Env :=
  let parse := fun text => JS.assoc text known_payloads in
  {| providers := provider_table;
     models := catalog mini_deprecated;
     getCheapestFromAvailableProviders := fun available _ => hd_error available;
     getProviderEndpoint :=
       fun provider _ _ _ => Some (Some ("https://" ++ provider ++ ".example/v1"));
     getModelStreamingSupport := fun _ _ => Some true;
     hasProviderEnvironmentToken := fun p => existsb (String.eqb p) envTokens;
     getProviderEnvVar := fun p => Some (p ++ "_API_KEY");
     process_env :=
       fun v => if existsb (fun p => String.eqb v (p ++ "_API_KEY")) envTokens
                then Some ("env-token-of-" ++ v) else None;
     calculateCosts := fun _ _ _ _ _ _ _ => no_costs;
     encodeChat := fun _ => Some 7%nat;
     encode := fun _ => Some 3%nat;
     JSON_parse := parse;
     unwrapJsonFence := fun s => s;
     includesJsonFence := fun _ => false;
     apiKey_findFirst :=
       fun token => if String.eqb token "sk-demo" then Some api_key else None;
     providerKey_rows := keys;
     getProject :=
       fun i => if String.eqb i "proj_1"
                then Some {| pr_id := "proj_1"; pr_organizationId := "org_1";
                             pr_mode := projectMode |}
                else None;
     getOrganization :=
       fun i => if String.eqb i "org_1"
                then Some {| org_id := "org_1"; org_credits := 5%Q |}
                else None;
     getProviderKey :=
       fun org p =>
         find (fun k => String.eqb (pk_organizationId k) org
                        && String.eqb (pk_provider k) p)%bool keys;
     getCustomProviderKey := fun _ _ => None;
     checkCustomProviderExists := fun _ _ => false;
     isCachingEnabled := fun _ => (caching, 60);
     generateCacheKey := fun usedModel _ _ _ _ _ _ _ => "key-of-" ++ usedModel;
     getCache := cache;
     now := 1700000000000;
     elapsed := 120;
     shortid := "generated-request-id";
     stringify_length := fun _ => 0%nat;
     numberText := integer_text;
     upstream := up;
     clientAbort := abort |}.

Definition user_message (text : string) : Message :=
  {| role := "user"; content := CString text; name := None |}.

Definition chat (authorization : option string) (model : string) (stream : bool)
  : Request :=
  {| h_authorization := authorization; h_request_id := None; h_all := [];
     b_model := model; b_messages := [user_message "hello there"];
     b_temperature := None; b_max_tokens := None; b_top_p := None;
     b_frequency_penalty := None; b_presence_penalty := None;
     b_response_format := None; b_stream := stream; b_tools := JUndefined;
     b_tool_choice := JUndefined; b_reasoning_effort := None |}.

Definition ok_json (json : Json) : FetchOutcome :=
  Resolves {| r_ok := true; r_status := 200; r_statusText := "OK"; r_text := EmptyString;
              r_json := Some json; r_body := None |}.

Definition ok_stream (chunks : list string) : FetchOutcome :=
  Resolves {| r_ok := true; r_status := 200; r_statusText := "OK";
              r_text := EmptyString; r_json := None; r_body := Some chunks |}.

Definition openai_completion : Json :=
  JObj [("id", JStr "chatcmpl-1");
        ("object", JStr "chat.completion");
        ("choices",
         JArr [JObj [("index", JNum 0);
                     ("message", JObj [("role", JStr "assistant");
                                       ("content", JStr "hi")]);
                     ("finish_reason", JStr "stop")]]);
        ("usage", JObj [("prompt_tokens", JNum 3); ("completion_tokens", JNum 1);
                        ("total_tokens", JNum 4)])].




End Demo.

(* ================================================================== *)
(** * Notions the properties are stated with                            *)
(* ================================================================== *)

Import Normalize Streaming Handler.

(** The [finish_reason] of a unary response and of a streamed chunk. *)
Definition finish_reason_of (response : Json) : Json :=
  get [K "choices"; I 0; K "finish_reason"] response.

(** A computation that makes no effect. *)
Definition effect_free {A : Type} (m : M A) : Prop := forall e, snd (m e) = e.

(** The upstream answered a streamed request with a successful response
    that has no body. *)
Definition streamed_without_body (env : Env) (req : Request) : bool :=
  (b_stream req
   && match upstream env with
      | Resolves res => r_ok res && negb (Worker.is_some (r_body res))
      | Rejects _ => false
      end)%bool.


(** The cache key of a request, as the handler computes it. *)
Definition cacheKeyFor (env : Env) (req : Request) (c : Context) : string :=
  generateCacheKey env (c_usedModel c) (b_messages req) (b_temperature req)
    (b_max_tokens req) (b_top_p req) (b_frequency_penalty req)
    (b_presence_penalty req) (b_response_format req).

(** The names of the events of a response, in the order written. *)
Definition event_names (e : Effects) : list (option string) :=
  map sse_event (events e).

(** What a run of [serve] for the context [c] leaves behind: no log row
    when it throws, one when it replies (a streamed response without a
    body apart), never more than one; every row carries the base entry
    of [c] and every upstream request its token, provider and model. *)
Definition well_logged (env : Env) (req : Request) (c : Context)
    (out : (Exn + Reply) * Effects) : Prop :=
  (forall x, fst out = inl x -> logs (snd out) = [])
  /\ (forall reply, fst out = inr reply -> streamed_without_body env req = false ->
      exists row, logs (snd out) = [row])
  /\ (List.length (logs (snd out)) <= 1)%nat
  /\ (forall row, In row (logs (snd out)) -> base row = baseLogEntry req c)
  /\ (forall f, In f (fetches (snd out)) ->
      f_token f = c_usedToken c /\ f_provider f = c_usedProvider c
      /\ f_model f = c_usedModel c).

(** Two top-up transactions of one organization, each pending or
    succeeded, created less than an hour apart. *)
Definition counts_as_topup (t : AutoTopUp.Transaction) : bool :=
  (String.eqb (AutoTopUp.t_type t) "credit_topup"
   && (String.eqb (AutoTopUp.t_status t) "pending"
       || String.eqb (AutoTopUp.t_status t) "succeeded"))%bool.

Definition within_an_hour (a b : AutoTopUp.Transaction) : bool :=
  (Z.abs (AutoTopUp.t_createdAt a - AutoTopUp.t_createdAt b) <? 60 * 60 * 1000).

Definition two_topups_within_an_hour (db : AutoTopUp.DB) : bool :=
  existsb
    (fun a =>
       existsb
         (fun b =>
            negb (Nat.eqb (AutoTopUp.t_id a) (AutoTopUp.t_id b))
            && String.eqb (AutoTopUp.t_organizationId a) (AutoTopUp.t_organizationId b)
            && counts_as_topup a && counts_as_topup b && within_an_hour a b)%bool
         (AutoTopUp.transactions db))
    (AutoTopUp.transactions db).

(** The transactions of one organization. *)
Definition transactions_of (organizationId : string) (db : AutoTopUp.DB)
  : list AutoTopUp.Transaction :=
  filter (fun t => String.eqb (AutoTopUp.t_organizationId t) organizationId)
    (AutoTopUp.transactions db).

(** An organization below its threshold with a default card, and the
    top-up that succeeded ten minutes before [demo_now]. *)
Definition demo_now : Z := 1700000000000.

Definition demo_billing : AutoTopUp.DB :=
  {| AutoTopUp.locks := [];
     AutoTopUp.organizations :=
       [{| AutoTopUp.org_id := "org_1"; AutoTopUp.credits := Some 2%Q;
           AutoTopUp.autoTopUpEnabled := true;
           AutoTopUp.autoTopUpThreshold := Some 10%Q;
           AutoTopUp.autoTopUpAmount := Some 50%Q;
           AutoTopUp.plan := "free"; AutoTopUp.stripeCustomerId := "cus_1" |}];
     AutoTopUp.transactions :=
       [{| AutoTopUp.t_id := 1; AutoTopUp.t_organizationId := "org_1";
           AutoTopUp.t_type := "credit_topup"; AutoTopUp.t_status := "succeeded";
           AutoTopUp.t_createdAt := demo_now - 10 * 60 * 1000;
           AutoTopUp.t_creditAmount := 50%Q; AutoTopUp.t_amount := 52%Q;
           AutoTopUp.t_stripePaymentIntentId := Some "pi_1";
           AutoTopUp.t_description := "Auto top-up" |}];
     AutoTopUp.paymentMethods :=
       [{| AutoTopUp.pm_organizationId := "org_1"; AutoTopUp.pm_isDefault := true;
           AutoTopUp.pm_stripePaymentMethodId := "pm_1" |}] |}.

Definition demo_payments : AutoTopUp.Payments :=
  {| AutoTopUp.paymentMethods_retrieve := fun _ => Some (Some "US");
     AutoTopUp.paymentIntents_create := fun _ _ => AutoTopUp.Intent "pi_2" "succeeded";
     AutoTopUp.calculateFees :=
       fun amount _ _ =>
         {| AutoTopUp.baseAmount := amount; AutoTopUp.totalFees := 2%Q;
            AutoTopUp.totalAmount := (amount + 2)%Q |};
     AutoTopUp.amountText := Demo.integer_text |}.

(** The same organization with that top-up still pending. *)
Definition demo_billing_pending : AutoTopUp.DB :=
  {| AutoTopUp.locks := AutoTopUp.locks demo_billing;
     AutoTopUp.organizations := AutoTopUp.organizations demo_billing;
     AutoTopUp.transactions :=
       [{| AutoTopUp.t_id := 1; AutoTopUp.t_organizationId := "org_1";
           AutoTopUp.t_type := "credit_topup"; AutoTopUp.t_status := "pending";
           AutoTopUp.t_createdAt := demo_now - 10 * 60 * 1000;
           AutoTopUp.t_creditAmount := 50%Q; AutoTopUp.t_amount := 52%Q;
           AutoTopUp.t_stripePaymentIntentId := Some "pi_1";
           AutoTopUp.t_description := "Auto top-up" |}];
     AutoTopUp.paymentMethods := AutoTopUp.paymentMethods demo_billing |}.

(** A worker whose messages are the request ids of the rows they
    carry; the message ["garbage"] does not parse. *)
Definition demo_row (requestId : string) : LogRow :=
  cachedLogRow
    (Demo.deployment "credits" None ["openai"] [] false (fun _ => None)
       (Demo.ok_json Demo.openai_completion) NoAbort)
    (Demo.chat None "gpt-4o-mini" false)
    {| c_requestId := requestId;
       c_project := {| pr_id := "proj_1"; pr_organizationId := "org_1";
                       pr_mode := "credits" |};
       c_apiKey := Demo.api_key; c_providerKey := None;
       c_usedModel := "gpt-4o-mini"; c_usedProvider := "openai";
       c_requestedModel := "gpt-4o-mini"; c_requestedProvider := None;
       c_customHeaders := []; c_url := EmptyString; c_usedToken := EmptyString |}
    Demo.openai_completion.

Definition demo_worker : Worker.WorkerEnv :=
  {| Worker.JSON_parse :=
       fun message => if String.eqb message "garbage" then None
                      else Some (demo_row message);
     Worker.retentionLevel := fun _ => None;
     Worker.projectMode := fun _ => Some "credits";
     Worker.js_add := fun a b => Qred (a + b);
     Worker.sql_subtract := fun a b => Qred (a - b) |}.

Definition demo_queues : Worker.State :=
  {| Worker.queues :=
       {| Worker.mainQueue := ["req_1"; "garbage"; "req_2"];
          Worker.processingQueue := [] |};
     Worker.store := {| Worker.logTable := []; Worker.creditsOf := [("org_1", 5%Q)] |} |}.


(** What a run of [serve] for the context [c] leaves behind, beyond the
    log rows: at most one upstream request, none behind an
    [HTTPException], sent to the URL of [c]; an event stream for a
    streamed request and a JSON reply for another; events numbered
    from 0, and none for a request that is not streamed; at most one
    cache entry, which holds the body of the reply under the cache key
    of the request; and in every log row the [streamed] flag of the
    request, [canceled] only when the provider supports cancellation
    and the client closed the connection, no cost beside an error, a
    cost of zero and no upstream request beside a cache hit. *)
Definition orderly (env : Env) (req : Request) (c : Context)
    (out : (Exn + Reply) * Effects) : Prop :=
  (List.length (fetches (snd out)) <= 1)%nat
  /\ (forall status message,
        fst out = inl (HTTPException status message) -> fetches (snd out) = [])
  /\ (forall reply, fst out = inr reply ->
        (b_stream req = true -> reply = SSEReply)
        /\ (b_stream req = false -> exists status body, reply = JsonReply status body))
  /\ (forall f, In f (fetches (snd out)) ->
      f_url f = c_url c /\ f_stream f = b_stream req
      /\ f_cancellable f = requestCanBeCanceled env (c_usedProvider c))
  /\ map sse_id (events (snd out)) = seq 0 (List.length (events (snd out)))
  /\ (b_stream req = false -> events (snd out) = [])
  /\ (List.length (cacheSets (snd out)) <= 1)%nat
  /\ (forall key value ttl, In (key, value, ttl) (cacheSets (snd out)) ->
      b_stream req = false
      /\ isCachingEnabled env (pr_id (c_project c)) = (true, ttl)
      /\ key = cacheKeyFor env req c
      /\ fst out = inr (JsonReply 200 value))
  /\ (forall row, In row (logs (snd out)) ->
      streamed row = b_stream req
      /\ (canceled row = true ->
          requestCanBeCanceled env (c_usedProvider c) = true
          /\ clientAbort env <> NoAbort)
      /\ (hasError row = true -> cost row = None /\ cached row = false)
      /\ (cached row = true -> cost row = Some 0%Q /\ fetches (snd out) = [])).


(** The key under which [extractCustomHeaders] records a header, if it
    records it. *)
Definition customHeaderKey (name : string) : option string :=
  let key := toLowerCase name in
  if startsWith "x-llmgateway-" key
  then
    let suffix :=
      String.substring (String.length "x-llmgateway-")
        (String.length key - String.length "x-llmgateway-") key in
    if String.eqb suffix "__proto__" then None else Some suffix
  else None.

(** The value [extractContentFromProvider] reads as the text of a
    chunk. *)
Definition text_position (provider : Provider) (data : Json) : Json :=
  if one_of provider google_family then
    get [K "candidates"; I 0; K "content"; K "parts"; I 0; K "text"] data
  else if String.eqb provider "anthropic" then get [K "delta"; K "text"] data
  else get [K "choices"; I 0; K "delta"; K "content"] data.

(** The positions of a chunk that the read loop appends as a string or
    adds as a number hold such a value, or none: the text is a string or
    falsy, and the [output_tokens] of an Anthropic usage are a number or
    missing. *)
Definition typed_chunk (provider : Provider) (data : Json) : bool :=
  (negb (no_string (text_position provider data))
   && (negb (String.eqb provider "anthropic")
       || match get [K "usage"; K "output_tokens"] data with
          | JNum _ | JNull | JUndefined => true
          | _ => false
          end))%bool.

(** A non-empty string without upper-case letters. *)
Definition lowercase (s : string) : Prop := s <> EmptyString /\ toLowerCase s = s.

(** The events of an Anthropic stream that carry a tool call. *)
Definition tool_use_start (id name : string) : Json :=
  JObj [("type", JStr "content_block_start");
        ("index", JNum 1);
        ("content_block",
         JObj [("type", JStr "tool_use"); ("id", JStr id); ("name", JStr name);
               ("input", JObj [])])].

Definition input_json_delta (partial_json : string) : Json :=
  JObj [("type", JStr "content_block_delta");
        ("index", JNum 1);
        ("delta", JObj [("type", JStr "input_json_delta");
                        ("partial_json", JStr partial_json)])].

(** The argument fragments the deltas carry for the call at [index],
    in order. *)
Definition fragments (index : nat) (deltas : list ToolCalls.ToolCallDelta) : string :=
  String.concat EmptyString
    (map (fun d => match str_or_null (ToolCalls.d_arguments d) with
                   | Some a => a
                   | None => EmptyString
                   end)
       (filter (fun d => Nat.eqb (ToolCalls.d_index d) index) deltas)).

(** A transaction the pass at [now] adds to [db]: a top-up created at
    [now], pending or failed, under an id that [db] does not use, for an
    organization of [db] with auto top-up enabled, credits below its
    threshold and a default payment method. *)
Definition added_by_the_pass (now : Z) (db : AutoTopUp.DB) (t : AutoTopUp.Transaction)
  : Prop :=
  AutoTopUp.t_type t = "credit_topup"
  /\ AutoTopUp.t_createdAt t = now
  /\ (AutoTopUp.t_status t = "pending" \/ AutoTopUp.t_status t = "failed")
  /\ (forall old, In old (AutoTopUp.transactions db) ->
        AutoTopUp.t_id old <> AutoTopUp.t_id t)
  /\ exists org m,
       In org (AutoTopUp.organizations db)
       /\ AutoTopUp.org_id org = AutoTopUp.t_organizationId t
       /\ AutoTopUp.autoTopUpEnabled org = true /\ AutoTopUp.needsTopUp org = true
       /\ In m (AutoTopUp.paymentMethods db)
       /\ AutoTopUp.pm_organizationId m = AutoTopUp.org_id org
       /\ AutoTopUp.pm_isDefault m = true.

(** A row whose cost is debited: it has a cost, was not served from the
    cache, and its project is not in api-keys mode. *)
Definition billable (w : Worker.WorkerEnv) (data : LogRow) : bool :=
  (truthy_num (cost data) && negb (cached data)
   && negb (match Worker.projectMode w (projectId (base data)) with
            | Some m => String.eqb m "api-keys"
            | None => false
            end))%bool.

(** The costs of the billable rows of one organization, in the order
    of the batch. *)
Definition costs_of (w : Worker.WorkerEnv) (org : string) (logData : list LogRow)
  : list Q :=
  map (fun data => num_or_zero (cost data))
    (filter (fun data =>
               (billable w data && String.eqb (organizationId (base data)) org)%bool)
       logData).

(** [(total || 0) + cost], cost after cost: what the map of the credit
    updates holds for an organization with these costs, nothing when
    there is none. *)
Definition js_total (w : Worker.WorkerEnv) (costs : list Q) : option Q :=
  fold_left (fun total c => Some (Worker.js_add w (num_or_zero total) c)) costs None.

(** What one row adds to the credit updates. *)
Definition creditStep (w : Worker.WorkerEnv) (acc : list (string * Q)) (data : LogRow)
  : list (string * Q) :=
  if billable w data
  then Worker.addCost w (organizationId (base data)) (num_or_zero (cost data)) acc
  else acc.

(** The row [data] as the upstream served it, at the cost [c]. *)
Definition at_cost (c : Q) (data : LogRow) : LogRow :=
  {| base := base data;
     duration := duration data; responseSize := responseSize data;
     l_content := l_content data; l_reasoningContent := l_reasoningContent data;
     finishReason := finishReason data; promptTokens := promptTokens data;
     completionTokens := completionTokens data; totalTokens := totalTokens data;
     reasoningTokens := reasoningTokens data; cachedTokens := cachedTokens data;
     hasError := hasError data; streamed := streamed data;
     canceled := canceled data; errorStatus := errorStatus data;
     l_inputCost := l_inputCost data; l_outputCost := l_outputCost data;
     l_cachedInputCost := l_cachedInputCost data;
     l_requestCost := l_requestCost data; cost := Some c;
     l_estimatedCost := l_estimatedCost data; cached := false |}.

(** A worker whose rows cost a half and a quarter.  Doubles hold these
    costs and their sums exactly, so that the exact operations are the
    ones of the engine here. *)
Definition demo_billed_worker : Worker.WorkerEnv :=
  {| Worker.JSON_parse :=
       fun message =>
         if String.eqb message "garbage" then None
         else Some (at_cost (if String.eqb message "req_1" then 1 # 2 else 1 # 4)
                      (demo_row message));
     Worker.retentionLevel := fun _ => None;
     Worker.projectMode := fun _ => Some "credits";
     Worker.js_add := fun a b => Qred (a + b);
     Worker.sql_subtract := fun a b => Qred (a - b) |}.

(** A turn whose pass over the log queue does not throw. *)
Definition completes (t : Worker.Turn) : bool :=
  match Worker.turn_fault t with
  | Worker.ClaimThrows => false
  | _ => true
  end.

(** A turn without a fault at [demo_now]. *)
Definition demo_turn : Worker.Turn :=
  {| Worker.turn_fault := Worker.NoFault; Worker.turn_now := demo_now;
     Worker.turn_payments := demo_payments |}.

(* ================================================================== *)
(** * Properties                                                        *)
(* ================================================================== *)

Open Scope list_scope.

(** ** The JavaScript primitives on a few inputs *)

Example split_bearer :
  split "Bearer " "Bearer sk-demo" = [EmptyString; "sk-demo"]
  /\ split "Bearer " "Basic dXNlcg==" = ["Basic dXNlcg=="]
  /\ split "Bearer " "Bearer " = [EmptyString; EmptyString]
  /\ split "/" "together.ai/meta-llama/Llama-3" = ["together.ai"; "meta-llama"; "Llama-3"].
Proof. repeat split. Qed.

Example round_half_up :
  Math_round (1 # 2) = 1 /\ Math_round (5 # 4) = 1 /\ Math_round (3 # 2) = 2
  /\ Math_round (7 # 4) = 2.
Proof. repeat split. Qed.

Example lower_case : toLowerCase "MAX_TOKENS" = "max_tokens".
Proof. reflexivity. Qed.

Example optional_chaining :
  get [K "choices"; I 0; K "message"; K "content"] Demo.openai_completion = JStr "hi"
  /\ get [K "choices"; I 1; K "message"; K "content"] Demo.openai_completion
     = JUndefined
  /\ get [K "usage"; K "prompt_tokens_details"; K "cached_tokens"]
       Demo.openai_completion = JUndefined.
Proof. repeat split. Qed.

(* ================================================================== *)
(** * Properties: token estimation                                      *)
(* ================================================================== *)

Lemma Math_round_quarter (n : Z) : Math_round (inject_Z n / 4) = (n + 2) / 4.
Proof.
  unfold Math_round, Qdiv, Qmult, Qinv, Qplus, Qfloor, inject_Z. simpl.
  replace (n * 1 * 2 + 4) with ((n + 2) * 2) by lia.
  change 8 with (4 * 2).
  rewrite Z.div_mul_cancel_r by lia. reflexivity.
Qed.

Lemma Math_ceil_quarter (n : Z) : Math_ceil (inject_Z n / 4) = (n + 3) / 4.
Proof.
  unfold Math_ceil, Qceiling, Qdiv, Qmult, Qinv, Qopp, Qfloor, inject_Z. simpl.
  rewrite Z.mul_1_r.
  Z.div_mod_to_equations. lia.
Qed.

Lemma truthy_str_nonempty (s : string) : s <> EmptyString -> truthy_str (Some s) = true.
Proof. destruct s; [congruence | reflexivity]. Qed.

(** C8, as stated, fails: for a text of five characters the streaming
    fallback gives 1 where the ceiling of 5/4 is 2, and the fallback of
    [estimateTokens] under a failing tokenizer gives the fraction 5/4
    for the completion and 1/4, which is below 1, for a prompt of one
    character. *)
Lemma fallback_estimate_is_not_the_ceiling :
  Tokens.estimateTokensFromContent "hello"
    <> Z.max 1 (Math_ceil (num_of_nat (String.length "hello") / 4))
  /\ snd (Tokens.estimateTokens (fun _ => None) (fun _ => None) "openai" []
            (Some "hello") None None) = Some (5 # 4)%Q
  /\ fst (Tokens.estimateTokens (fun _ => None) (fun _ => None) "openai"
            [{| role := "user"; content := CString "a"; name := None |}]
            None None None) = Some (1 # 4)%Q.
Proof.
  split; [| split]; vm_compute; [discriminate | reflexivity | reflexivity].
Qed.

(** C8 (amended).  The fallback estimate is a rounding, not a ceiling.
    [estimateTokensFromContent] returns [max(1, round(L/4))], halves
    rounded up, which is never less than 1 and agrees with
    [max(1, ceil(L/4))] exactly when [L mod 4 <> 1] or [L = 1].  When
    the tokenizer throws, [estimateTokens] takes [L/4] as it is, without
    rounding and without the lower bound: the content length over four
    for the completion, the summed content lengths over four for the
    prompt.  The prompt estimate of the streaming path is the rounded
    quarter of the summed content lengths, without the lower bound. *)
Theorem fallback_token_estimates :
  forall (text : string),
    let L := Z.of_nat (String.length text) in
    Tokens.estimateTokensFromContent text = Z.max 1 ((L + 2) / 4)
    /\ 1 <= Tokens.estimateTokensFromContent text
    /\ (Tokens.estimateTokensFromContent text = Z.max 1 (Math_ceil (inject_Z L / 4))
        <-> L mod 4 <> 1 \/ L = 1)
    /\ (forall encodeChat encode usedProvider messages promptTokens,
           encode text = None -> text <> EmptyString ->
           snd (Tokens.estimateTokens encodeChat encode usedProvider messages
                  (Some text) promptTokens None)
           = Some (inject_Z L / 4)%Q)
    /\ (forall encodeChat encode usedProvider messages completionTokens,
           encodeChat messages = None -> messages <> [] ->
           fst (Tokens.estimateTokens encodeChat encode usedProvider messages
                  (Some text) None completionTokens)
           = Some (inject_Z (Z.of_nat (total_content_length messages)) / 4)%Q)
    /\ (forall req,
           roundedPromptEstimate req
           = inject_Z ((Z.of_nat (total_content_length (b_messages req)) + 2) / 4)).
Proof.
  intros text L.
  assert (E : Tokens.estimateTokensFromContent text = Z.max 1 ((L + 2) / 4)).
  { unfold Tokens.estimateTokensFromContent, num_of_nat.
    rewrite Math_round_quarter. reflexivity. }
  split; [exact E |]. split; [rewrite E; lia |]. split.
  - rewrite E, Math_ceil_quarter.
    assert (0 <= L) by (unfold L; lia).
    split; intro H1.
    + Z.div_mod_to_equations. lia.
    + Z.div_mod_to_equations. lia.
  - split.
    + intros encodeChat encode usedProvider messages promptTokens Henc Hne.
      pose proof (truthy_str_nonempty text Hne) as Ht.
      unfold Tokens.estimateTokens.
      replace (negb (truthy_num promptTokens) || negb (truthy_num None))%bool
        with true by (simpl; rewrite orb_true_r; reflexivity).
      cbv beta iota zeta. unfold snd.
      change (truthy_num None) with false. cbv beta iota delta [negb andb].
      rewrite Ht, Henc. reflexivity.
    + split.
      * intros encodeChat encode usedProvider messages completionTokens Henc Hne.
        unfold Tokens.estimateTokens. simpl.
        destruct messages as [| m ms]; [congruence |].
        simpl. rewrite Henc. reflexivity.
      * intro req. unfold roundedPromptEstimate, num_of_nat.
        rewrite Math_round_quarter. reflexivity.
Qed.

Lemma fallback_token_estimates_witness :
  snd (Tokens.estimateTokens (fun _ => None) (fun _ => None) "openai" []
         (Some "hello") None None)
  = Some (inject_Z (Z.of_nat (String.length "hello")) / 4)%Q.
Proof.
  apply (proj1 (proj2 (proj2 (proj2 (fallback_token_estimates "hello"))))).
  - reflexivity.
  - discriminate.
Defined.

(* ================================================================== *)
(** * Properties: finish reasons                                        *)
(* ================================================================== *)



Lemma eqb_false_of_neq (a b : string) : a <> b -> String.eqb a b = false.
Proof. intro H. apply String.eqb_neq. exact H. Qed.




(* ================================================================== *)
(** * Properties: the handler                                           *)
(* ================================================================== *)

Lemma effect_free_ret {A : Type} (a : A) : effect_free (ret a).
Proof. intro e. reflexivity. Qed.

Lemma effect_free_throw {A : Type} (x : Exn) : effect_free (@throw A x).
Proof. intro e. reflexivity. Qed.

Lemma effect_free_http {A : Type} (status : Z) (message : string) :
  effect_free (@http A status message).
Proof. intro e. reflexivity. Qed.

Lemma effect_free_bind {A B : Type} (m : M A) (k : A -> M B) :
  effect_free m -> (forall a, effect_free (k a)) -> effect_free (bind m k).
Proof.
  intros Hm Hk e. unfold bind. specialize (Hm e).
  destruct (m e) as [[x | a] e']; simpl in *; subst e'.
  - reflexivity.
  - apply Hk.
Qed.

Ltac effect_free_step :=
  match goal with
  | |- effect_free (ret _) => apply effect_free_ret
  | |- effect_free (throw _) => apply effect_free_throw
  | |- effect_free (http _ _) => apply effect_free_http
  | |- effect_free (bind _ _) => apply effect_free_bind; [| intro]
  | |- effect_free (match ?x with _ => _ end) => destruct x
  end.

Ltac effect_free_auto := cbv zeta; repeat effect_free_step.

Section HandlerProperties.

Variable env : Env.
Variable req : Request.

Lemma getProviderTokenFromEnv_effect_free (p : Provider) :
  effect_free (getProviderTokenFromEnv env p).
Proof. unfold getProviderTokenFromEnv. effect_free_auto. Qed.

Lemma resolveRequested_effect_free : effect_free (resolveRequested env req).
Proof. unfold resolveRequested. effect_free_auto. Qed.

Lemma validateModel_effect_free (r : Requested) : effect_free (validateModel env req r).
Proof. unfold validateModel. effect_free_auto. Qed.

Lemma authenticate_effect_free : effect_free (authenticate env req).
Proof. unfold authenticate. effect_free_auto. Qed.

Lemma loadProject_effect_free (r : Requested) (apiKey : ApiKey) :
  effect_free (loadProject env r apiKey).
Proof. unfold loadProject. effect_free_auto. Qed.

Lemma routeModel_effect_free (r : Requested) (m : ModelDefinition) (p : Project) :
  effect_free (routeModel env r m p).
Proof. unfold routeModel. effect_free_auto. Qed.

Lemma requireProvider_effect_free (routed : option Provider * string) :
  effect_free (requireProvider routed).
Proof. unfold requireProvider. effect_free_auto. Qed.

Lemma credits_token_effect_free (p : Project) (u : Provider) (why : string) :
  effect_free (credits_token env p u why).
Proof.
  unfold credits_token. effect_free_auto.
  apply getProviderTokenFromEnv_effect_free.
Qed.

Lemma resolveCredential_effect_free (p : Project) (u : Provider) (n : option string) :
  effect_free (resolveCredential env p u n).
Proof.
  unfold resolveCredential. effect_free_auto; apply credits_token_effect_free.
Qed.

Lemma resolveUrl_effect_free (u : Provider) (m : string) (k : option ProviderKey)
    (t : string) :
  effect_free (resolveUrl env u m k t).
Proof. unfold resolveUrl. effect_free_auto. Qed.

Lemma checkLimits_effect_free (u : Provider) (m : string) :
  effect_free (checkLimits env req u m).
Proof. unfold checkLimits. effect_free_auto. Qed.

Lemma prepare_effect_free : effect_free (prepare env req).
Proof.
  unfold prepare. cbv zeta.
  apply effect_free_bind; [apply resolveRequested_effect_free | intro r].
  apply effect_free_bind; [apply validateModel_effect_free | intro modelInfo].
  apply effect_free_bind; [apply authenticate_effect_free | intro apiKey].
  apply effect_free_bind; [apply loadProject_effect_free | intro project].
  apply effect_free_bind; [apply routeModel_effect_free | intro routed].
  apply effect_free_bind; [apply requireProvider_effect_free | intro used].
  apply effect_free_bind; [apply resolveCredential_effect_free | intro credential].
  apply effect_free_bind; [apply resolveUrl_effect_free | intro url].
  apply effect_free_ret.
Qed.

(** The handler is [prepare] followed by [serve]. *)
Lemma handler_run :
  run (handler env req)
  = match fst (run (prepare env req)) with
    | inl x => (inl x, no_effects)
    | inr c => run (serve env req c)
    end.
Proof.
  unfold run, handler, bind.
  pose proof (prepare_effect_free no_effects) as P.
  destruct (prepare env req no_effects) as [[x | c] e]; simpl in *; subst e;
    reflexivity.
Qed.

(** What [fetch] leaves behind: the request, and nothing else. *)
Lemma fetch_run (c : Context) (e : Effects) :
  exists fetched,
    fetch env req c e
    = (inr fetched,
       {| logs := logs e;
          fetches :=
            fetches e
            ++ [{| f_url := c_url c; f_provider := c_usedProvider c;
                   f_token := c_usedToken c; f_model := c_usedModel c;
                   f_stream := b_stream req;
                   f_cancellable := requestCanBeCanceled env (c_usedProvider c) |}];
          events := events e; cacheSets := cacheSets e |})
    /\ (b_stream req = true -> streamed_without_body env req = true ->
        fetched = AbortError
        \/ exists res, fetched = Response res /\ r_ok res = true /\ r_body res = None)
    /\ (streamed_without_body env req = false -> b_stream req = true ->
        forall res, fetched = Response res -> r_ok res = true -> r_body res <> None).
Proof.
  unfold fetch, bind, sendFetch, streamed_without_body.
  destruct (clientAbort env);
    try destruct (requestCanBeCanceled env (c_usedProvider c));
    destruct (upstream env) as [res | message];
    eexists; (split; [reflexivity |]); split;
    try (intros S H; rewrite S in H; simpl in H);
    try (intros H S; rewrite S in H; simpl in H);
    try discriminate; auto.
  all: try (right; exists res; destruct (r_ok res), (r_body res); simpl in H;
            try discriminate; auto).
  all: try (intros res0 E Hok; inversion E; subst res0; rewrite Hok in H;
            destruct (r_body res); simpl in H; [discriminate | discriminate H]).
  all: try (intros res0 E; discriminate E).
Qed.

Ltac name_outcome out E :=
  intro out;
  match goal with
  | out := ?t |- _ => assert (E : out = t) by reflexivity; clearbody out
  end.

Ltac row_base :=
  first
    [ reflexivity
    | unfold streamLogRow;
      match goal with
      | |- context [calculatedTokens ?e ?r ?st] =>
          destruct (calculatedTokens e r st) as [[? ?] ?]
      end;
      reflexivity ].

Ltac close_well_logged E :=
  cbn [fst snd logs fetches app List.length no_effects] in E; subst;
  unfold well_logged; cbn [fst snd logs fetches app List.length no_effects];
  split; [first [discriminate | reflexivity] |];
  split; [first [discriminate | eauto] |];
  split; [lia |];
  split;
  [ intros row Hin; cbn [In] in Hin;
    first [contradiction | destruct Hin as [<- | []]; row_base]
  | intros f Hin; cbn [In] in Hin;
    first [contradiction | destruct Hin as [<- | []]; repeat split] ].

Lemma streamingDispatch_well_logged (c : Context) :
  b_stream req = true ->
  well_logged env req c (streamingDispatch env req c no_effects).
Proof.
  intro S. generalize (eq_refl (streamingDispatch env req c no_effects)).
  generalize (streamingDispatch env req c no_effects) at 1 3. intros out E.
  unfold streamingDispatch in E. unfold bind at 1 in E.
  destruct (fetch_run c no_effects) as (fetched & F & _ & B).
  rewrite F in E. clear F.
  destruct fetched as [| message | res].
  - unfold bind, writeSSE, insertLog, ret in E. close_well_logged E.
  - unfold throw in E. close_well_logged E.
  - destruct (r_ok res) eqn:Hok.
    + destruct (r_body res) as [body |] eqn:Hbody.
      * cbn [negb] in E. cbv beta iota in E.
        destruct (readLoop env req (c_usedProvider c) (c_usedModel c) body)
          as [st wasCanceled].
        unfold bind, writeSSE, insertLog, ret in E. close_well_logged E.
      * cbn [negb] in E. cbv beta iota in E.
        unfold bind, writeSSE, insertLog, ret in E.
        cbn [fst snd logs fetches app List.length no_effects] in E. subst out.
        unfold well_logged. cbn [fst snd logs fetches app List.length no_effects].
        split; [discriminate |]. split.
        { intros reply _ H. exfalso. exact (B H S res eq_refl Hok Hbody). }
        split; [lia |]. split; [intros row []|].
        intros f [<- | []]. repeat split.
    + cbn [negb] in E. cbv beta iota in E.
      unfold bind, writeSSE, insertLog, ret in E. close_well_logged E.
Qed.

Lemma unaryDispatch_well_logged (c : Context) (cachingEnabled : bool)
    (cacheKey : option string) (cacheDuration : Z) :
  well_logged env req c
    (unaryDispatch env req c cachingEnabled cacheKey cacheDuration no_effects)
  /\ (forall reply,
        fst (unaryDispatch env req c cachingEnabled cacheKey cacheDuration no_effects)
        = inr reply ->
        exists row,
          logs (snd (unaryDispatch env req c cachingEnabled cacheKey cacheDuration
                       no_effects)) = [row]).
Proof.
  generalize (eq_refl (unaryDispatch env req c cachingEnabled cacheKey cacheDuration
                         no_effects)).
  generalize (unaryDispatch env req c cachingEnabled cacheKey cacheDuration
                no_effects) at 1 3 4 5.
  intros out E.
  unfold unaryDispatch in E. unfold bind at 1 in E.
  destruct (fetch_run c no_effects) as (fetched & F & _).
  rewrite F in E. clear F.
  destruct fetched as [| message | res].
  - unfold bind, insertLog, ret in E. split; [close_well_logged E |].
    cbn [fst snd logs fetches app List.length no_effects] in E; subst. cbn. eauto.
  - unfold throw in E. split; [close_well_logged E |]. subst. cbn. discriminate.
  - destruct (r_ok res).
    + cbn [negb] in E. cbv beta iota in E.
      destruct (r_json res) as [json |].
      * destruct (nullish json);
          [unfold throw in E; split; [close_well_logged E |]; subst; cbn; discriminate |].
        cbv zeta in E.
        destruct (cachingEnabled && truthy_str cacheKey && negb (b_stream req))%bool;
          [destruct cacheKey |];
          unfold bind, insertLog, setCache, ret in E;
          (split; [close_well_logged E |]);
          cbn [fst snd logs fetches app List.length no_effects] in E; subst; cbn;
          eauto.
      * unfold throw in E. split; [close_well_logged E |]. subst. cbn. discriminate.
    + cbn [negb] in E. cbv beta iota in E.
      unfold bind, insertLog, ret in E. split; [close_well_logged E |].
      cbn [fst snd logs fetches app List.length no_effects] in E; subst. cbn. eauto.
Qed.

Lemma serve_well_logged (c : Context) :
  well_logged env req c (run (serve env req c)).
Proof.
  generalize (eq_refl (run (serve env req c))).
  generalize (run (serve env req c)) at 1 3. intros out E.
  unfold run, serve in E.
  destruct (cachedResponseOf env (cacheKeyOf env req (c_project c) (c_usedModel c)))
    as [cachedResponse |].
  - unfold bind, insertLog, ret in E. close_well_logged E.
  - unfold bind at 1 in E.
    pose proof (checkLimits_effect_free (c_usedProvider c) (c_usedModel c) no_effects)
      as L.
    destruct (checkLimits env req (c_usedProvider c) (c_usedModel c) no_effects)
      as [[x | []] e]; simpl in L; subst e.
    + close_well_logged E.
    + destruct (b_stream req) eqn:S; subst out.
      * apply streamingDispatch_well_logged. exact S.
      * destruct (unaryDispatch_well_logged c
                    (fst (isCachingEnabled env (pr_id (c_project c))))
                    (cacheKeyOf env req (c_project c) (c_usedModel c))
                    (snd (isCachingEnabled env (pr_id (c_project c))))) as [U _].
        exact U.
Qed.

End HandlerProperties.

(** ** C1: log rows per request *)




(** ** C4: the end of an event stream *)

(** The paths of a streamed request that do not read a body end the
    event stream with [done]: an upstream error and a response without
    a body write [error] and [done], a fetch that the client aborts
    writes [canceled] and [done]. *)
Lemma streamed_failures_end_with_done (env : Env) (req : Request) (c : Context) :
  let names := event_names (snd (streamingDispatch env req c no_effects)) in
  (forall res,
      clientAbort env = NoAbort -> upstream env = Resolves res ->
      r_ok res = false \/ r_body res = None ->
      names = [Some "error"; Some "done"])
  /\ (clientAbort env = AbortDuringFetch ->
      requestCanBeCanceled env (c_usedProvider c) = true ->
      names = [Some "canceled"; Some "done"]).
Proof.
  cbv zeta. unfold streamingDispatch, fetch, bind, sendFetch. split.
  - intros res A U H. rewrite A, U. cbn [ret].
    destruct (r_ok res); [| reflexivity].
    destruct H as [H | H]; [discriminate H |]. rewrite H. reflexivity.
  - intros A C. rewrite A, C. reflexivity.
Qed.

(** An OpenAI stream, which ends with the line [data: [DONE]], is
    answered with the two chunks, the usage chunk and the [done] event;
    so is a Google stream at its finish reason. *)
Example openai_stream_ends_with_done :
  event_names
    (snd (run (handler
                 (Demo.deployment "credits" None ["openai"] [] false (fun _ => None)
                    (Demo.ok_stream Demo.openai_events) NoAbort)
                 (Demo.chat (Some "Bearer sk-demo") "gpt-4o-mini" true))))
  = [None; None; None; Some "done"].
Proof. vm_compute. reflexivity. Qed.

Example google_stream_ends_with_done :
  event_names
    (snd (run (handler
                 (Demo.deployment "credits" None ["google-ai-studio"] [] false
                    (fun _ => None) (Demo.ok_stream Demo.google_events) NoAbort)
                 (Demo.chat (Some "Bearer sk-demo") "gemini-2.5-flash" true))))
  = [None; Some "done"].
Proof. vm_compute. reflexivity. Qed.

(** A stream that the client cancels after the first chunk, on a
    provider that supports cancellation: the two chunks read so far, the
    usage chunk and the [done] event are written, without a [canceled]
    event, and the row is logged as canceled. *)
Example canceled_stream :
  let out :=
    run (handler
           (Demo.deployment "hybrid" None ["openai"] [Demo.stored_anthropic_key]
              false (fun _ => None) (Demo.ok_stream Demo.anthropic_events)
              (AbortAfterChunks 1))
           (Demo.chat (Some "Bearer sk-demo") "anthropic/claude-3-5-sonnet" true)) in
  event_names (snd out) = [None; None; None; Some "done"]
  /\ map canceled (logs (snd out)) = [true].
Proof. vm_compute. repeat split. Qed.

(** C4: the code does not do what the claim says.  For an Anthropic
    event stream, which has no [data: [DONE]] line and reports its
    output tokens, the handler writes the four transformed chunks and no
    [done] event: the last event of the response is a data chunk. *)
Theorem anthropic_stream_ends_without_done :
  let out :=
    run (handler
           (Demo.deployment "hybrid" None ["openai"] [Demo.stored_anthropic_key]
              false (fun _ => None) (Demo.ok_stream Demo.anthropic_events) NoAbort)
           (Demo.chat (Some "Bearer sk-demo") "anthropic/claude-3-5-sonnet" true)) in
  fst out = inr SSEReply
  /\ event_names (snd out) = [None; None; None; None]
  /\ last (event_names (snd out)) None <> Some "done".
Proof. vm_compute. repeat split; discriminate. Qed.

(** ** Inverting the stages *)

Lemma bind_inr {A B : Type} (m : M A) (k : A -> M B) (e e' : Effects) (b : B) :
  bind m k e = (inr b, e') ->
  exists a e1, m e = (inr a, e1) /\ k a e1 = (inr b, e').
Proof.
  unfold bind. destruct (m e) as [[x | a] e1]; intro H.
  - discriminate H.
  - exists a, e1. split; [reflexivity | exact H].
Qed.

Lemma effect_free_run {A : Type} (m : M A) (e e' : Effects) (r : Exn + A) :
  effect_free m -> m e = (r, e') -> e' = e.
Proof. intros F H. specialize (F e). rewrite H in F. exact F. Qed.

(** What a successful [prepare] went through. *)
Lemma prepare_inr (env : Env) (req : Request) (c : Context) :
  fst (run (prepare env req)) = inr c ->
  exists r modelInfo routed,
    resolveRequested env req no_effects = (inr r, no_effects)
    /\ validateModel env req r no_effects = (inr modelInfo, no_effects)
    /\ authenticate env req no_effects = (inr (c_apiKey c), no_effects)
    /\ loadProject env r (c_apiKey c) no_effects = (inr (c_project c), no_effects)
    /\ routeModel env r modelInfo (c_project c) no_effects = (inr routed, no_effects)
    /\ requireProvider routed no_effects
       = (inr (c_usedProvider c, c_usedModel c), no_effects)
    /\ resolveCredential env (c_project c) (c_usedProvider c)
         (rq_customProviderName r) no_effects
       = (inr (c_providerKey c, c_usedToken c), no_effects)
    /\ c_requestedModel c = rq_model r
    /\ c_requestedProvider c = rq_provider r.
Proof.
  unfold run. intro H.
  destruct (prepare env req no_effects) as [res e0] eqn:P. simpl in H. subst res.
  unfold prepare in P. cbv zeta in P.
  apply bind_inr in P. destruct P as (r & e1 & P1 & P).
  pose proof (effect_free_run _ _ _ _ (resolveRequested_effect_free env req) P1).
  subst e1.
  apply bind_inr in P. destruct P as (modelInfo & e2 & P2 & P).
  pose proof (effect_free_run _ _ _ _ (validateModel_effect_free env req r) P2).
  subst e2.
  apply bind_inr in P. destruct P as (apiKey & e3 & P3 & P).
  pose proof (effect_free_run _ _ _ _ (authenticate_effect_free env req) P3).
  subst e3.
  apply bind_inr in P. destruct P as (project & e4 & P4 & P).
  pose proof (effect_free_run _ _ _ _ (loadProject_effect_free env r apiKey) P4).
  subst e4.
  apply bind_inr in P. destruct P as (routed & e5 & P5 & P).
  pose proof (effect_free_run _ _ _ _
                (routeModel_effect_free env r modelInfo project) P5).
  subst e5.
  apply bind_inr in P. destruct P as (used & e6 & P6 & P).
  pose proof (effect_free_run _ _ _ _ (requireProvider_effect_free routed) P6).
  subst e6.
  apply bind_inr in P. destruct P as (credential & e7 & P7 & P).
  pose proof (effect_free_run _ _ _ _
                (resolveCredential_effect_free env project (fst used)
                   (rq_customProviderName r)) P7).
  subst e7.
  apply bind_inr in P. destruct P as (url & e8 & P8 & P).
  unfold ret in P. inversion P; subst. cbn.
  exists r, modelInfo, routed.
  destruct used, credential. cbn in *.
  repeat (split; [assumption |]). split; reflexivity.
Qed.

(** The credential [resolveCredential] returns: the token of the stored
    key when it returns one. *)
Lemma resolveCredential_inr (env : Env) (project : Project) (usedProvider : Provider)
    (customProviderName : option string) (key : option ProviderKey) (token : string)
    (e e' : Effects) :
  resolveCredential env project usedProvider customProviderName e
  = (inr (key, token), e') ->
  match key with
  | Some k =>
      token = pk_token k
      /\ stored_key env project usedProvider customProviderName = Some k
      /\ pr_mode project <> "credits"
  | None => pr_mode project <> "api-keys"
  end.
Proof.
  unfold resolveCredential. intro H.
  destruct (String.eqb (pr_mode project) "credits" && String.eqb usedProvider "custom")%bool;
    [discriminate H |].
  apply bind_inr in H. destruct H as (chosen & e1 & H1 & H2).
  destruct (negb (truthy_str (Some (snd chosen)))); [discriminate H2 |].
  unfold ret in H2. inversion H2; subst. clear H2.
  destruct (String.eqb (pr_mode project) "api-keys") eqn:M1.
  - destruct (stored_key env project usedProvider customProviderName) as [k |] eqn:SK;
      [| discriminate H1].
    unfold ret in H1. inversion H1; subst. cbn. repeat split.
    apply String.eqb_eq in M1. rewrite M1. discriminate.
  - apply String.eqb_neq in M1.
    destruct (String.eqb (pr_mode project) "credits") eqn:M2.
    + apply bind_inr in H1. destruct H1 as (t & e2 & _ & H1).
      unfold ret in H1. inversion H1; subst. exact M1.
    + apply String.eqb_neq in M2.
      destruct (String.eqb (pr_mode project) "hybrid"); [| discriminate H1].
      destruct (stored_key env project usedProvider customProviderName) as [k |] eqn:SK.
      * unfold ret in H1. inversion H1; subst. cbn. repeat split. exact M2.
      * apply bind_inr in H1. destruct H1 as (t & e2 & _ & H1).
        unfold ret in H1. inversion H1; subst. exact M1.
Qed.

(** ** C6: a cache hit *)

(** C6.  A non-streaming request that reaches the cache step on a
    project with caching enabled, and whose cache key holds a response,
    is answered with that response: the handler writes one log row with
    [cached = true], zero duration and zero costs, and sends nothing
    upstream. *)
Theorem cache_hit_is_answered_from_the_cache :
  forall (env : Env) (req : Request) (c : Context) (cachedResponse : Json),
    fst (run (prepare env req)) = inr c ->
    b_stream req = false ->
    fst (isCachingEnabled env (pr_id (c_project c))) = true ->
    cacheKeyFor env req c <> EmptyString ->
    getCache env (cacheKeyFor env req c) = Some cachedResponse ->
    truthy cachedResponse = true ->
    let out := run (handler env req) in
    fst out = inr (JsonReply 200 cachedResponse)
    /\ fetches (snd out) = []
    /\ exists row,
         logs (snd out) = [row]
         /\ cached row = true
         /\ duration row = 0
         /\ cost row = Some 0%Q
         /\ l_inputCost row = Some 0%Q
         /\ l_outputCost row = Some 0%Q
         /\ l_cachedInputCost row = Some 0%Q
         /\ l_requestCost row = Some 0%Q.
Proof.
  intros env req c cachedResponse P S En Hkey Hcache Htruthy. cbv zeta.
  rewrite handler_run, P.
  unfold run, serve, cacheKeyOf. rewrite En, S. cbn [andb negb].
  fold (cacheKeyFor env req c).
  unfold cachedResponseOf, str_or_null.
  rewrite (truthy_str_nonempty _ Hkey), Hcache, Htruthy.
  cbn. split; [reflexivity |]. split; [reflexivity |].
  eexists. split; [reflexivity |]. cbn. repeat split.
Qed.

Lemma cache_hit_is_answered_from_the_cache_witness :
  let env :=
    Demo.deployment "credits" None ["openai"] [] true
      (fun key => if String.eqb key "key-of-gpt-4o-mini"
                  then Some Demo.openai_completion else None)
      (Demo.ok_json Demo.openai_completion) NoAbort in
  let out := run (handler env (Demo.chat (Some "Bearer sk-demo") "gpt-4o-mini" false)) in
  fst out = inr (JsonReply 200 Demo.openai_completion) /\ fetches (snd out) = [].
Proof.
  intros env out.
  assert (P : exists c,
             fst (run (prepare env (Demo.chat (Some "Bearer sk-demo") "gpt-4o-mini" false)))
             = inr c).
  { eexists. vm_compute. reflexivity. }
  destruct P as [c P].
  assert (Hc : c_usedModel c = "gpt-4o-mini" /\ pr_id (c_project c) = "proj_1").
  { vm_compute in P. inversion P. split; reflexivity. }
  destruct Hc as [Hm Hp].
  destruct (cache_hit_is_answered_from_the_cache env
              (Demo.chat (Some "Bearer sk-demo") "gpt-4o-mini" false) c
              Demo.openai_completion P) as (H1 & H2 & _).
  - reflexivity.
  - reflexivity.
  - unfold cacheKeyFor. rewrite Hm. vm_compute. discriminate.
  - unfold cacheKeyFor. rewrite Hm. vm_compute. reflexivity.
  - reflexivity.
  - split; assumption.
Defined.

(** ** C7: authentication *)






(** ** C10: the credential path in the log *)

(** C10.  Every log row has [usedMode = "api-keys"] exactly when a
    stored provider key supplied the token sent upstream, and
    ["credits"] otherwise; the project's configured mode is recorded
    apart, in [mode].  Stored keys are taken to have non-empty ids. *)
Theorem usedMode_records_the_credential_path :
  forall (env : Env) (req : Request),
    (forall org p k, getProviderKey env org p = Some k -> pk_id k <> EmptyString) ->
    (forall org n k, getCustomProviderKey env org n = Some k -> pk_id k <> EmptyString) ->
    forall row, In row (logs (snd (run (handler env req)))) ->
      exists c,
        fst (run (prepare env req)) = inr c
        /\ mode (base row) = pr_mode (c_project c)
        /\ (usedMode (base row) = "api-keys"
            <-> exists k, c_providerKey c = Some k /\ c_usedToken c = pk_token k)
        /\ (usedMode (base row) = "credits" <-> c_providerKey c = None)
        /\ (forall f, In f (fetches (snd (run (handler env req)))) ->
            f_token f = c_usedToken c).
Proof.
  intros env req Hk Hc row Hin. rewrite handler_run in *.
  destruct (fst (run (prepare env req))) as [x | c] eqn:P; [destruct Hin |].
  exists c. split; [reflexivity |].
  destruct (serve_well_logged env req c) as (_ & _ & _ & B & F).
  rewrite (B row Hin). cbn [base baseLogEntry createLogEntry mode usedMode].
  split; [reflexivity |].
  destruct (prepare_inr env req c P)
    as (r & modelInfo & routed & _ & _ & _ & _ & _ & _ & RC & _).
  apply resolveCredential_inr in RC.
  destruct (c_providerKey c) as [k |].
  - destruct RC as (T & SK & _).
    assert (N : pk_id k <> EmptyString).
    { unfold stored_key in SK.
      destruct (str_or_null (rq_customProviderName r)) as [name |];
        [destruct (String.eqb (c_usedProvider c) "custom") |]; eauto. }
    cbn [option_map]. rewrite (truthy_str_nonempty _ N).
    split; [| split].
    + split; [intros _; exists k; split; [reflexivity | exact T] | reflexivity].
    + split; discriminate.
    + intros f Hf. apply (F f Hf).
  - cbn [option_map truthy_str].
    split; [| split].
    + split; [discriminate | intros (k & K & _); discriminate K].
    + split; reflexivity.
    + intros f Hf. apply (F f Hf).
Qed.

Lemma usedMode_records_the_credential_path_witness :
  let env :=
    Demo.deployment "hybrid" None ["openai"] [Demo.stored_anthropic_key] false
      (fun _ => None) (Demo.ok_stream Demo.anthropic_events) NoAbort in
  let req := Demo.chat (Some "Bearer sk-demo") "anthropic/claude-3-5-sonnet" true in
  exists row c,
    logs (snd (run (handler env req))) = [row]
    /\ fst (run (prepare env req)) = inr c
    /\ mode (base row) = pr_mode (c_project c)
    /\ (usedMode (base row) = "api-keys"
        <-> exists k, c_providerKey c = Some k /\ c_usedToken c = pk_token k).
Proof.
  intros env req.
  assert (R : exists row, logs (snd (run (handler env req))) = [row])
    by (eexists; vm_compute; reflexivity).
  destruct R as [row R].
  assert (Hin : In row (logs (snd (run (handler env req)))))
    by (rewrite R; left; reflexivity).
  destruct (usedMode_records_the_credential_path env req) with (row := row)
    as (c & P & M & U & _).
  - intros org p k. unfold env. cbn [getProviderKey Demo.deployment find].
    destruct (String.eqb (pk_organizationId Demo.stored_anthropic_key) org
              && String.eqb (pk_provider Demo.stored_anthropic_key) p)%bool;
      intro H; inversion H; discriminate.
  - intros org n k H. discriminate H.
  - exact Hin.
  - exists row, c. repeat split; try assumption; apply U.
Defined.

(** On a project in hybrid mode the same deployment logs ["api-keys"]
    for the provider with a stored key and ["credits"] for the provider
    it reaches with the environment token; [mode] is ["hybrid"] in
    both rows. *)
Example hybrid_project_logs_both_paths :
  let env :=
    Demo.deployment "hybrid" None ["openai"] [Demo.stored_anthropic_key] false
      (fun _ => None) (Demo.ok_json Demo.openai_completion) NoAbort in
  let modes (model : string) :=
    map (fun row => (usedMode (base row), mode (base row)))
      (logs (snd (run (handler env (Demo.chat (Some "Bearer sk-demo") model false))))) in
  modes "claude-3-5-sonnet" = [("api-keys", "hybrid")]
  /\ modes "gpt-4o-mini" = [("credits", "hybrid")].
Proof. vm_compute. repeat split. Qed.

(** ** C2: [auto] without an available provider *)

Lemma autoSelect_none (env : Env) (available : list Provider)
    (catalog : list ModelDefinition) :
  (forall m, In m catalog -> past env (deprecatedAt m) = false ->
     forall p, In p (Catalog.providers m) -> includes available (providerId p) = false) ->
  autoSelect env available catalog = None.
Proof.
  induction catalog as [| m rest IH]; intro H; [reflexivity |].
  cbn [autoSelect].
  assert (IHr : autoSelect env available rest = None).
  { apply IH. intros m' Hm'. apply H. right. exact Hm'. }
  destruct (String.eqb (id m) "auto" || String.eqb (id m) "custom")%bool;
    [exact IHr |].
  destruct (past env (deprecatedAt m)) eqn:D; [exact IHr |].
  assert (E : filter (fun p => includes available (providerId p)) (Catalog.providers m)
              = []).
  { specialize (H m (or_introl eq_refl) D).
    induction (Catalog.providers m) as [| p ps IHp]; [reflexivity |].
    cbn [filter]. rewrite (H p (or_introl eq_refl)).
    apply IHp. intros q Hq. apply H. right. exact Hq. }
  rewrite E. exact IHr.
Qed.

(** C2, as stated, fails: with gpt-4o-mini deprecated and only the
    OpenAI token in the environment, no model that is not deprecated has
    an available provider, and a request for [auto] is routed to
    (openai, gpt-4o-mini), sent upstream and answered with 200. *)
Lemma auto_is_routed_to_gpt_4o_mini_without_an_error :
  let env :=
    Demo.deployment "credits" (Some 1600000000000) ["openai"] [] false
      (fun _ => None) (Demo.ok_json Demo.openai_completion) NoAbort in
  let out := run (handler env (Demo.chat (Some "Bearer sk-demo") "auto" false)) in
  forallb
    (fun m =>
       past env (deprecatedAt m)
       || negb (existsb (fun p => includes ["openai"] (providerId p))
                  (Catalog.providers m)))%bool
    (models env) = true
  /\ statusOf (fst out) = 200
  /\ map (fun f => (f_provider f, f_model f)) (fetches (snd out))
     = [("openai", "gpt-4o-mini")].
Proof. vm_compute. repeat split. Qed.

(** C2 (amended).  When the requested model is [auto] and no catalog
    model that is not deprecated has an available provider, the router
    does not fail: it returns the route (openai, gpt-4o-mini). *)
Theorem auto_without_available_provider_falls_back :
  forall (env : Env) (req : Request) (modelInfo : ModelDefinition) (project : Project),
    b_model req = "auto" ->
    (forall m, In m (models env) -> past env (deprecatedAt m) = false ->
       forall p, In p (Catalog.providers m) ->
         includes (availableProviders env project) (providerId p) = false) ->
    exists r,
      resolveRequested env req = ret r
      /\ routeModel env r modelInfo project = ret (Some "openai", "gpt-4o-mini").
Proof.
  intros env req modelInfo project Hauto Hnone.
  exists {| rq_model := "auto"; rq_provider := Some "llmgateway";
            rq_customProviderName := None |}.
  split.
  - unfold resolveRequested. rewrite Hauto. reflexivity.
  - unfold routeModel. cbn [rq_model rq_provider String.eqb Ascii.eqb Bool.eqb].
    rewrite (autoSelect_none env _ _ Hnone). reflexivity.
Qed.

Lemma auto_without_available_provider_falls_back_witness :
  let env :=
    Demo.deployment "api-keys" None [] [] false (fun _ => None)
      (Demo.ok_json Demo.openai_completion) NoAbort in
  exists r,
    resolveRequested env (Demo.chat (Some "Bearer sk-demo") "auto" false) = ret r
    /\ routeModel env r (Demo.model "auto" [Demo.mapping "llmgateway" "auto"] None)
         {| pr_id := "proj_1"; pr_organizationId := "org_1"; pr_mode := "api-keys" |}
       = ret (Some "openai", "gpt-4o-mini").
Proof.
  intro env.
  apply (auto_without_available_provider_falls_back env).
  - reflexivity.
  - intros m Hm _ p Hp. reflexivity.
Defined.

(* ================================================================== *)
(** * Properties: the auto top-up pass                                  *)
(* ================================================================== *)

Section AutoTopUpProperties.

Import AutoTopUp.

Lemma ids_below_fresh (l : list Transaction) (t : Transaction) :
  In t l -> (t_id t < fresh_id l)%nat.
Proof.
  unfold fresh_id. induction l as [| a l IH]; intro H; [destruct H |].
  cbn [map fold_right]. destruct H as [<- | H]; [lia |].
  specialize (IH H). lia.
Qed.

Lemma update_old (tid : nat) (f : Transaction -> Transaction) (l : list Transaction) :
  (forall t, In t l -> t_id t <> tid) -> update_transaction tid f l = l.
Proof.
  unfold update_transaction. induction l as [| a l IH]; intro H; [reflexivity |].
  cbn [map]. rewrite IH by (intros t Ht; apply H; right; exact Ht).
  destruct (Nat.eqb (t_id a) tid) eqn:E; [| reflexivity].
  apply Nat.eqb_eq in E. exfalso. exact (H a (or_introl eq_refl) E).
Qed.

Lemma update_fresh (f : Transaction -> Transaction) (l : list Transaction)
    (p : Transaction) :
  t_id p = fresh_id l ->
  update_transaction (fresh_id l) f (l ++ [p]) = l ++ [f p].
Proof.
  intro H. unfold update_transaction. rewrite map_app.
  fold (update_transaction (fresh_id l) f l).
  rewrite update_old.
  - cbn [map]. rewrite H, Nat.eqb_refl. reflexivity.
  - intros t Ht E. pose proof (ids_below_fresh l t Ht). lia.
Qed.

Lemma filter_app_other (organizationId : string) (l : list Transaction)
    (p : Transaction) :
  t_organizationId p <> organizationId ->
  filter (fun t => String.eqb (t_organizationId t) organizationId) (l ++ [p])
  = filter (fun t => String.eqb (t_organizationId t) organizationId) l.
Proof.
  intro H. rewrite filter_app. cbn [filter].
  rewrite (proj2 (String.eqb_neq _ _) H). apply app_nil_r.
Qed.

(** The pass for one organization leaves the transactions of every
    other organization as they are. *)
Lemma topUpOrganization_others (now : Z) (pay : Payments) (db : DB)
    (org : Organization) (organizationId : string) :
  org_id org <> organizationId ->
  transactions_of organizationId (topUpOrganization now pay db org)
  = transactions_of organizationId db.
Proof.
  intro H. unfold topUpOrganization, transactions_of.
  destruct (skipsFor now (recentTransaction (org_id org) db)); [reflexivity |].
  destruct (find _ (paymentMethods db)) as [defaultPaymentMethod |]; [| reflexivity].
  destruct (paymentMethods_retrieve pay _) as [cardCountry |]; [| reflexivity].
  cbv zeta. cbn [t_id].
  destruct (paymentIntents_create pay (org_id org) _) as [message | intent status].
  - cbn [transactions with_transactions].
    rewrite update_fresh by reflexivity. apply filter_app_other. exact H.
  - rewrite update_fresh by reflexivity.
    destruct (String.eqb status "succeeded" || String.eqb status "requires_action")%bool;
      cbn [transactions with_transactions].
    + apply filter_app_other. exact H.
    + rewrite update_fresh by reflexivity. apply filter_app_other. exact H.
Qed.

Lemma recentTransaction_of (organizationId : string) (db db' : DB) :
  transactions_of organizationId db' = transactions_of organizationId db ->
  recentTransaction organizationId db' = recentTransaction organizationId db.
Proof.
  unfold transactions_of, recentTransaction. intro H.
  assert (F : forall l,
             filter (is_topup_of organizationId) l
             = filter (fun t => String.eqb (t_type t) "credit_topup")
                 (filter (fun t => String.eqb (t_organizationId t) organizationId) l)).
  { induction l as [| a l IH]; [reflexivity |].
    unfold is_topup_of at 1. cbn [filter].
    destruct (String.eqb (t_organizationId a) organizationId); cbn [andb filter].
    - destruct (String.eqb (t_type a) "credit_topup"); [f_equal |]; exact IH.
    - exact IH. }
  rewrite (F (transactions db')), (F (transactions db)), H. reflexivity.
Qed.

Lemma fold_topUp_blocked (now : Z) (pay : Payments) (organizationId : string)
    (orgs : list Organization) (db0 db : DB) :
  skipsFor now (recentTransaction organizationId db0) = true ->
  transactions_of organizationId db = transactions_of organizationId db0 ->
  transactions_of organizationId (fold_left (topUpOrganization now pay) orgs db)
  = transactions_of organizationId db0.
Proof.
  intro B. revert db. induction orgs as [| org orgs IH]; intros db H; [exact H |].
  cbn [fold_left]. apply IH.
  destruct (String.eqb (org_id org) organizationId) eqn:E.
  - apply String.eqb_eq in E. subst organizationId.
    unfold topUpOrganization.
    rewrite (recentTransaction_of (org_id org) db0 db H), B. exact H.
  - apply String.eqb_neq in E.
    rewrite (topUpOrganization_others now pay db org organizationId E). exact H.
Qed.

(** C5, as stated, fails: a top-up that succeeded ten minutes ago does
    not block the pass; it inserts a second, pending transaction for the
    same organization, so that two transactions that are pending or
    succeeded lie within an hour. *)
Lemma succeeded_topup_does_not_block :
  let after := processAutoTopUp demo_now demo_payments demo_billing in
  two_topups_within_an_hour demo_billing = false
  /\ two_topups_within_an_hour after = true
  /\ map (fun t => (t_status t, demo_now - t_createdAt t)) (transactions after)
     = [("succeeded", 600000); ("pending", 0)].
Proof. vm_compute. repeat split. Qed.

(** C5 (amended).  The pass skips an organization whose most recent
    [credit_topup] transaction is less than one hour old and pending or
    failed: it adds no transaction for it and changes none of its
    transactions.  (A recent succeeded transaction does not block.) *)
Theorem recent_pending_or_failed_topup_blocks :
  forall (now : Z) (pay : Payments) (db : DB) (organizationId : string)
         (t : Transaction),
    recentTransaction organizationId db = Some t ->
    now - 60 * 60 * 1000 < t_createdAt t ->
    t_status t = "pending" \/ t_status t = "failed" ->
    transactions_of organizationId (processAutoTopUp now pay db)
    = transactions_of organizationId db.
Proof.
  intros now pay db organizationId t R Recent Status.
  assert (B : skipsFor now (recentTransaction organizationId db) = true).
  { rewrite R. unfold skipsFor.
    rewrite (proj2 (Z.ltb_lt _ _) Recent).
    destruct Status as [S | S]; rewrite S; reflexivity. }
  unfold processAutoTopUp, acquireLock.
  destruct (existsb _ _); cbn [negb]; [reflexivity |].
  unfold releaseLock, transactions_of at 1. cbn [transactions with_locks].
  apply (fold_topUp_blocked now pay organizationId _ db); [exact B | reflexivity].
Qed.

Lemma recent_pending_or_failed_topup_blocks_witness :
  transactions_of "org_1" (processAutoTopUp demo_now demo_payments demo_billing_pending)
  = transactions_of "org_1" demo_billing_pending.
Proof.
  eapply (recent_pending_or_failed_topup_blocks demo_now demo_payments
            demo_billing_pending "org_1").
  - vm_compute. reflexivity.
  - vm_compute. reflexivity.
  - left. reflexivity.
Defined.

End AutoTopUpProperties.

(* ================================================================== *)
(** * Properties: the log queue worker                                  *)
(* ================================================================== *)

Section WorkerProperties.

Import Worker.

Lemma recover_queues (recoveryThrows : bool) (s : State) :
  queues (fst (recover recoveryThrows s))
  = (if recoveryThrows then queues s else recoverProcessingQueue (queues s))
  /\ snd (recover recoveryThrows s)
     = (if recoveryThrows then LeftInProcessing else Recovered).
Proof. destruct recoveryThrows; split; reflexivity. Qed.



End WorkerProperties.

(* ================================================================== *)
(** * Further properties of the code                                    *)
(* ================================================================== *)

(** ** Strings *)

Lemma append_nil_r (s : string) : (s ++ EmptyString)%string = s.
Proof. induction s as [| c r IH]; [reflexivity |]. cbn. rewrite IH. reflexivity. Qed.

Lemma append_assoc (a b c : string) : ((a ++ b) ++ c)%string = (a ++ (b ++ c))%string.
Proof. induction a as [| x a IH]; [reflexivity |]. cbn. rewrite IH. reflexivity. Qed.

Lemma length_append (a b : string) :
  String.length (a ++ b) = (String.length a + String.length b)%nat.
Proof. induction a as [| x a IH]; [reflexivity |]. cbn. rewrite IH. reflexivity. Qed.

Lemma rev_string_app (acc s : string) :
  rev_string acc s = (rev_string EmptyString s ++ acc)%string.
Proof.
  revert acc. induction s as [| c r IH]; intro acc; [reflexivity |].
  cbn [rev_string]. rewrite (IH (String c acc)), (IH (String c EmptyString)).
  rewrite append_assoc. reflexivity.
Qed.

Lemma rev_string_push (c : ascii) (cur s : string) :
  (rev_string EmptyString (String c cur) ++ s)%string
  = (rev_string EmptyString cur ++ String c s)%string.
Proof.
  cbn [rev_string]. rewrite (rev_string_app (String c EmptyString)).
  rewrite append_assoc. reflexivity.
Qed.

Lemma prefix_slash (c : ascii) (r : string) :
  String.prefix "/" (String c r) = Ascii.eqb "/"%char c.
Proof.
  cbn [String.prefix]. destruct (ascii_dec "/"%char c) as [E | N].
  - subst c. destruct r; reflexivity.
  - destruct r; symmetry; apply Ascii.eqb_neq; exact N.
Qed.

Lemma split_aux_nonempty (sep : string) (skip : nat) (cur s : string) :
  split_aux sep skip cur s <> [].
Proof.
  revert skip cur. induction s as [| c r IH]; intros skip cur; [discriminate |].
  cbn [split_aux]. destruct skip; [| apply IH].
  destruct (String.prefix sep (String c r)); [discriminate | apply IH].
Qed.

Lemma join_cons (sep p : string) (rest : list string) :
  rest <> [] -> join sep (p :: rest) = (p ++ sep ++ join sep rest)%string.
Proof. destruct rest; [congruence | reflexivity]. Qed.

(** [s.split("/").join("/")] is [s]. *)
Lemma join_split_aux_slash (cur s : string) :
  join "/" (split_aux "/" 0 cur s) = (rev_string EmptyString cur ++ s)%string.
Proof.
  revert cur. induction s as [| c r IH]; intro cur.
  - cbn [split_aux join]. rewrite append_nil_r. reflexivity.
  - cbn [split_aux]. rewrite prefix_slash.
    destruct (Ascii.eqb "/"%char c) eqn:E.
    + apply Ascii.eqb_eq in E. subst c.
      rewrite join_cons by apply split_aux_nonempty.
      change (String.length "/" - 1)%nat with 0%nat. rewrite IH. reflexivity.
    + rewrite IH. apply rev_string_push.
Qed.

Lemma join_split_slash (s : string) : join "/" (split "/" s) = s.
Proof. unfold split. rewrite join_split_aux_slash. reflexivity. Qed.

(** The first piece of [s.split("/")] is what precedes the first slash. *)
Lemma split_aux_first_slash (cur p rest : string) :
  includes_char "/" p = false ->
  split_aux "/" 0 cur (p ++ String "/" rest)
  = (rev_string EmptyString cur ++ p)%string :: split_aux "/" 0 EmptyString rest.
Proof.
  revert cur. induction p as [| c p IH]; intros cur H.
  - cbn [append split_aux]. rewrite prefix_slash, append_nil_r. reflexivity.
  - cbn [includes_char] in H. destruct (Ascii.eqb "/"%char c) eqn:E; [discriminate H |].
    cbn [append split_aux]. rewrite prefix_slash, E, (IH _ H), rev_string_push.
    reflexivity.
Qed.

Lemma includes_char_app (c : ascii) (a b : string) :
  includes_char c (a ++ b) = (includes_char c a || includes_char c b)%bool.
Proof.
  induction a as [| x a IH]; [reflexivity |].
  cbn [append includes_char]. destruct (Ascii.eqb c x); [reflexivity | exact IH].
Qed.

(** X1.  A model string [p/rest] whose [p] holds no slash is split at
    its first slash.  When [p] is not a provider of the catalog, the
    request is one for the custom provider named [p] and the model
    [rest], further slashes included.  When [p] is a provider other
    than [custom], a request that passes is for that provider and for
    the name under which a catalog model maps to it. *)
Theorem provider_prefix_is_split_at_the_first_slash :
  forall (env : Env) (req : Request) (p rest : string),
    includes_char "/" p = false ->
    b_model req = (p ++ "/" ++ rest)%string ->
    (known_provider env p = false ->
     resolveRequested env req
     = ret {| rq_model := rest; rq_provider := Some "custom";
              rq_customProviderName := Some p |})
    /\ (known_provider env p = true -> p <> "custom" ->
        forall r e e',
          resolveRequested env req e = (inr r, e') ->
          rq_provider r = Some p
          /\ rq_customProviderName r = None
          /\ exists m pm,
               In m (models env) /\ In pm (Catalog.providers m)
               /\ providerId pm = p /\ modelName pm = rq_model r).
Proof.
  intros env req p rest Hp Hm.
  assert (S : includes_char "/" (b_model req) = true).
  { rewrite Hm, includes_char_app. cbn. apply orb_true_r. }
  assert (N : forall w, includes_char "/" w = false -> String.eqb (b_model req) w = false).
  { intros w Hw. apply String.eqb_neq. intro E. rewrite E in S. congruence. }
  assert (P : split "/" (b_model req) = p :: split "/" rest).
  { rewrite Hm. unfold split. cbn [append]. rewrite split_aux_first_slash by exact Hp.
    reflexivity. }
  unfold resolveRequested. cbv zeta.
  rewrite (N "auto" eq_refl), (N "custom" eq_refl), S, P.
  cbn [orb hd tl]. rewrite join_split_slash.
  split.
  - intro K. rewrite K. reflexivity.
  - intros K C r e e'. rewrite K, (eqb_false_of_neq _ _ C).
    destruct (match find (fun m => String.eqb (id m) rest) (models env) with
              | Some m => Some m
              | None => _
              end) as [modelDef |] eqn:F; [| discriminate].
    destruct (has_provider modelDef p) eqn:HP; cbn [negb]; [| discriminate].
    unfold ret. intro R. inversion R; subst; clear R. cbn.
    split; [reflexivity |]. split; [reflexivity |].
    assert (Min : In modelDef (models env)).
    { destruct (find (fun m => String.eqb (id m) rest) (models env)) as [m |] eqn:F1.
      - inversion F; subst. apply (find_some _ _ F1).
      - apply (find_some _ _ F). }
    unfold has_provider in HP. apply existsb_exists in HP.
    destruct HP as (pm0 & I0 & E0).
    destruct (find (fun q => String.eqb (providerId q) p) (Catalog.providers modelDef))
      as [pm |] eqn:F2.
    + destruct (find_some _ _ F2) as [I2 E2]. apply String.eqb_eq in E2.
      exists modelDef, pm. repeat split; assumption.
    + exfalso. pose proof (find_none _ _ F2 pm0 I0) as Hn. cbv beta in Hn.
      rewrite E0 in Hn. discriminate Hn.
Qed.

Lemma numbered_ids (start : nat) (l : list (option string * SSEData)) :
  map sse_id (numbered start l) = seq start (List.length l)
  /\ List.length (numbered start l) = List.length l.
Proof.
  revert start. induction l as [| [ev d] l IH]; intro start; [split; reflexivity |].
  cbn [numbered map List.length seq]. destruct (IH (S start)) as [A B].
  rewrite A, B. split; reflexivity.
Qed.

Section HandlerEffects.
Variable env : Env.
Variable req : Request.

Lemma fetch_inv (c : Context) (e : Effects) :
  exists fetched,
    fetch env req c e
    = (inr fetched,
       {| logs := logs e;
          fetches :=
            fetches e
            ++ [{| f_url := c_url c; f_provider := c_usedProvider c;
                   f_token := c_usedToken c; f_model := c_usedModel c;
                   f_stream := b_stream req;
                   f_cancellable := requestCanBeCanceled env (c_usedProvider c) |}];
          events := events e; cacheSets := cacheSets e |})
    /\ (fetched = AbortError ->
        requestCanBeCanceled env (c_usedProvider c) = true
        /\ clientAbort env = AbortDuringFetch)
    /\ (forall res, fetched = Response res -> upstream env = Resolves res)
    /\ (forall message, fetched = OtherError message -> upstream env = Rejects message).
Proof.
  unfold fetch, bind, sendFetch.
  destruct (clientAbort env);
    try destruct (requestCanBeCanceled env (c_usedProvider c)) eqn:RC;
    try destruct (upstream env) as [res | message];
    eexists; (split; [reflexivity |]);
    (split; [intro H; first [discriminate H | split; reflexivity] |]);
    split; intros x H; first [discriminate H | inversion H; reflexivity].
Qed.

Lemma readLoop_canceled (p : Provider) (m : string) (body : StreamBody) :
  snd (readLoop env req p m body) = true ->
  requestCanBeCanceled env p = true /\ clientAbort env <> NoAbort.
Proof.
  unfold readLoop. cbn [snd].
  destruct (clientAbort env) as [| | n]; try discriminate.
  destruct (requestCanBeCanceled env p); cbn [andb]; [| discriminate].
  destruct (Nat.leb n (List.length body)); [| discriminate].
  intros _. split; [reflexivity | discriminate].
Qed.

Ltac orderly_effects S :=
  unfold orderly; cbn [fst snd logs fetches events cacheSets app List.length no_effects];
  split; [lia |];
  split;
  [ let status := fresh in let message := fresh in let H := fresh in
    intros status message H; first [discriminate H | reflexivity] |];
  split;
  [ first
      [ let reply := fresh in let H := fresh in
        intros reply H; discriminate H
      | let reply := fresh in let H := fresh in
        intros reply H; inversion H; subst; split;
        [ first [reflexivity | let H1 := fresh in intro H1; rewrite S in H1; discriminate H1]
        | first [ let H1 := fresh in intro H1; rewrite S in H1; discriminate H1 | intros _; do 2 eexists; reflexivity ] ] ] |];
  split;
  [ let f := fresh in let Hin := fresh in
    intros f Hin; cbn [In] in Hin;
    first [contradiction | destruct Hin as [<- | []]; repeat split] |];
  split;
  [ first
      [ reflexivity
      | match goal with
        | |- context [numbered 0 ?l] =>
            let A := fresh in let B := fresh in
            destruct (numbered_ids 0 l) as [A B]; rewrite B; exact A
        end ] |];
  split; [first [reflexivity | let H := fresh in intro H; rewrite S in H; discriminate H] |];
  split; [lia |].

Lemma streamingDispatch_orderly (c : Context) :
  b_stream req = true ->
  orderly env req c (streamingDispatch env req c no_effects).
Proof.
  intro S. generalize (eq_refl (streamingDispatch env req c no_effects)).
  generalize (streamingDispatch env req c no_effects) at 1 3. intros out E.
  unfold streamingDispatch in E. unfold bind at 1 in E.
  destruct (fetch_inv c no_effects) as (fetched & F & A & _).
  rewrite F in E. clear F.
  destruct fetched as [| message | res].
  - unfold bind, writeSSE, insertLog, ret in E.
    cbn [fst snd logs fetches events cacheSets app List.length no_effects] in E. subst out.
    orderly_effects S. split; [intros key value ttl [] |].
    intros row [<- | []]. cbn. destruct (A eq_refl) as [A1 A2].
    split; [symmetry; exact S |].
    split; [intros _; split; [exact A1 | rewrite A2; discriminate] |].
    split; discriminate.
  - unfold throw in E. subst out.
    orderly_effects S. split; [intros key value ttl [] | intros row []].
  - destruct (r_ok res) eqn:Hok.
    + destruct (r_body res) as [body |] eqn:Hbody.
      * cbn [negb] in E. cbv beta iota in E.
        destruct (readLoop env req (c_usedProvider c) (c_usedModel c) body)
          as [st wasCanceled] eqn:RL.
        unfold bind, writeSSE, insertLog, ret in E.
        cbn [fst snd logs fetches events cacheSets app List.length no_effects] in E.
        subst out.
        orderly_effects S. split; [intros key value ttl [] |].
        intros row [<- | []].
        unfold streamLogRow.
        destruct (calculatedTokens env req st) as [[? ?] ?]. cbn.
        split; [symmetry; exact S |].
        split.
        { intro W. apply (readLoop_canceled (c_usedProvider c) (c_usedModel c) body).
          rewrite RL. exact W. }
        split; discriminate.
      * cbn [negb] in E. cbv beta iota in E.
        unfold bind, writeSSE, insertLog, ret in E.
        cbn [fst snd logs fetches events cacheSets app List.length no_effects] in E.
        subst out.
        orderly_effects S. split; [intros key value ttl [] | intros row []].
    + cbn [negb] in E. cbv beta iota in E.
      unfold bind, writeSSE, insertLog, ret in E.
      cbn [fst snd logs fetches events cacheSets app List.length no_effects] in E.
      subst out.
      orderly_effects S. split; [intros key value ttl [] |].
      intros row [<- | []]. cbn.
      split; [symmetry; exact S |].
      split; [discriminate |].
      split; [intros _; split; reflexivity | discriminate].
Qed.

Lemma unaryDispatch_orderly (c : Context) :
  b_stream req = false ->
  orderly env req c
    (unaryDispatch env req c (fst (isCachingEnabled env (pr_id (c_project c))))
       (cacheKeyOf env req (c_project c) (c_usedModel c))
       (snd (isCachingEnabled env (pr_id (c_project c)))) no_effects).
Proof.
  intro S.
  generalize (eq_refl (unaryDispatch env req c
                         (fst (isCachingEnabled env (pr_id (c_project c))))
                         (cacheKeyOf env req (c_project c) (c_usedModel c))
                         (snd (isCachingEnabled env (pr_id (c_project c)))) no_effects)).
  generalize (unaryDispatch env req c
                (fst (isCachingEnabled env (pr_id (c_project c))))
                (cacheKeyOf env req (c_project c) (c_usedModel c))
                (snd (isCachingEnabled env (pr_id (c_project c)))) no_effects) at 1 3.
  intros out E.
  unfold unaryDispatch in E. unfold bind at 1 in E.
  destruct (fetch_inv c no_effects) as (fetched & F & A & _).
  rewrite F in E. clear F.
  destruct fetched as [| message | res].
  - unfold bind, insertLog, ret in E.
    cbn [fst snd logs fetches events cacheSets app List.length no_effects] in E. subst out.
    orderly_effects S. split; [intros key value ttl [] |].
    intros row [<- | []]. cbn. destruct (A eq_refl) as [A1 A2].
    split; [symmetry; exact S |].
    split; [intros _; split; [exact A1 | rewrite A2; discriminate] |].
    split; discriminate.
  - unfold throw in E. subst out.
    orderly_effects S. split; [intros key value ttl [] | intros row []].
  - destruct (r_ok res).
    + cbn [negb] in E. cbv beta iota in E.
      destruct (r_json res) as [json |].
      * destruct (nullish json);
          [unfold throw in E; subst out; orderly_effects S;
           split; [intros key value ttl [] | intros row []] |].
        cbv zeta in E.
        destruct (fst (isCachingEnabled env (pr_id (c_project c)))
                  && truthy_str (cacheKeyOf env req (c_project c) (c_usedModel c))
                  && negb (b_stream req))%bool eqn:CE.
        -- destruct (cacheKeyOf env req (c_project c) (c_usedModel c)) as [key |] eqn:CK;
             [| cbn [truthy_str] in CE; rewrite andb_false_r in CE; discriminate CE].
           unfold bind, insertLog, setCache, ret in E.
           cbn [fst snd logs fetches events cacheSets app List.length no_effects] in E.
           subst out.
           orderly_effects S. split.
           ++ intros key0 value ttl [H | []]. inversion H; subst; clear H.
              split; [exact S |].
              apply andb_prop in CE. destruct CE as [CE _].
              apply andb_prop in CE. destruct CE as [CE _].
              split; [destruct (isCachingEnabled env (pr_id (c_project c)));
                      cbn in *; subst; reflexivity |].
              split; [| reflexivity].
              unfold cacheKeyOf in CK.
              destruct (fst (isCachingEnabled env (pr_id (c_project c)))
                        && negb (b_stream req))%bool; [| discriminate CK].
              inversion CK. reflexivity.
           ++ intros row [<- | []]. cbn.
              split; [symmetry; exact S |]. repeat split; discriminate.
        -- unfold bind, insertLog, setCache, ret in E.
           cbn [fst snd logs fetches events cacheSets app List.length no_effects] in E.
           subst out.
           orderly_effects S. split; [intros key value ttl [] |].
           intros row [<- | []]. cbn.
           split; [symmetry; exact S |]. repeat split; discriminate.
      * unfold throw in E. subst out.
        orderly_effects S. split; [intros key value ttl [] | intros row []].
    + cbn [negb] in E. cbv beta iota in E.
      unfold bind, insertLog, ret in E.
      cbn [fst snd logs fetches events cacheSets app List.length no_effects] in E.
      subst out.
      orderly_effects S. split; [intros key value ttl [] |].
      intros row [<- | []]. cbn.
      split; [symmetry; exact S |].
      split; [discriminate |].
      split; [intros _; split; reflexivity | discriminate].
Qed.

Lemma serve_orderly (c : Context) : orderly env req c (run (serve env req c)).
Proof.
  generalize (eq_refl (run (serve env req c))).
  generalize (run (serve env req c)) at 1 3. intros out E.
  unfold run, serve in E.
  destruct (cachedResponseOf env (cacheKeyOf env req (c_project c) (c_usedModel c)))
    as [cachedResponse |] eqn:CR.
  - unfold bind, insertLog, ret in E.
    cbn [fst snd logs fetches events cacheSets app List.length no_effects] in E. subst out.
    assert (S : b_stream req = false).
    { unfold cachedResponseOf, cacheKeyOf in CR.
      destruct (b_stream req); [| reflexivity].
      rewrite andb_false_r in CR. discriminate CR. }
    orderly_effects S. split; [intros key value ttl [] |].
    intros row [<- | []]. cbn.
    split; [symmetry; exact S |].
    split; [discriminate |]. split; [discriminate |]. intros _. split; reflexivity.
  - unfold bind at 1 in E.
    pose proof (checkLimits_effect_free env req (c_usedProvider c) (c_usedModel c)
                  no_effects) as L.
    destruct (checkLimits env req (c_usedProvider c) (c_usedModel c) no_effects)
      as [[x | []] e]; simpl in L; subst e.
    + subst out. destruct (b_stream req) eqn:S;
        orderly_effects S; (split; [intros key value ttl [] | intros row []]).
    + destruct (b_stream req) eqn:S; subst out.
      * apply streamingDispatch_orderly. exact S.
      * apply unaryDispatch_orderly. exact S.
Qed.

End HandlerEffects.

(** ** The upstream request *)

Lemma getProviderTokenFromEnv_inr (env : Env) (p : Provider) (t : string)
    (e e' : Effects) :
  getProviderTokenFromEnv env p e = (inr t, e') ->
  exists v, getProviderEnvVar env p = Some v /\ process_env env v = Some t.
Proof.
  unfold getProviderTokenFromEnv, str_or_null.
  destruct (getProviderEnvVar env p) as [v |]; [| discriminate].
  destruct (truthy_str (Some v)); [| discriminate].
  destruct (process_env env v) as [t' |] eqn:PE; [| discriminate].
  destruct (truthy_str (Some t')); [| discriminate].
  unfold ret. intro H. inversion H; subst. exists v. split; [reflexivity | exact PE].
Qed.

Lemma credits_token_inr (env : Env) (project : Project) (p : Provider)
    (why t : string) (e e' : Effects) :
  credits_token env project p why e = (inr t, e') ->
  exists org v,
    getOrganization env (pr_organizationId project) = Some org
    /\ (0 < org_credits org)%Q
    /\ getProviderEnvVar env p = Some v /\ process_env env v = Some t.
Proof.
  unfold credits_token.
  destruct (getOrganization env (pr_organizationId project)) as [org |] eqn:GO;
    [| discriminate].
  destruct (Qle_bool (org_credits org) 0) eqn:Q; [discriminate |].
  intro H. apply getProviderTokenFromEnv_inr in H. destruct H as (v & H1 & H2).
  exists org, v. split; [reflexivity |]. split; [| split; assumption].
  apply Qnot_le_lt. intro L. apply Qle_bool_iff in L. congruence.
Qed.

(** The token [resolveCredential] returns is not empty; without a stored
    key it is the environment token of the provider, and the
    organization has credits. *)
Lemma resolveCredential_token (env : Env) (project : Project) (usedProvider : Provider)
    (customProviderName : option string) (key : option ProviderKey) (token : string)
    (e e' : Effects) :
  resolveCredential env project usedProvider customProviderName e
  = (inr (key, token), e') ->
  token <> EmptyString
  /\ (pr_mode project = "api-keys" \/ pr_mode project = "credits"
      \/ pr_mode project = "hybrid")
  /\ (pr_mode project = "credits" -> usedProvider <> "custom")
  /\ (key = None ->
      exists org v,
        getOrganization env (pr_organizationId project) = Some org
        /\ (0 < org_credits org)%Q
        /\ getProviderEnvVar env usedProvider = Some v
        /\ process_env env v = Some token).
Proof.
  unfold resolveCredential. intro H.
  destruct (String.eqb (pr_mode project) "credits" && String.eqb usedProvider "custom")%bool
    eqn:CC; [discriminate H |].
  apply bind_inr in H. destruct H as (chosen & e1 & H1 & H2).
  destruct (truthy_str (Some (snd chosen))) eqn:T; cbn [negb] in H2; [| discriminate H2].
  unfold ret in H2. inversion H2; subst. clear H2. cbn [snd] in T.
  split; [intro E; subst token; discriminate T |].
  split.
  { destruct (String.eqb (pr_mode project) "api-keys") eqn:M1;
      [left; apply String.eqb_eq; exact M1 |].
    destruct (String.eqb (pr_mode project) "credits") eqn:M2;
      [right; left; apply String.eqb_eq; exact M2 |].
    destruct (String.eqb (pr_mode project) "hybrid") eqn:M3;
      [right; right; apply String.eqb_eq; exact M3 | discriminate H1]. }
  split.
  { intros M E. subst usedProvider. rewrite M in CC. discriminate CC. }
  intro K. subst key.
  destruct (String.eqb (pr_mode project) "api-keys").
  - destruct (stored_key env project usedProvider customProviderName);
      [unfold ret in H1; inversion H1 | discriminate H1].
  - destruct (String.eqb (pr_mode project) "credits").
    + apply bind_inr in H1. destruct H1 as (t & e2 & H1 & H3).
      unfold ret in H3. inversion H3; subst. eapply credits_token_inr. exact H1.
    + destruct (String.eqb (pr_mode project) "hybrid"); [| discriminate H1].
      destruct (stored_key env project usedProvider customProviderName).
      * unfold ret in H1. inversion H1.
      * apply bind_inr in H1. destruct H1 as (t & e2 & H1 & H3).
        unfold ret in H3. inversion H3; subst. eapply credits_token_inr. exact H1.
Qed.

(** The handler was [prepare]d when it left an effect behind. *)
Lemma handler_effect (env : Env) (req : Request) :
  snd (run (handler env req)) <> no_effects ->
  exists c, fst (run (prepare env req)) = inr c
            /\ run (handler env req) = run (serve env req c).
Proof.
  rewrite handler_run.
  destruct (fst (run (prepare env req))) as [x | c] eqn:P;
    [intro H; exfalso; apply H; reflexivity |].
  intros _. exists c. split; reflexivity.
Qed.

Lemma handler_fetch (env : Env) (req : Request) (f : Fetch) :
  In f (fetches (snd (run (handler env req)))) ->
  exists c, fst (run (prepare env req)) = inr c
            /\ run (handler env req) = run (serve env req c).
Proof.
  intro H. apply handler_effect. intro E. rewrite E in H. exact H.
Qed.

Lemma handler_log (env : Env) (req : Request) (row : LogRow) :
  In row (logs (snd (run (handler env req)))) ->
  exists c, fst (run (prepare env req)) = inr c
            /\ run (handler env req) = run (serve env req c).
Proof.
  intro H. apply handler_effect. intro E. rewrite E in H. exact H.
Qed.

Lemma handler_cacheSet (env : Env) (req : Request) (entry : string * Json * Z) :
  In entry (cacheSets (snd (run (handler env req)))) ->
  exists c, fst (run (prepare env req)) = inr c
            /\ run (handler env req) = run (serve env req c).
Proof.
  intro H. apply handler_effect. intro E. rewrite E in H. exact H.
Qed.

(** X: upstream request *)
(** X2.  The handler sends at most one request upstream, and none when
    it rejects the request with an [HTTPException] or answers it from
    the cache.  The request goes to the URL, provider and model that
    [prepare] settled, streams exactly when the client asked for a
    stream, and carries the abort signal exactly when the provider
    supports cancellation. *)
Theorem at_most_one_upstream_request :
  forall (env : Env) (req : Request),
    let out := run (handler env req) in
    (List.length (fetches (snd out)) <= 1)%nat
    /\ (forall status message,
          fst out = inl (HTTPException status message) -> fetches (snd out) = [])
    /\ (forall row, In row (logs (snd out)) -> cached row = true ->
          fetches (snd out) = [])
    /\ (forall f, In f (fetches (snd out)) ->
          exists c,
            fst (run (prepare env req)) = inr c
            /\ f_url f = c_url c /\ f_provider f = c_usedProvider c
            /\ f_model f = c_usedModel c /\ f_stream f = b_stream req
            /\ f_cancellable f = requestCanBeCanceled env (c_usedProvider c)).
Proof.
  intros env req. cbv zeta.
  split.
  { rewrite handler_run. destruct (fst (run (prepare env req))) as [x | c]; [cbn; lia |].
    apply (serve_orderly env req c). }
  split.
  { rewrite handler_run. destruct (fst (run (prepare env req))) as [x | c]; [reflexivity |].
    apply (serve_orderly env req c). }
  split.
  { intros row Hin C. destruct (handler_log env req row Hin) as (c & P & R).
    rewrite R in *.
    destruct (serve_orderly env req c) as (_ & _ & _ & _ & _ & _ & _ & _ & O).
    apply (O row Hin). exact C. }
  intros f Hin. destruct (handler_fetch env req f Hin) as (c & P & R).
  rewrite R in *. exists c. split; [exact P |].
  destruct (serve_orderly env req c) as (_ & _ & _ & O & _).
  destruct (serve_well_logged env req c) as (_ & _ & _ & _ & W).
  destruct (O f Hin) as (O1 & O2 & O3). destruct (W f Hin) as (W1 & W2 & W3).
  repeat split; assumption.
Qed.

Lemma at_most_one_upstream_request_witness :
  let env :=
    Demo.deployment "credits" None ["openai"] [] false (fun _ => None)
      (Demo.ok_json Demo.openai_completion) NoAbort in
  let req := Demo.chat (Some "Bearer sk-demo") "gpt-4o-mini" false in
  exists f c,
    fetches (snd (run (handler env req))) = [f]
    /\ fst (run (prepare env req)) = inr c
    /\ f_url f = c_url c /\ f_stream f = false.
Proof.
  intros env req.
  assert (F : exists f, fetches (snd (run (handler env req))) = [f])
    by (eexists; vm_compute; reflexivity).
  destruct F as [f F].
  destruct (at_most_one_upstream_request env req) as (_ & _ & _ & H).
  destruct (H f) as (c & P & U & _ & _ & S & _); [rewrite F; left; reflexivity |].
  exists f, c. repeat split; assumption.
Defined.

(** X3.  The events of a response carry the ids 0, 1, 2, ... in the
    order written; a request that is not streamed gets no event; and a
    request that is answered gets an event stream exactly when it asked
    for one. *)
Theorem sse_events_are_numbered_from_zero :
  forall (env : Env) (req : Request),
    let out := run (handler env req) in
    map sse_id (events (snd out)) = seq 0 (List.length (events (snd out)))
    /\ (b_stream req = false -> events (snd out) = [])
    /\ (forall reply, fst out = inr reply ->
          (b_stream req = true <-> reply = SSEReply)).
Proof.
  intros env req. cbv zeta. rewrite handler_run.
  destruct (fst (run (prepare env req))) as [x | c].
  - cbn. split; [reflexivity |]. split; [reflexivity | discriminate].
  - destruct (serve_orderly env req c) as (_ & _ & R & _ & N & E & _).
    split; [exact N |]. split; [exact E |].
    intros reply H. destruct (R reply H) as [R1 R2].
    split; [exact R1 |].
    intro S. destruct (b_stream req); [reflexivity |].
    destruct (R2 eq_refl) as (status & body & J). congruence.
Qed.

Lemma sse_events_are_numbered_from_zero_witness :
  let out :=
    run (handler
           (Demo.deployment "credits" None ["openai"] [] false (fun _ => None)
              (Demo.ok_stream Demo.openai_events) NoAbort)
           (Demo.chat (Some "Bearer sk-demo") "gpt-4o-mini" true)) in
  map sse_id (events (snd out)) = [0; 1; 2; 3]%nat
  /\ (true = true <-> SSEReply = SSEReply).
Proof.
  intro out.
  destruct (sse_events_are_numbered_from_zero
              (Demo.deployment "credits" None ["openai"] [] false (fun _ => None)
                 (Demo.ok_stream Demo.openai_events) NoAbort)
              (Demo.chat (Some "Bearer sk-demo") "gpt-4o-mini" true)) as (N & _ & R).
  split.
  - fold out in N. rewrite N. vm_compute. reflexivity.
  - apply (R SSEReply). vm_compute. reflexivity.
Defined.

(** X4.  The handler writes at most one cache entry, and none for a
    streamed request.  An entry it writes holds the body of the 200
    reply it returns, under the cache key of the request and with the
    duration of the project, whose caching is enabled. *)
Theorem only_successful_unary_responses_are_cached :
  forall (env : Env) (req : Request),
    let out := run (handler env req) in
    (List.length (cacheSets (snd out)) <= 1)%nat
    /\ (b_stream req = true -> cacheSets (snd out) = [])
    /\ (forall key value ttl, In (key, value, ttl) (cacheSets (snd out)) ->
          fst out = inr (JsonReply 200 value)
          /\ exists c,
               fst (run (prepare env req)) = inr c
               /\ isCachingEnabled env (pr_id (c_project c)) = (true, ttl)
               /\ key = cacheKeyFor env req c).
Proof.
  intros env req. cbv zeta.
  assert (K : forall key value ttl,
             In (key, value, ttl) (cacheSets (snd (run (handler env req)))) ->
             b_stream req = false
             /\ fst (run (handler env req)) = inr (JsonReply 200 value)
             /\ exists c,
                  fst (run (prepare env req)) = inr c
                  /\ isCachingEnabled env (pr_id (c_project c)) = (true, ttl)
                  /\ key = cacheKeyFor env req c).
  { intros key value ttl Hin.
    destruct (handler_cacheSet env req _ Hin) as (c & P & R). rewrite R in *.
    destruct (serve_orderly env req c) as (_ & _ & _ & _ & _ & _ & _ & O & _).
    destruct (O key value ttl Hin) as (O1 & O2 & O3 & O4).
    split; [exact O1 |]. split; [exact O4 |]. exists c. repeat split; assumption. }
  split.
  { rewrite handler_run. destruct (fst (run (prepare env req))) as [x | c]; [cbn; lia |].
    apply (serve_orderly env req c). }
  split.
  { intro S. destruct (cacheSets (snd (run (handler env req)))) as [| [[key value] ttl] l] eqn:C;
      [reflexivity |].
    destruct (K key value ttl) as [S' _]; [left; reflexivity |]. congruence. }
  intros key value ttl Hin. destruct (K key value ttl Hin) as (_ & K2 & K3).
  split; assumption.
Qed.

Lemma only_successful_unary_responses_are_cached_witness :
  let env :=
    Demo.deployment "credits" None ["openai"] [] true (fun _ => None)
      (Demo.ok_json Demo.openai_completion) NoAbort in
  let out := run (handler env (Demo.chat (Some "Bearer sk-demo") "gpt-4o-mini" false)) in
  cacheSets (snd out) = [("key-of-gpt-4o-mini", Demo.openai_completion, 60)]
  /\ fst out = inr (JsonReply 200 Demo.openai_completion).
Proof.
  intros env out.
  assert (C : cacheSets (snd out) = [("key-of-gpt-4o-mini", Demo.openai_completion, 60)])
    by (vm_compute; reflexivity).
  split; [exact C |].
  destruct (only_successful_unary_responses_are_cached env
              (Demo.chat (Some "Bearer sk-demo") "gpt-4o-mini" false)) as (_ & _ & H).
  apply (H "key-of-gpt-4o-mini" Demo.openai_completion 60).
  fold out. rewrite C. left. reflexivity.
Defined.

(** X5.  Every log row has the [streamed] flag of its request.  A row
    is marked [canceled] only when the client closed the connection and
    the provider the request was routed to supports cancellation.  (The
    upstream is taken not to abort on its own.) *)
Theorem canceled_rows_need_cancellation_support :
  forall (env : Env) (req : Request) (row : LogRow),
    In row (logs (snd (run (handler env req)))) ->
    streamed row = b_stream req
    /\ (canceled row = true ->
        clientAbort env <> NoAbort
        /\ exists c,
             fst (run (prepare env req)) = inr c
             /\ requestCanBeCanceled env (c_usedProvider c) = true).
Proof.
  intros env req row Hin.
  destruct (handler_log env req row Hin) as (c & P & R). rewrite R in *.
  destruct (serve_orderly env req c) as (_ & _ & _ & _ & _ & _ & _ & _ & O).
  destruct (O row Hin) as (O1 & O2 & _).
  split; [exact O1 |]. intro C. destruct (O2 C) as [O3 O4].
  split; [exact O4 |]. exists c. split; assumption.
Qed.

Lemma canceled_rows_need_cancellation_support_witness :
  let env :=
    Demo.deployment "hybrid" None ["openai"] [Demo.stored_anthropic_key] false
      (fun _ => None) (Demo.ok_stream Demo.anthropic_events) (AbortAfterChunks 1) in
  let req := Demo.chat (Some "Bearer sk-demo") "anthropic/claude-3-5-sonnet" true in
  exists row c,
    logs (snd (run (handler env req))) = [row]
    /\ canceled row = true
    /\ fst (run (prepare env req)) = inr c
    /\ requestCanBeCanceled env (c_usedProvider c) = true.
Proof.
  intros env req.
  assert (L : exists row, logs (snd (run (handler env req))) = [row] /\ canceled row = true)
    by (eexists; vm_compute; split; reflexivity).
  destruct L as (row & L & C).
  destruct (canceled_rows_need_cancellation_support env req row) as (_ & H);
    [rewrite L; left; reflexivity |].
  destruct (H C) as (_ & c & P & S).
  exists row, c. repeat split; assumption.
Defined.

(** ** Credentials *)

(** X6.  The token of an upstream request is never empty.  It is the
    token of the stored provider key when one is used, which never
    happens on a project in credits mode; otherwise the project is not
    in api-keys mode, the organization has credits above zero, and the
    token is the value of the provider's environment variable. *)
Theorem upstream_credentials :
  forall (env : Env) (req : Request) (f : Fetch),
    In f (fetches (snd (run (handler env req)))) ->
    f_token f <> EmptyString
    /\ exists c,
         fst (run (prepare env req)) = inr c
         /\ f_token f = c_usedToken c
         /\ (pr_mode (c_project c) = "api-keys" \/ pr_mode (c_project c) = "credits"
             \/ pr_mode (c_project c) = "hybrid")
         /\ match c_providerKey c with
            | Some k => f_token f = pk_token k /\ pr_mode (c_project c) <> "credits"
            | None =>
                pr_mode (c_project c) <> "api-keys"
                /\ exists org v,
                     getOrganization env (pr_organizationId (c_project c)) = Some org
                     /\ (0 < org_credits org)%Q
                     /\ getProviderEnvVar env (c_usedProvider c) = Some v
                     /\ process_env env v = Some (f_token f)
            end.
Proof.
  intros env req f Hin.
  destruct (handler_fetch env req f Hin) as (c & P & R). rewrite R in *.
  destruct (serve_well_logged env req c) as (_ & _ & _ & _ & W).
  destruct (W f Hin) as (T & _).
  destruct (prepare_inr env req c P)
    as (r & modelInfo & routed & _ & _ & _ & _ & _ & _ & RC & _).
  destruct (resolveCredential_token _ _ _ _ _ _ _ _ RC) as (N & M & _ & E).
  pose proof (resolveCredential_inr _ _ _ _ _ _ _ _ RC) as I.
  rewrite T. split; [exact N |].
  exists c. split; [exact P |]. split; [reflexivity |]. split; [exact M |].
  destruct (c_providerKey c) as [k |].
  - destruct I as (I1 & _ & I3). split; assumption.
  - split; [exact I |]. apply E. reflexivity.
Qed.

Lemma upstream_credentials_witness :
  let env :=
    Demo.deployment "credits" None ["openai"] [] false (fun _ => None)
      (Demo.ok_json Demo.openai_completion) NoAbort in
  let req := Demo.chat (Some "Bearer sk-demo") "gpt-4o-mini" false in
  exists f,
    fetches (snd (run (handler env req))) = [f]
    /\ f_token f = "env-token-of-openai_API_KEY"
    /\ f_token f <> EmptyString.
Proof.
  intros env req.
  assert (F : exists f, fetches (snd (run (handler env req))) = [f]
                        /\ f_token f = "env-token-of-openai_API_KEY")
    by (eexists; vm_compute; split; reflexivity).
  destruct F as (f & F & T).
  destruct (upstream_credentials env req f) as (N & _); [rewrite F; left; reflexivity |].
  exists f. repeat split; assumption.
Defined.

(** ** Billing *)

Lemma creditUpdates_skips (w : Worker.WorkerEnv) (rows : list LogRow) :
  (forall row, In row rows -> truthy_num (cost row) = false \/ cached row = true) ->
  Worker.creditUpdates w rows = [].
Proof.
  unfold Worker.creditUpdates.
  induction rows as [| row rows IH]; intro H; [reflexivity |].
  cbn [fold_left].
  replace (negb (truthy_num (cost row)) || cached row)%bool with true.
  - apply IH. intros r Hr. apply H. right. exact Hr.
  - symmetry. destruct (H row (or_introl eq_refl)) as [E | E]; rewrite E;
      [reflexivity | apply orb_true_r].
Qed.

(** X7.  The worker debits nothing for rows the handler logged with an
    error or as served from the cache: a batch of such rows gives no
    credit update. *)
Theorem failed_and_cached_requests_are_not_billed :
  forall (w : Worker.WorkerEnv) (rows : list LogRow),
    (forall row, In row rows ->
       (hasError row = true \/ cached row = true)
       /\ exists env req, In row (logs (snd (run (handler env req))))) ->
    Worker.creditUpdates w rows = [].
Proof.
  intros w rows H. apply creditUpdates_skips. intros row Hin.
  destruct (H row Hin) as (E & env & req & L).
  destruct (handler_log env req row L) as (c & P & R). rewrite R in *.
  destruct (serve_orderly env req c) as (_ & _ & _ & _ & _ & _ & _ & _ & O).
  destruct (O row L) as (_ & _ & O3 & _).
  destruct E as [E | E]; [| right; exact E].
  left. destruct (O3 E) as [C _]. rewrite C. reflexivity.
Qed.

Lemma failed_and_cached_requests_are_not_billed_witness :
  let env :=
    Demo.deployment "credits" None ["openai"] [] false (fun _ => None)
      (Resolves {| r_ok := false; r_status := 503; r_statusText := "Service Unavailable";
                   r_text := "overloaded"; r_json := None; r_body := None |})
      NoAbort in
  let req := Demo.chat (Some "Bearer sk-demo") "gpt-4o-mini" false in
  Worker.creditUpdates demo_worker (logs (snd (run (handler env req)))) = [].
Proof.
  intros env req.
  apply failed_and_cached_requests_are_not_billed.
  intros row Hin. split; [| exists env, req; exact Hin].
  revert row Hin. vm_compute. intros row [<- | []]. left. reflexivity.
Defined.

(** ** The catalog checks *)



(** X9.  [max_tokens] is checked against the [maxOutput] of the mapping
    of the used provider and model: a value above the limit is rejected
    with 400; a value up to the limit, the limit itself included,
    passes the checks of a request that is not streamed. *)
Theorem max_tokens_is_checked_against_the_mapping :
  forall (env : Env) (req : Request) (usedProvider : Provider) (usedModel : string)
         (info : ModelDefinition) (pm : ProviderModelMapping) (limit n : Q),
    finalModelInfo env usedProvider usedModel = Some info ->
    find (fun p => String.eqb (providerId p) usedProvider
                   && String.eqb (modelName p) usedModel)%bool
      (Catalog.providers info) = Some pm ->
    maxOutput pm = Some limit ->
    b_max_tokens req = Some n ->
    ((limit < n)%Q ->
     exists message, checkLimits env req usedProvider usedModel = http 400 message)
    /\ ((n <= limit)%Q -> b_stream req = false ->
        checkLimits env req usedProvider usedModel = ret tt).
Proof.
  intros env req usedProvider usedModel info pm limit n F M L N.
  unfold checkLimits. rewrite N, F, M, L. split.
  - intro H. replace (Qle_bool n limit) with false; [eexists; reflexivity |].
    symmetry. apply not_true_is_false. intro Q. apply Qle_bool_iff in Q.
    apply (Qlt_not_le _ _ H). exact Q.
  - intros H S. rewrite (proj2 (Qle_bool_iff n limit) H), S. reflexivity.
Qed.

Lemma max_tokens_is_checked_against_the_mapping_witness :
  let env :=
    Demo.deployment "credits" None ["openai"] [] false (fun _ => None)
      (Demo.ok_json Demo.openai_completion) NoAbort in
  let asking (n : Q) :=
    {| h_authorization := Some "Bearer sk-demo"; h_request_id := None; h_all := [];
       b_model := "gpt-4o-mini"; b_messages := [Demo.user_message "hello there"];
       b_temperature := None; b_max_tokens := Some n; b_top_p := None;
       b_frequency_penalty := None; b_presence_penalty := None;
       b_response_format := None; b_stream := false; b_tools := JUndefined;
       b_tool_choice := JUndefined; b_reasoning_effort := None |} in
  checkLimits env (asking 4096%Q) "openai" "gpt-4o-mini" = ret tt
  /\ exists message,
       checkLimits env (asking 4097%Q) "openai" "gpt-4o-mini" = http 400 message.
Proof.
  intros env asking. split.
  - refine (proj2 (max_tokens_is_checked_against_the_mapping env (asking 4096%Q)
                     "openai" "gpt-4o-mini"
                     (Demo.model "gpt-4o-mini" [Demo.mapping "openai" "gpt-4o-mini"] None)
                     (Demo.mapping "openai" "gpt-4o-mini") 4096%Q 4096%Q _ _ _ _) _ _);
      vm_compute; first [reflexivity | discriminate].
  - refine (proj1 (max_tokens_is_checked_against_the_mapping env (asking 4097%Q)
                     "openai" "gpt-4o-mini"
                     (Demo.model "gpt-4o-mini" [Demo.mapping "openai" "gpt-4o-mini"] None)
                     (Demo.mapping "openai" "gpt-4o-mini") 4096%Q 4097%Q _ _ _ _) _);
      vm_compute; reflexivity.
Defined.

(** ** Custom headers and the log entry *)

Lemma prefix_app (p k : string) : String.prefix p (p ++ k) = true.
Proof.
  induction p as [| c p IH]; [destruct k; reflexivity |].
  cbn [append String.prefix]. destruct (ascii_dec c c) as [_ | N]; [exact IH | congruence].
Qed.

Lemma substring_all (s : string) : String.substring 0 (String.length s) s = s.
Proof. induction s as [| c s IH]; [reflexivity |]. cbn. rewrite IH. reflexivity. Qed.

Lemma substring_app (p k : string) :
  String.substring (String.length p) (String.length (p ++ k) - String.length p) (p ++ k)
  = k.
Proof.
  induction p as [| c p IH].
  - cbn [append String.length]. rewrite Nat.sub_0_r. apply substring_all.
  - cbn [append String.length String.substring]. exact IH.
Qed.

Lemma prefix_split (p s : string) :
  String.prefix p s = true ->
  s = (p ++ String.substring (String.length p) (String.length s - String.length p) s)%string.
Proof.
  revert s. induction p as [| c p IH]; intros s H.
  - cbn [append String.length]. rewrite Nat.sub_0_r, substring_all. reflexivity.
  - destruct s as [| d s]; [discriminate H |].
    cbn [String.prefix] in H. destruct (ascii_dec c d) as [E | N]; [| discriminate H].
    subst d. cbn [append String.length String.substring Nat.sub]. f_equal. apply IH. exact H.
Qed.

Lemma app_inv_head_string (p a b : string) : (p ++ a)%string = (p ++ b)%string -> a = b.
Proof.
  induction p as [| c p IH]; intro H; [exact H |].
  cbn [append] in H. inversion H. apply IH. assumption.
Qed.

Lemma customHeaderKey_some (name k : string) :
  customHeaderKey name = Some k
  <-> toLowerCase name = ("x-llmgateway-" ++ k)%string /\ k <> "__proto__".
Proof.
  unfold customHeaderKey, startsWith. cbv zeta. split.
  - destruct (String.prefix "x-llmgateway-" (toLowerCase name)) eqn:P; [| discriminate].
    destruct (String.eqb _ "__proto__") eqn:E; [discriminate |].
    intro H. injection H as <-. split; [exact (prefix_split _ _ P) |].
    apply String.eqb_neq. exact E.
  - intros [H N]. rewrite H, prefix_app, substring_app.
    rewrite (proj2 (String.eqb_neq _ _) N). reflexivity.
Qed.

Lemma extractCustomHeaders_snoc (headers : list (string * string)) (name v : string) :
  extractCustomHeaders (headers ++ [(name, v)])
  = match customHeaderKey name with
    | Some k => set_header k v (extractCustomHeaders headers)
    | None => extractCustomHeaders headers
    end.
Proof.
  unfold extractCustomHeaders, customHeaderKey. rewrite fold_left_app. cbn [fold_left fst snd].
  cbv zeta. destruct (startsWith "x-llmgateway-" (toLowerCase name)); [| reflexivity].
  destruct (String.eqb _ "__proto__"); reflexivity.
Qed.

Lemma assoc_set_header_same (k v : string) (l : list (string * string)) :
  assoc k (set_header k v l) = Some v.
Proof.
  induction l as [| [k' v'] l IH]; cbn [set_header assoc].
  - rewrite String.eqb_refl. reflexivity.
  - destruct (String.eqb k k') eqn:E; cbn [assoc].
    + rewrite String.eqb_refl. reflexivity.
    + rewrite E. exact IH.
Qed.

Lemma assoc_set_header_other (k k0 v : string) (l : list (string * string)) :
  k0 <> k -> assoc k0 (set_header k v l) = assoc k0 l.
Proof.
  intro N. induction l as [| [k' v'] l IH]; cbn [set_header assoc].
  - rewrite (eqb_false_of_neq _ _ N). reflexivity.
  - destruct (String.eqb k k') eqn:E; cbn [assoc].
    + apply String.eqb_eq in E. subst k'. rewrite (eqb_false_of_neq _ _ N). reflexivity.
    + rewrite IH. reflexivity.
Qed.

Lemma set_header_keys (k v k0 : string) (l : list (string * string)) :
  In k0 (map fst (set_header k v l)) <-> k0 = k \/ In k0 (map fst l).
Proof.
  induction l as [| [k' v'] l IH]; cbn [set_header map fst In].
  - split; [intros [H | []]; left; congruence | intros [H | []]; left; congruence].
  - destruct (String.eqb k k') eqn:E; cbn [map fst In].
    + apply String.eqb_eq in E. subst k'. split; [intros [H | H] | intros [H | [H | H]]]; auto.
    + rewrite IH. split; [intros [H | [H | H]] | intros [H | [H | H]]]; auto.
Qed.

Lemma set_header_NoDup (k v : string) (l : list (string * string)) :
  NoDup (map fst l) -> NoDup (map fst (set_header k v l)).
Proof.
  induction l as [| [k' v'] l IH]; cbn [set_header map fst]; intro H.
  - constructor; [intros [] | constructor].
  - destruct (String.eqb k k') eqn:E; cbn [map fst].
    + apply String.eqb_eq in E. subst k'. exact H.
    + inversion H as [| x xs Hx Hxs]; subst. constructor; [| apply IH; exact Hxs].
      intro I. apply set_header_keys in I. destruct I as [I | I]; [| contradiction].
      subst k'. rewrite String.eqb_refl in E. discriminate E.
Qed.

(** X10.  [extractCustomHeaders] records each key once, and never the
    key [__proto__]; every entry comes from a request header whose
    lower-cased name is [x-llmgateway-] followed by the key; and every
    such header has its key recorded, unless the key is [__proto__]. *)
Theorem custom_headers_come_from_prefixed_request_headers :
  forall (headers : list (string * string)),
    NoDup (map fst (extractCustomHeaders headers))
    /\ ~ In "__proto__" (map fst (extractCustomHeaders headers))
    /\ (forall k v,
          assoc k (extractCustomHeaders headers) = Some v ->
          exists name,
            In (name, v) headers /\ toLowerCase name = ("x-llmgateway-" ++ k)%string)
    /\ (forall name v,
          In (name, v) headers ->
          forall k, toLowerCase name = ("x-llmgateway-" ++ k)%string ->
          k <> "__proto__" ->
          In k (map fst (extractCustomHeaders headers))).
Proof.
  induction headers as [| [name v] headers IH] using rev_ind.
  - split; [constructor |]. split; [intros [] |].
    split; [intros k v H; discriminate H | intros name v []].
  - destruct IH as (IH1 & IH0 & IH2 & IH3). rewrite extractCustomHeaders_snoc.
    destruct (customHeaderKey name) as [k0 |] eqn:CK.
    + apply customHeaderKey_some in CK. destruct CK as [CK NP].
      split; [apply set_header_NoDup; exact IH1 |].
      split; [intro P; apply set_header_keys in P; destruct P as [P | P];
              [apply NP; symmetry; exact P | exact (IH0 P)] |].
      split.
      * intros k w H. destruct (String.eqb k k0) eqn:E.
        -- apply String.eqb_eq in E. subst k0. rewrite assoc_set_header_same in H.
           inversion H; subst. exists name. split; [apply in_or_app; right; left; reflexivity |].
           exact CK.
        -- apply String.eqb_neq in E. rewrite assoc_set_header_other in H by exact E.
           destruct (IH2 k w H) as (n & I & L). exists n.
           split; [apply in_or_app; left; exact I | exact L].
      * intros n w I k L N. apply set_header_keys. apply in_app_or in I.
        destruct I as [I | [I | []]].
        -- right. apply (IH3 n w I k L N).
        -- inversion I; subst. left. rewrite CK in L.
           apply app_inv_head_string in L. congruence.
    + split; [exact IH1 |]. split; [exact IH0 |]. split.
      * intros k w H. destruct (IH2 k w H) as (n & I & L). exists n.
        split; [apply in_or_app; left; exact I | exact L].
      * intros n w I k L N. apply in_app_or in I. destruct I as [I | [I | []]].
        -- apply (IH3 n w I k L N).
        -- inversion I; subst.
           assert (S : customHeaderKey n = Some k) by (apply customHeaderKey_some; split; assumption).
           congruence.
Qed.

Lemma custom_headers_come_from_prefixed_request_headers_witness :
  exists name,
    In (name, "b")
      [("accept", "*/*"); ("x-llmgateway-__proto__", "p"); ("x-llmgateway-user", "b")]
    /\ toLowerCase name = ("x-llmgateway-" ++ "user")%string.
Proof.
  apply (proj1 (proj2 (proj2 (custom_headers_come_from_prefixed_request_headers
                                [("accept", "*/*"); ("x-llmgateway-__proto__", "p");
                                 ("x-llmgateway-user", "b")])))).
  vm_compute. reflexivity.
Defined.

(** The value a header sets is not changed by later headers of other
    names. *)
Lemma later_headers_keep_the_value (before after : list (string * string))
    (name k v : string) :
  toLowerCase name = ("x-llmgateway-" ++ k)%string ->
  k <> "__proto__" ->
  (forall name' v', In (name', v') after -> toLowerCase name' <> toLowerCase name) ->
  assoc k (extractCustomHeaders (before ++ (name, v) :: after)) = Some v.
Proof.
  intros L NP.
  assert (CKn : customHeaderKey name = Some k)
    by (apply customHeaderKey_some; split; assumption).
  induction after as [| [n w] after IH] using rev_ind; intro H.
  - rewrite extractCustomHeaders_snoc, CKn. apply assoc_set_header_same.
  - replace (before ++ (name, v) :: after ++ [(n, w)])
      with ((before ++ (name, v) :: after) ++ [(n, w)])
      by (rewrite <- app_assoc; reflexivity).
    rewrite extractCustomHeaders_snoc.
    assert (IH' : assoc k (extractCustomHeaders (before ++ (name, v) :: after)) = Some v).
    { apply IH. intros n' w' I. apply (H n' w'). apply in_or_app. left. exact I. }
    destruct (customHeaderKey n) as [k0 |] eqn:CK; [| exact IH'].
    rewrite assoc_set_header_other; [exact IH' |].
    intro E. subst k0. apply customHeaderKey_some in CK. destruct CK as [CK _].
    apply (H n w); [apply in_or_app; right; left; reflexivity |]. congruence.
Qed.

(** X11.  The entries of a [Headers] object have pairwise distinct
    names.  Of such entries, every header [x-llmgateway-<key>] whose key
    is not [__proto__] is recorded under its key with its own value. *)
Theorem custom_header_value_is_recorded :
  forall (headers : list (string * string)) (name k v : string),
    NoDup (map (fun kv => toLowerCase (fst kv)) headers) ->
    In (name, v) headers ->
    toLowerCase name = ("x-llmgateway-" ++ k)%string ->
    k <> "__proto__" ->
    assoc k (extractCustomHeaders headers) = Some v.
Proof.
  intros headers name k v D I L NP.
  destruct (in_split _ _ I) as (before & after & E). subst headers.
  apply later_headers_keep_the_value; [exact L | exact NP |].
  intros name' v' I' Same.
  rewrite map_app in D. cbn [map fst] in D. apply NoDup_remove_2 in D.
  apply D. apply in_or_app. right. rewrite <- Same.
  apply (in_map (fun kv => toLowerCase (fst kv)) after (name', v')). exact I'.
Qed.

Lemma custom_header_value_is_recorded_witness :
  assoc "user"
    (extractCustomHeaders
       [("accept", "*/*"); ("x-llmgateway-team", "t"); ("x-llmgateway-user", "b")])
  = Some "b".
Proof.
  apply (custom_header_value_is_recorded _ "x-llmgateway-user" "user" "b").
  - repeat constructor; cbn; intuition discriminate.
  - right. right. left. reflexivity.
  - reflexivity.
  - discriminate.
Defined.




(** ** Normalised responses *)

Lemma lower_ascii_idem (c : ascii) : lower_ascii (lower_ascii c) = lower_ascii c.
Proof. destruct c as [[] [] [] [] [] [] [] []]; reflexivity. Qed.

Lemma toLowerCase_idem (s : string) : toLowerCase (toLowerCase s) = toLowerCase s.
Proof.
  induction s as [| c s IH]; [reflexivity |].
  cbn [toLowerCase]. rewrite lower_ascii_idem, IH. reflexivity.
Qed.

Lemma lower_or_stop_lowercase (r : option string) : lowercase (lower_or_stop r).
Proof.
  unfold lower_or_stop, str_or_null.
  destruct r as [[| c s] |]; cbn [option_map truthy_str toLowerCase];
    try (split; [discriminate | reflexivity]).
  split; [discriminate |].
  change (toLowerCase (toLowerCase (String c s)) = toLowerCase (String c s)).
  apply toLowerCase_idem.
Qed.

(** X13.  The finish reason of a unary response of Anthropic or of a
    Google provider, as the gateway returns it, is a non-empty string
    without upper-case letters. *)
Theorem normalized_finish_reason_is_lowercase :
  forall (now : Z) (usedProvider : Provider) (usedModel : string) (json : Json)
         (content reasoningContent finishReason : option string)
         (promptTokens completionTokens totalTokens reasoningTokens cachedTokens : option Q)
         (toolCalls : Json),
    one_of usedProvider ("anthropic" :: google_family) = true ->
    exists reason,
      finish_reason_of
        (transformToOpenAIFormat now usedProvider usedModel json content
           reasoningContent finishReason promptTokens completionTokens totalTokens
           reasoningTokens cachedTokens toolCalls) = JStr reason
      /\ lowercase reason.
Proof.
  intros now usedProvider usedModel json content reasoningContent finishReason
    promptTokens completionTokens totalTokens reasoningTokens cachedTokens toolCalls P.
  unfold transformToOpenAIFormat.
  destruct (one_of usedProvider google_family) eqn:G.
  - eexists. split; [reflexivity |].
    unfold google_finish. destruct finishReason as [r |]; [| apply lower_or_stop_lowercase].
    destruct (String.eqb r "STOP"); [split; [discriminate | reflexivity] |].
    apply lower_or_stop_lowercase.
  - assert (A : String.eqb usedProvider "anthropic" = true).
    { unfold one_of in *. cbn [existsb] in P.
      destruct (String.eqb usedProvider "anthropic"); [reflexivity |].
      cbn [orb] in P. congruence. }
    rewrite A. eexists. split; [reflexivity |].
    unfold anthropic_finish. destruct finishReason as [r |]; [| apply lower_or_stop_lowercase].
    destruct (String.eqb r "end_turn"); [split; [discriminate | reflexivity] |].
    apply lower_or_stop_lowercase.
Qed.

Lemma normalized_finish_reason_is_lowercase_witness :
  exists reason,
    finish_reason_of
      (transformToOpenAIFormat 0 "google-vertex" "gemini-2.5-flash" JNull None None
         (Some "SAFETY") None None None None None JNull) = JStr reason
    /\ lowercase reason.
Proof.
  apply normalized_finish_reason_is_lowercase. reflexivity.
Defined.



(** ** The read loop *)

Lemma substring_length_le (s : string) (n m : nat) :
  (String.length (String.substring n m s) <= m)%nat.
Proof.
  revert n m. induction s as [| c s IH]; intros n m.
  - destruct n, m; cbn; lia.
  - destruct n as [| n].
    + destruct m as [| m]; cbn [String.substring String.length]; [lia |].
      specialize (IH 0%nat m). lia.
    + cbn [String.substring]. apply IH.
Qed.

Lemma suffix_from_shorter (s : string) (from : nat) :
  (0 < from)%nat -> (0 < String.length s)%nat ->
  (String.length (suffix_from from s) < String.length s)%nat.
Proof.
  intros F L. unfold suffix_from.
  pose proof (substring_length_le s from (String.length s - from)). lia.
Qed.

Lemma index_ge (s2 : string) (n : nat) (s1 : string) (m : nat) :
  String.index n s1 s2 = Some m -> (n <= m)%nat.
Proof.
  revert n m. induction s2 as [| b s2 IH]; intros n m H.
  - cbn [String.index] in H. destruct n; [lia |]. discriminate H.
  - cbn [String.index] in H. destruct n as [| n]; [lia |].
    destruct (String.index n s1 s2) as [k |] eqn:E; [| discriminate H].
    inversion H; subst. specialize (IH n k E). lia.
Qed.

Lemma scanGoogle_fuel (env : Env) (p : Provider) (m : string)
    (fuel1 fuel2 : nat) (st : StreamState) :
  (String.length (st_buffer st) < fuel1)%nat ->
  (String.length (st_buffer st) < fuel2)%nat ->
  scanGoogle env fuel1 p m st = scanGoogle env fuel2 p m st.
Proof.
  revert fuel2 st. induction fuel1 as [| f1 IH]; intros fuel2 st H1 H2; [lia |].
  destruct fuel2 as [| f2]; [lia |].
  cbn [scanGoogle]. cbv zeta.
  destruct (st_thrown st); [reflexivity |].
  destruct (Nat.ltb 0 (String.length (st_buffer st))) eqn:L; [| reflexivity].
  apply Nat.ltb_lt in L.
  destruct (String.index 0 "{" (st_buffer st)) as [jsonStartIndex |]; [| reflexivity].
  destruct (tryParseJSON env (st_buffer st) jsonStartIndex) as [[data endIndex] |].
  - pose proof (suffix_from_shorter (st_buffer st) (endIndex + 1)) as S.
    apply IH; unfold onGoogleObject; destruct (transformThrows p data);
      cbn [st_buffer set_thrown set_buffer]; lia.
  - destruct (String.index (jsonStartIndex + 1) "{" (st_buffer st)) as [nextStart |] eqn:N;
      [| reflexivity].
    pose proof (index_ge _ _ _ _ N).
    pose proof (suffix_from_shorter (st_buffer st) nextStart) as S.
    apply IH; cbn [st_buffer set_buffer]; lia.
Qed.

(** X15.  The loop of the Google scanner ends within as many turns as
    the buffer has characters, and one more: with more fuel than that
    the result is the same.  (Every turn that goes on drops at least
    one character of the buffer.) *)
Theorem google_scanner_needs_no_more_fuel :
  forall (env : Env) (usedProvider : Provider) (usedModel : string)
         (st : StreamState) (fuel : nat),
    (String.length (st_buffer st) < fuel)%nat ->
    scanGoogle env fuel usedProvider usedModel st
    = scanGoogle env (S (String.length (st_buffer st))) usedProvider usedModel st.
Proof. intros. apply scanGoogle_fuel; lia. Qed.

Lemma google_scanner_needs_no_more_fuel_witness :
  let env :=
    Demo.deployment "credits" None ["google-ai-studio"] [] false (fun _ => None)
      (Demo.ok_stream Demo.google_events) NoAbort in
  let st := set_buffer ("[" ++ Demo.google_object ++ "]")%string initial_state in
  scanGoogle env 1000 "google-ai-studio" "gemini-2.5-flash" st
  = scanGoogle env (S (String.length (st_buffer st))) "google-ai-studio"
      "gemini-2.5-flash" st.
Proof.
  intros env st. apply google_scanner_needs_no_more_fuel. vm_compute. lia.
Defined.

Lemma data_line (env : Env) (req : Request) (p : Provider) (m : string)
    (st : StreamState) (text : string) (data : Json) :
  JSON_parse env text = Some data -> text <> "[DONE]" ->
  onLine env req p m st ("data: " ++ text)
  = if transformThrows p data then st else onDataLine env req p m data st.
Proof.
  intros P D. unfold onLine, startsWith.
  rewrite prefix_app.
  replace (String.eqb ("data: " ++ text) "data: [DONE]") with false.
  - change 6%nat with (String.length "data: "). rewrite substring_app, P. reflexivity.
  - symmetry. apply String.eqb_neq. intro E.
    change "data: [DONE]" with ("data: " ++ "[DONE]")%string in E.
    apply app_inv_head_string in E. contradiction.
Qed.

(** X16.  Of the lines [data: <payload>] whose payloads parse, those at
    whose payload the transformation does not throw are answered with
    one event each, the transformed payloads in the order of the lines;
    a line at whose payload it throws is answered with none.  The
    content collected for the log is what it was, followed by the texts
    of the answered payloads; the buffer is left as it is.  The payloads
    are taken to hold a string or nothing where the loop appends a text,
    and a number or nothing where it adds the output tokens of an
    Anthropic usage. *)
Theorem data_lines_are_forwarded_in_order :
  forall (env : Env) (req : Request) (usedProvider : Provider) (usedModel : string)
         (payloads : list (string * Json)) (st : StreamState),
    (forall text data, In (text, data) payloads ->
       JSON_parse env text = Some data /\ text <> "[DONE]"
       /\ typed_chunk usedProvider data = true) ->
    let answered :=
      filter (fun td => negb (transformThrows usedProvider (snd td))) payloads in
    let st' :=
      fold_left (onLine env req usedProvider usedModel)
        (map (fun td => ("data: " ++ fst td)%string) payloads) st in
    st_out st'
    = st_out st
      ++ map (fun td =>
                data_event
                  (completeAnthropicUsage req usedProvider
                     (transformStreamingChunkToOpenAIFormat (now env) usedProvider
                        usedModel (snd td))))
          answered
    /\ st_fullContent st'
       = (st_fullContent st
          ++ String.concat EmptyString
               (map (fun td => extractContentFromProvider (snd td) usedProvider)
                  answered))%string
    /\ st_buffer st' = st_buffer st.
Proof.
  intros env req usedProvider usedModel payloads.
  induction payloads as [| [text data] payloads IH]; intros st H; cbv zeta.
  - cbn. rewrite app_nil_r, append_nil_r. repeat split.
  - cbn [map fold_left fst snd filter].
    destruct (H text data (or_introl eq_refl)) as (P & D & _).
    rewrite (data_line env req usedProvider usedModel st text data P D).
    assert (H' : forall t d, In (t, d) payloads ->
                 JSON_parse env t = Some d /\ t <> "[DONE]"
                 /\ typed_chunk usedProvider d = true)
      by (intros t d I; apply H; right; exact I).
    destruct (transformThrows usedProvider data); cbn [negb].
    + exact (IH st H').
    + destruct (IH (onDataLine env req usedProvider usedModel data st) H')
        as (I1 & I2 & I3).
      cbv zeta in I1, I2, I3. rewrite I1, I2, I3.
      cbn [onDataLine st_out st_fullContent st_buffer map fst snd].
      split; [rewrite <- app_assoc; reflexivity |]. split; [| reflexivity].
      rewrite append_assoc. f_equal.
      destruct (filter _ payloads) as [| q rest]; cbn [map String.concat].
      * rewrite append_nil_r. reflexivity.
      * reflexivity.
Qed.

Lemma data_lines_are_forwarded_in_order_witness :
  let env :=
    Demo.deployment "credits" None ["openai"] [] false (fun _ => None)
      (Demo.ok_stream Demo.openai_events) NoAbort in
  let req := Demo.chat (Some "Bearer sk-demo") "gpt-4o-mini" true in
  let st :=
    fold_left (onLine env req "openai" "gpt-4o-mini")
      ["data: " ++ Demo.openai_first; "data: " ++ Demo.openai_malformed;
       "data: " ++ Demo.openai_last]%string
      initial_state in
  st_fullContent st = "Hi" /\ List.length (st_out st) = 2%nat.
Proof.
  intros env req st.
  pose (payload := fun n => nth n Demo.known_payloads (EmptyString, JNull)).
  destruct (data_lines_are_forwarded_in_order env req "openai" "gpt-4o-mini"
              [payload 0%nat; payload 7%nat; payload 1%nat] initial_state)
    as (O & C & _).
  - intros text data H. cbn [payload nth Demo.known_payloads In] in H.
    destruct H as [H | [H | [H | []]]]; inversion H; subst;
      (split; [vm_compute; reflexivity |]); (split; [| vm_compute; reflexivity]);
      vm_compute; discriminate.
  - cbv zeta in O, C. split.
    + unfold st. etransitivity; [exact C |]. vm_compute. reflexivity.
    + unfold st. etransitivity; [apply (f_equal (@List.length _) O) |]. reflexivity.
Defined.



(** ** The auto top-up pass *)

Section TopUpPass.

Import AutoTopUp.

(** What the pass for one organization does to the datastore: nothing,
    or one more transaction. *)
Lemma topUpOrganization_appends (now : Z) (pay : Payments) (db : DB)
    (org : Organization) :
  locks (topUpOrganization now pay db org) = locks db
  /\ organizations (topUpOrganization now pay db org) = organizations db
  /\ paymentMethods (topUpOrganization now pay db org) = paymentMethods db
  /\ (transactions (topUpOrganization now pay db org) = transactions db
      \/ exists t,
           transactions (topUpOrganization now pay db org) = transactions db ++ [t]
           /\ t_organizationId t = org_id org
           /\ t_type t = "credit_topup"
           /\ t_createdAt t = now
           /\ (t_status t = "pending" \/ t_status t = "failed")
           /\ t_id t = fresh_id (transactions db)
           /\ skipsFor now (recentTransaction (org_id org) db) = false
           /\ exists m, In m (paymentMethods db)
                        /\ pm_organizationId m = org_id org /\ pm_isDefault m = true).
Proof.
  unfold topUpOrganization.
  destruct (skipsFor now (recentTransaction (org_id org) db)) eqn:SK;
    [repeat split; left; reflexivity |].
  destruct (find _ (paymentMethods db)) as [defaultPaymentMethod |] eqn:F;
    [| repeat split; left; reflexivity].
  destruct (paymentMethods_retrieve pay _) as [cardCountry |];
    [| repeat split; left; reflexivity].
  cbv zeta. cbn [t_id].
  assert (D : exists m, In m (paymentMethods db)
                        /\ pm_organizationId m = org_id org /\ pm_isDefault m = true).
  { exists defaultPaymentMethod. destruct (find_some _ _ F) as [I E].
    apply andb_prop in E. destruct E as [E1 E2]. apply String.eqb_eq in E1.
    repeat split; assumption. }
  destruct (paymentIntents_create pay (org_id org) _) as [message | intent status].
  - rewrite update_fresh by reflexivity.
    cbn [transactions locks organizations paymentMethods with_transactions].
    repeat split. right. eexists. split; [reflexivity |].
    cbn. repeat split; auto.
  - rewrite update_fresh by reflexivity.
    destruct (String.eqb status "succeeded" || String.eqb status "requires_action")%bool.
    + cbn [transactions locks organizations paymentMethods with_transactions].
      repeat split. right. eexists. split; [reflexivity |].
      cbn. repeat split; auto.
    + rewrite update_fresh by reflexivity.
      cbn [transactions locks organizations paymentMethods with_transactions].
      repeat split. right. eexists. split; [reflexivity |].
      cbn. repeat split; auto.
Qed.

Lemma fold_topUp_appends (now : Z) (pay : Payments) (db0 : DB)
    (orgs : list Organization) (db : DB) :
  (forall org, In org orgs -> In org (organizations db0)
                              /\ autoTopUpEnabled org = true /\ needsTopUp org = true) ->
  paymentMethods db = paymentMethods db0 ->
  (exists added0, transactions db = transactions db0 ++ added0
                  /\ Forall (added_by_the_pass now db0) added0) ->
  let db' := fold_left (topUpOrganization now pay) orgs db in
  locks db' = locks db
  /\ organizations db' = organizations db
  /\ paymentMethods db' = paymentMethods db
  /\ exists added, transactions db' = transactions db0 ++ added
                   /\ Forall (added_by_the_pass now db0) added.
Proof.
  revert db. induction orgs as [| org orgs IH]; intros db Ho Hp Ht; cbv zeta.
  - cbn [fold_left]. repeat split. exact Ht.
  - cbn [fold_left].
    destruct (topUpOrganization_appends now pay db org) as (L & O & P & T).
    destruct (IH (topUpOrganization now pay db org)) as (L' & O' & P' & T').
    + intros o I. apply Ho. right. exact I.
    + rewrite P. exact Hp.
    + destruct Ht as (added0 & E0 & F0).
      destruct T as [T | (t & T & T1 & T2 & T3 & T4 & T5 & _ & m & M1 & M2 & M3)].
      * exists added0. rewrite T. split; assumption.
      * exists (added0 ++ [t]). rewrite T, E0, <- app_assoc. split; [reflexivity |].
        apply Forall_app. split; [exact F0 |]. constructor; [| constructor].
        destruct (Ho org (or_introl eq_refl)) as (I & En & Nd).
        unfold added_by_the_pass. repeat split; try assumption.
        -- intros old Io E. rewrite T5 in E.
           assert (Id : In old (transactions db))
             by (rewrite E0; apply in_or_app; left; exact Io).
           pose proof (ids_below_fresh _ _ Id). lia.
        -- exists org, m. rewrite <- Hp. repeat split; auto.
    + cbv zeta in L', O', P', T'.
      rewrite L', O', P', L, O, P. repeat split. exact T'.
Qed.

Lemma processAutoTopUp_appends (now : Z) (pay : Payments) (db : DB) :
  organizations (processAutoTopUp now pay db) = organizations db
  /\ paymentMethods (processAutoTopUp now pay db) = paymentMethods db
  /\ exists added,
       transactions (processAutoTopUp now pay db) = transactions db ++ added
       /\ Forall (added_by_the_pass now db) added.
Proof.
  unfold processAutoTopUp, acquireLock.
  destruct (existsb _ _); cbn [negb].
  - cbn. repeat split. exists []. rewrite app_nil_r. split; [reflexivity | constructor].
  - match goal with
    | |- context [fold_left _ ?orgs ?d] =>
        destruct (fold_topUp_appends now pay db orgs d) as (_ & O & P & T)
    end.
    + intros org I. cbn [organizations with_locks] in I.
      apply filter_In in I. destruct I as [I N]. apply filter_In in I.
      destruct I as [I E]. repeat split; assumption.
    + reflexivity.
    + exists []. cbn. rewrite app_nil_r. split; [reflexivity | constructor].
    + cbv zeta in O, P, T. unfold releaseLock.
      cbn [organizations paymentMethods transactions with_locks] in *.
      repeat split; assumption.
Qed.

(** X18.  A pass of [processAutoTopUp] leaves the organizations, the
    payment methods and every transaction it found as they are.  What
    it adds are top-up transactions created at the time of the pass,
    pending or failed, with fresh ids, each for an organization with
    auto top-up enabled, credits below its threshold and a default
    payment method. *)
Theorem pass_only_appends_topups :
  forall (now : Z) (pay : Payments) (db : DB),
    let after := processAutoTopUp now pay db in
    organizations after = organizations db
    /\ paymentMethods after = paymentMethods db
    /\ exists added,
         transactions after = transactions db ++ added
         /\ Forall (added_by_the_pass now db) added.
Proof. intros now pay db. exact (processAutoTopUp_appends now pay db). Qed.

Lemma fold_topUp_locks (now : Z) (pay : Payments) (orgs : list Organization) (db : DB) :
  locks (fold_left (topUpOrganization now pay) orgs db) = locks db.
Proof.
  revert db. induction orgs as [| org orgs IH]; intro db; [reflexivity |].
  cbn [fold_left]. rewrite IH. apply topUpOrganization_appends.
Qed.

Lemma filter_idem {A : Type} (f : A -> bool) (l : list A) :
  filter f (filter f l) = filter f l.
Proof.
  induction l as [| a l IH]; [reflexivity |].
  cbn [filter]. destruct (f a) eqn:E; [| exact IH].
  cbn [filter]. rewrite E, IH. reflexivity.
Qed.

Lemma filter_filter_neg (key : string) (expiry : Z) (l : list Lock) :
  filter (fun l => negb (String.eqb (lock_key l) key))
    (filter (fun l => negb (String.eqb (lock_key l) key && (lock_updatedAt l <? expiry)))
       l)
  = filter (fun l => negb (String.eqb (lock_key l) key)) l.
Proof.
  induction l as [| a l IH]; [reflexivity |].
  cbn [filter]. destruct (String.eqb (lock_key a) key) eqn:E; cbn [andb negb].
  - destruct (lock_updatedAt a <? expiry); cbn [negb filter]; [exact IH |].
    rewrite E. exact IH.
  - cbn [filter]. rewrite E. cbn [negb]. rewrite IH. reflexivity.
Qed.

(** X19.  A pass leaves the locks of other keys as they are.  When it
    acquires the lock it releases it: no lock of its key is left.  When
    it does not, it changes no transaction, and a lock of its key that
    is at most ten minutes old is in place. *)
Theorem pass_releases_its_lock :
  forall (now : Z) (pay : Payments) (db : DB),
    let after := processAutoTopUp now pay db in
    filter (fun l => negb (String.eqb (lock_key l) AUTO_TOPUP_LOCK_KEY)) (locks after)
    = filter (fun l => negb (String.eqb (lock_key l) AUTO_TOPUP_LOCK_KEY)) (locks db)
    /\ (fst (acquireLock now AUTO_TOPUP_LOCK_KEY db) = true ->
        forall l, In l (locks after) -> lock_key l <> AUTO_TOPUP_LOCK_KEY)
    /\ (fst (acquireLock now AUTO_TOPUP_LOCK_KEY db) = false ->
        transactions after = transactions db
        /\ exists l, In l (locks after) /\ lock_key l = AUTO_TOPUP_LOCK_KEY
                     /\ now - LOCK_DURATION_MINUTES * 60 * 1000 <= lock_updatedAt l).
Proof.
  intros now pay db. cbv zeta. unfold processAutoTopUp, acquireLock.
  destruct (existsb _ _) eqn:X; cbn [negb fst].
  - cbn [locks with_locks transactions].
    split; [apply filter_filter_neg |]. split; [discriminate |]. intros _.
    split; [reflexivity |].
    apply existsb_exists in X. destruct X as (l & I & K).
    exists l. split; [exact I |]. apply String.eqb_eq in K. split; [exact K |].
    apply filter_In in I. destruct I as [_ I].
    rewrite (proj2 (String.eqb_eq _ _) K) in I. cbn [andb] in I.
    apply negb_true_iff in I. apply Z.ltb_ge in I. exact I.
  - unfold releaseLock. cbn [locks with_locks]. rewrite fold_topUp_locks.
    cbn [locks with_locks].
    split.
    + rewrite filter_app. cbn [filter lock_key]. rewrite String.eqb_refl. cbn [negb].
      rewrite app_nil_r. fold AUTO_TOPUP_LOCK_KEY.
      rewrite filter_idem. apply filter_filter_neg.
    + split; [| discriminate]. intros _ l I. apply filter_In in I. destruct I as [_ I].
      apply negb_true_iff in I. apply String.eqb_neq in I. exact I.
Qed.

Lemma latest_max (l : list Transaction) (best : option Transaction) (r : Transaction) :
  latest best l = Some r ->
  (forall b, best = Some b -> t_createdAt b <= t_createdAt r)
  /\ (forall t, In t l -> t_createdAt t <= t_createdAt r)
  /\ (best = Some r \/ In r l).
Proof.
  revert best. induction l as [| a l IH]; intros best H.
  - cbn in H. subst best. split; [intros b E; inversion E; lia |].
    split; [intros t [] | left; reflexivity].
  - cbn [latest] in H. destruct best as [b |].
    + destruct (t_createdAt b <? t_createdAt a) eqn:E.
      * apply Z.ltb_lt in E. destruct (IH _ H) as (I1 & I2 & I3).
        specialize (I1 a eq_refl).
        split; [intros b' B; inversion B; subst; lia |].
        split; [intros t [<- | I]; [exact I1 | apply I2; exact I] |].
        right. destruct I3 as [I3 | I3]; [inversion I3; left; reflexivity | right; exact I3].
      * apply Z.ltb_ge in E. destruct (IH _ H) as (I1 & I2 & I3).
        specialize (I1 b eq_refl).
        split; [intros b' B; inversion B; subst; exact I1 |].
        split; [intros t [<- | I]; [lia | apply I2; exact I] |].
        destruct I3 as [I3 | I3]; [left; exact I3 | right; right; exact I3].
    + destruct (IH _ H) as (I1 & I2 & I3). specialize (I1 a eq_refl).
      split; [intros b B; discriminate B |].
      split; [intros t [<- | I]; [exact I1 | apply I2; exact I] |].
      right. destruct I3 as [I3 | I3]; [inversion I3; left; reflexivity | right; exact I3].
Qed.

Lemma latest_some (l : list Transaction) (best : option Transaction) :
  best <> None \/ l <> [] -> latest best l <> None.
Proof.
  revert best. induction l as [| a l IH]; intros best H.
  - cbn. destruct H as [H | H]; [exact H | congruence].
  - cbn [latest]. destruct best as [b |].
    + destruct (t_createdAt b <? t_createdAt a); apply IH; left; discriminate.
    + apply IH. left. discriminate.
Qed.

(** The pass leaves an organization alone whose latest top-up blocks. *)
Lemma blocked_pass (now : Z) (pay : Payments) (db : DB) (organizationId : string) :
  skipsFor now (recentTransaction organizationId db) = true ->
  transactions_of organizationId (processAutoTopUp now pay db)
  = transactions_of organizationId db.
Proof.
  intro B. unfold processAutoTopUp, acquireLock.
  destruct (existsb _ _); cbn [negb]; [reflexivity |].
  unfold releaseLock, transactions_of at 1. cbn [transactions with_locks].
  apply (fold_topUp_blocked now pay organizationId _ db); [exact B | reflexivity].
Qed.

(** The top-up a pass at [now] adds for an organization blocks the
    passes of the following hour. *)
Lemma added_topup_blocks (now later : Z) (pay : Payments) (db : DB)
    (organizationId : string) :
  (forall t, In t (transactions db) -> is_topup_of organizationId t = true ->
     t_createdAt t < now) ->
  now <= later < now + 60 * 60 * 1000 ->
  transactions_of organizationId (processAutoTopUp now pay db)
  <> transactions_of organizationId db ->
  skipsFor later (recentTransaction organizationId (processAutoTopUp now pay db)) = true.
Proof.
  intros Old Hl Changed. set (first := processAutoTopUp now pay db) in *.
  destruct (processAutoTopUp_appends now pay db) as (_ & _ & added & T & F).
  fold first in T.
  assert (N : exists t, In t added /\ t_organizationId t = organizationId).
  { destruct (existsb (fun t => String.eqb (t_organizationId t) organizationId) added)
      eqn:X.
    - apply existsb_exists in X. destruct X as (t & I & E). apply String.eqb_eq in E.
      exists t. split; assumption.
    - exfalso. apply Changed. unfold transactions_of. rewrite T, filter_app.
      replace (filter (fun t => String.eqb (t_organizationId t) organizationId) added)
        with (@nil Transaction); [apply app_nil_r |].
      symmetry. clear - X. induction added as [| a l IH]; [reflexivity |].
      cbn [existsb] in X. apply orb_false_elim in X. destruct X as [X1 X2].
      cbn [filter]. rewrite X1. apply IH. exact X2. }
  destruct N as (t & I & E).
  rewrite Forall_forall in F.
  assert (Tt : In t (filter (is_topup_of organizationId) (transactions first))).
  { apply filter_In. split; [rewrite T; apply in_or_app; right; exact I |].
    unfold is_topup_of. destruct (F t I) as (F1 & _). rewrite E, F1, String.eqb_refl.
    reflexivity. }
  unfold recentTransaction.
  destruct (latest None (filter (is_topup_of organizationId) (transactions first)))
    as [r |] eqn:L.
  - destruct (latest_max _ _ _ L) as (_ & M & [R | R]); [discriminate R |].
    specialize (M t Tt). destruct (F t I) as (_ & C & _). rewrite C in M.
    apply filter_In in R. destruct R as [R Ro]. rewrite T in R. apply in_app_or in R.
    destruct R as [R | R]; [specialize (Old r R Ro); lia |].
    destruct (F r R) as (_ & Cr & Sr & _).
    unfold skipsFor. rewrite Cr.
    replace (later - 60 * 60 * 1000 <? now) with true by (symmetry; apply Z.ltb_lt; lia).
    destruct Sr as [Sr | Sr]; rewrite Sr; reflexivity.
  - exfalso. apply (latest_some (filter (is_topup_of organizationId) (transactions first))
                      None); [| exact L].
    right. intro Em. rewrite Em in Tt. exact Tt.
Qed.

(** X20.  When a pass adds a top-up for an organization all of whose
    earlier top-ups are older, the transaction it leaves, pending or
    failed, blocks the passes of the following hour for as long as the
    transactions of the organization stay as that pass left them: such
    a pass, on any database in which they do, adds no top-up for the
    organization and changes none of its transactions; so does any
    sequence of such passes run one after the other.  (Nothing is said
    of a database in which a transaction of the organization was
    written in between, as when the payment webhook marks the top-up
    succeeded.) *)
Theorem topup_is_not_repeated_within_the_hour :
  forall (now : Z) (pay : Payments) (db : DB) (organizationId : string),
    (forall t, In t (transactions db) -> is_topup_of organizationId t = true ->
       t_createdAt t < now) ->
    let first := processAutoTopUp now pay db in
    transactions_of organizationId first <> transactions_of organizationId db ->
    (forall (later : Z) (pay' : Payments) (db' : DB),
       now <= later < now + 60 * 60 * 1000 ->
       transactions_of organizationId db' = transactions_of organizationId first ->
       transactions_of organizationId (processAutoTopUp later pay' db')
       = transactions_of organizationId first)
    /\ (forall passes : list (Z * Payments),
          Forall (fun p => now <= fst p < now + 60 * 60 * 1000) passes ->
          transactions_of organizationId
            (fold_left (fun d p => processAutoTopUp (fst p) (snd p) d) passes first)
          = transactions_of organizationId first).
Proof.
  intros now pay db organizationId Old first Changed.
  assert (One : forall (later : Z) (pay' : Payments) (db' : DB),
             now <= later < now + 60 * 60 * 1000 ->
             transactions_of organizationId db' = transactions_of organizationId first ->
             transactions_of organizationId (processAutoTopUp later pay' db')
             = transactions_of organizationId first).
  { intros later pay' db' Hl Same. rewrite <- Same. apply blocked_pass.
    rewrite (recentTransaction_of organizationId first db' Same).
    apply added_topup_blocks; assumption. }
  split; [exact One |].
  intros passes. generalize (eq_refl (transactions_of organizationId first)).
  generalize first at 1 3. induction passes as [| [later pay'] passes IH];
    intros d Same W; [exact Same |].
  cbn [fold_left fst snd]. inversion W as [| x xs Wx Wxs]; subst.
  apply IH; [| exact Wxs]. apply One; [exact Wx | exact Same].
Qed.

Lemma existsb_filter_false {A : Type} (f g : A -> bool) (l : list A) :
  existsb f l = false -> existsb f (filter g l) = false.
Proof.
  induction l as [| a l IH]; intro H; [reflexivity |].
  cbn [existsb] in H. apply orb_false_elim in H. destruct H as [H1 H2].
  cbn [filter]. destruct (g a); cbn [existsb]; [rewrite H1 |]; apply IH; exact H2.
Qed.

Lemma acquireLock_true (now : Z) (key : string) (db : DB) :
  fst (acquireLock now key db) = true ->
  exists kept,
    existsb (fun l => String.eqb (lock_key l) key) kept = false
    /\ snd (acquireLock now key db)
       = with_locks (kept ++ [{| lock_key := key; lock_updatedAt := now |}]) db.
Proof.
  unfold acquireLock. destruct (existsb _ _) eqn:X; cbn [fst snd]; [discriminate |].
  intros _. eexists. split; [exact X | reflexivity].
Qed.

(** X21.  A lock that was acquired at [now] is acquired again at
    [later] exactly when more than ten minutes have passed, and at any
    time once it was released. *)
Theorem lock_is_held_for_ten_minutes :
  forall (now later : Z) (key : string) (db : DB),
    fst (acquireLock now key db) = true ->
    let held := snd (acquireLock now key db) in
    (fst (acquireLock later key held) = true
     <-> now < later - LOCK_DURATION_MINUTES * 60 * 1000)
    /\ fst (acquireLock later key (releaseLock key held)) = true.
Proof.
  intros now later key db H. cbv zeta.
  destruct (acquireLock_true now key db H) as (kept & X & S). rewrite S. clear S H.
  split.
  - unfold acquireLock. cbn [locks with_locks]. rewrite filter_app.
    cbn [filter lock_key lock_updatedAt]. rewrite String.eqb_refl. cbn [andb].
    rewrite existsb_app, (existsb_filter_false _ _ _ X). cbn [orb].
    destruct (now <? later - LOCK_DURATION_MINUTES * 60 * 1000) eqn:E; cbn [negb existsb fst].
    + apply Z.ltb_lt in E. split; [intros _; exact E | reflexivity].
    + apply Z.ltb_ge in E. cbn [lock_key]. rewrite String.eqb_refl. cbn.
      unfold LOCK_DURATION_MINUTES in *. split; [discriminate | intro; exfalso; lia].
  - unfold acquireLock, releaseLock. cbn [locks with_locks].
    match goal with
    | |- fst (if ?b then _ else _) = true => replace b with false; [reflexivity |]
    end.
    symmetry. apply existsb_filter_false.
    rewrite filter_app. cbn [filter lock_key]. rewrite String.eqb_refl. cbn [negb].
    rewrite app_nil_r. clear X.
    induction kept as [| a l IH]; [reflexivity |].
    cbn [filter]. destruct (String.eqb (lock_key a) key) eqn:E; cbn [negb]; [exact IH |].
    cbn [existsb]. rewrite E. exact IH.
Qed.

End TopUpPass.

(** ** The log queue worker *)

Section WorkerPass.

Import Worker.


Lemma assoc_addCost_same (w : WorkerEnv) (org : string) (a : Q) (l : list (string * Q)) :
  assoc org (addCost w org a l) = Some (js_add w (num_or_zero (assoc org l)) a).
Proof.
  induction l as [| [k v] l IH]; cbn [addCost assoc].
  - rewrite String.eqb_refl. reflexivity.
  - rewrite (String.eqb_sym k org). destruct (String.eqb org k) eqn:E; cbn [assoc].
    + rewrite E. reflexivity.
    + rewrite E. exact IH.
Qed.

Lemma assoc_addCost_other (w : WorkerEnv) (org org' : string) (a : Q)
    (l : list (string * Q)) :
  org <> org' -> assoc org (addCost w org' a l) = assoc org l.
Proof.
  intro N. induction l as [| [k v] l IH]; cbn [addCost assoc].
  - rewrite (eqb_false_of_neq _ _ N). reflexivity.
  - destruct (String.eqb k org') eqn:E; cbn [assoc].
    + apply String.eqb_eq in E. subst k. rewrite (eqb_false_of_neq _ _ N). reflexivity.
    + destruct (String.eqb org k); [reflexivity | exact IH].
Qed.

Lemma addCost_keys (w : WorkerEnv) (org a0 : string) (a : Q) (l : list (string * Q)) :
  In a0 (map fst (addCost w org a l)) <-> a0 = org \/ In a0 (map fst l).
Proof.
  induction l as [| [k v] l IH]; cbn [addCost map fst In].
  - split; [intros [H | []]; left; congruence | intros [H | []]; left; congruence].
  - destruct (String.eqb k org) eqn:E; cbn [map fst In].
    + apply String.eqb_eq in E. subst k. split; [intros [H | H] | intros [H | [H | H]]]; auto.
    + rewrite IH. split; [intros [H | [H | H]] | intros [H | [H | H]]]; auto.
Qed.

Lemma addCost_NoDup (w : WorkerEnv) (org : string) (a : Q) (l : list (string * Q)) :
  NoDup (map fst l) -> NoDup (map fst (addCost w org a l)).
Proof.
  induction l as [| [k v] l IH]; cbn [addCost map fst]; intro H.
  - constructor; [intros [] | constructor].
  - destruct (String.eqb k org) eqn:E; cbn [map fst].
    + exact H.
    + inversion H as [| x xs Hx Hxs]; subst. constructor; [| apply IH; exact Hxs].
      intro I. apply addCost_keys in I. destruct I as [I | I]; [| contradiction].
      subst k. rewrite String.eqb_refl in E. discriminate E.
Qed.

Lemma creditUpdates_fold (w : WorkerEnv) (logData : list LogRow) :
  creditUpdates w logData = fold_left (creditStep w) logData [].
Proof.
  unfold creditUpdates. generalize (@nil (string * Q)).
  induction logData as [| data rest IH]; intro acc; [reflexivity |].
  cbn [fold_left]. rewrite IH. f_equal.
  unfold creditStep, billable.
  destruct (truthy_num (cost data)), (cached data); cbn [negb orb andb]; try reflexivity.
  destruct (projectMode w (projectId (base data))) as [m |]; [| reflexivity].
  destruct (String.eqb m "api-keys"); reflexivity.
Qed.

(** The map of the credit updates holds each organization once, with
    the total of its costs. *)
Lemma creditStep_fold (w : WorkerEnv) (org : string) (logData : list LogRow)
    (acc : list (string * Q)) :
  NoDup (map fst acc) ->
  NoDup (map fst (fold_left (creditStep w) logData acc))
  /\ assoc org (fold_left (creditStep w) logData acc)
     = fold_left (fun total c => Some (js_add w (num_or_zero total) c))
         (costs_of w org logData) (assoc org acc).
Proof.
  revert acc. induction logData as [| data rest IH]; intros acc H.
  - cbn. split; [exact H | reflexivity].
  - cbn [fold_left].
    assert (H' : NoDup (map fst (creditStep w acc data))).
    { unfold creditStep. destruct (billable w data); [apply addCost_NoDup |]; exact H. }
    destruct (IH _ H') as [I1 I2]. split; [exact I1 |]. rewrite I2.
    unfold costs_of, creditStep. cbn [filter].
    destruct (billable w data); cbn [andb]; [| reflexivity].
    destruct (String.eqb (organizationId (base data)) org) eqn:E.
    + apply String.eqb_eq in E. rewrite E, assoc_addCost_same. reflexivity.
    + apply String.eqb_neq in E.
      rewrite assoc_addCost_other by congruence. reflexivity.
Qed.

Lemma assoc_debit (w : WorkerEnv) (org : string) (credits : list (string * Q))
    (update : string * Q) :
  assoc org (debit w credits update)
  = match assoc org credits with
    | Some c =>
        Some (if String.eqb org (fst update) then sql_subtract w c (snd update) else c)
    | None => None
    end.
Proof.
  unfold debit. induction credits as [| [k c] l IH]; [reflexivity |].
  cbn [map fst snd assoc].
  destruct (String.eqb k (fst update)) eqn:E; cbn [assoc fst snd].
  - destruct (String.eqb org k) eqn:O; [| exact IH].
    apply String.eqb_eq in O. subst k. rewrite E. reflexivity.
  - destruct (String.eqb org k) eqn:O; [| exact IH].
    apply String.eqb_eq in O. subst k. rewrite E. reflexivity.
Qed.

Lemma assoc_fold_debit_absent (w : WorkerEnv) (org : string)
    (updates credits : list (string * Q)) :
  ~ In org (map fst updates) ->
  assoc org (fold_left (debit w) updates credits) = assoc org credits.
Proof.
  revert credits. induction updates as [| [k v] l IH]; intros credits H; [reflexivity |].
  cbn [fold_left]. rewrite IH by (intro I; apply H; right; exact I).
  rewrite assoc_debit. cbn [fst].
  replace (String.eqb org k) with false; [destruct (assoc org credits); reflexivity |].
  symmetry. apply String.eqb_neq. intro E. apply H. left. symmetry. exact E.
Qed.

(** Every organization of the updates is debited once. *)
Lemma assoc_fold_debit (w : WorkerEnv) (org : string) (updates credits : list (string * Q))
    (balance : Q) :
  NoDup (map fst updates) ->
  assoc org credits = Some balance ->
  assoc org (fold_left (debit w) updates credits)
  = Some (match assoc org updates with
          | Some totalCost => sql_subtract w balance totalCost
          | None => balance
          end).
Proof.
  revert credits balance. induction updates as [| [k v] l IH]; intros credits balance D H.
  - exact H.
  - inversion D as [| x xs Dx Dxs]; subst. cbn [fold_left assoc map fst] in *.
    destruct (String.eqb org k) eqn:E.
    + apply String.eqb_eq in E. subst k.
      rewrite assoc_fold_debit_absent by exact Dx.
      rewrite assoc_debit, H. cbn [fst snd]. rewrite String.eqb_refl. reflexivity.
    + apply (IH _ _ Dxs). rewrite assoc_debit, H. cbn [fst]. rewrite E. reflexivity.
Qed.

(** X23.  A pass in which no call throws debits an organization once,
    by the total of the costs of its billable rows of the batch: the
    rows with a cost that were not served from the cache and whose
    project is not in api-keys mode.  The total is formed as the source
    forms it, the costs added one after the other in the order of the
    rows, by the addition of the engine; it is subtracted by the
    datastore.  The rounding of both operations is left open, so that
    nothing is said on whether the total is the exact sum.  An
    organization without a billable row keeps its balance. *)
Theorem credits_are_debited_by_the_cost_of_billable_rows :
  forall (w : WorkerEnv) (s : State) (org : string) (balance : Q),
    mainQueue (queues s) <> [] ->
    assoc org (creditsOf (store s)) = Some balance ->
    let rows := somes (map (JSON_parse w) (firstn 10 (mainQueue (queues s)))) in
    assoc org (creditsOf (store (fst (processLogQueue w NoFault s))))
    = Some (match js_total w (costs_of w org rows) with
            | Some totalCost => sql_subtract w balance totalCost
            | None => balance
            end).
Proof.
  intros w s org balance MQ B. cbv zeta.
  unfold processLogQueue, moveToProcessingQueue.
  destruct (mainQueue (queues s)) as [| m ms] eqn:E; [congruence |].
  rewrite <- E in *. clear E m ms MQ.
  cbv zeta beta iota.
  destruct (somes (map (JSON_parse w) (firstn 10 (mainQueue (queues s)))))
    as [| row rest] eqn:R.
  - cbn. exact B.
  - cbn [fst snd store creditsOf with_queues].
    destruct (creditStep_fold w org (row :: rest) [] (NoDup_nil _)) as [N S].
    rewrite <- creditUpdates_fold in N, S.
    rewrite (assoc_fold_debit w org _ _ balance N B), S. reflexivity.
Qed.

Lemma processLogQueue_threw (w : WorkerEnv) (fault : Fault) (s : State) :
  snd (processLogQueue w fault s) = Threw <-> fault = ClaimThrows.
Proof.
  split; [| intro E; subst fault; reflexivity].
  unfold processLogQueue, moveToProcessingQueue, recover.
  destruct fault as [| | step recoveryThrows]; [| reflexivity |].
  - destruct (mainQueue (queues s)); [discriminate |]. cbv zeta beta iota.
    destruct (somes _); discriminate.
  - destruct (mainQueue (queues s)); [discriminate |]. cbv zeta beta iota.
    destruct (somes _).
    + destruct step, recoveryThrows; discriminate.
    + destruct step as [| | | after |]; cbv beta iota;
        try destruct (existsb _ _); try destruct (Nat.ltb after _);
        destruct recoveryThrows; discriminate.
Qed.

Lemma turn_counts (w : WorkerEnv) (count : nat) (r : Running) (t : Turn) :
  (completes t = false ->
   billing (turn w count r t) = billing r
   /\ autoTopUpCounter (turn w count r t) = autoTopUpCounter r)
  /\ (completes t = true -> (S (autoTopUpCounter r) < count)%nat ->
      billing (turn w count r t) = billing r
      /\ autoTopUpCounter (turn w count r t) = S (autoTopUpCounter r))
  /\ (completes t = true -> (count <= S (autoTopUpCounter r))%nat ->
      billing (turn w count r t)
      = AutoTopUp.processAutoTopUp (turn_now t) (turn_payments t) (billing r)
      /\ autoTopUpCounter (turn w count r t) = 0%nat).
Proof.
  unfold turn, completes.
  pose proof (processLogQueue_threw w (turn_fault t) (state r)) as T.
  destruct (processLogQueue w (turn_fault t) (state r)) as [s o]. cbn [snd] in T.
  split; [| split].
  - intro C. assert (E : turn_fault t = ClaimThrows)
      by (destruct (turn_fault t); [discriminate | reflexivity | discriminate]).
    apply T in E. subst o. split; reflexivity.
  - intros C L.
    assert (N : o <> Threw).
    { intro E. apply T in E. rewrite E in C. discriminate C. }
    apply Nat.leb_gt in L. destruct o; try congruence; rewrite L; split; reflexivity.
  - intros C L.
    assert (N : o <> Threw).
    { intro E. apply T in E. rewrite E in C. discriminate C. }
    apply Nat.leb_le in L. destruct o; try congruence; rewrite L; split; reflexivity.
Qed.

Lemma turns_before_the_pass (w : WorkerEnv) (count : nat) (turns : list Turn)
    (r : Running) :
  (autoTopUpCounter r + List.length (filter completes turns) < count)%nat ->
  billing (fold_left (turn w count) turns r) = billing r
  /\ autoTopUpCounter (fold_left (turn w count) turns r)
     = (autoTopUpCounter r + List.length (filter completes turns))%nat.
Proof.
  revert r. induction turns as [| t turns IH]; intros r H.
  - cbn. split; [reflexivity | lia].
  - cbn [fold_left filter] in *.
    destruct (turn_counts w count r t) as (T1 & T2 & _).
    destruct (completes t) eqn:C.
    + cbn [List.length] in H. destruct (T2 eq_refl) as [B K]; [lia |].
      destruct (IH (turn w count r t)) as [I1 I2]; [rewrite K; lia |].
      rewrite I1, I2, B, K. cbn [List.length]. split; [reflexivity | lia].
    + destruct (T1 eq_refl) as [B K].
      destruct (IH (turn w count r t)) as [I1 I2]; [rewrite K; exact H |].
      rewrite I1, I2, B, K. split; reflexivity.
Qed.

(** X24.  The worker runs the auto top-up on the turn that brings the
    number of completed turns (those whose pass over the log queue does
    not throw) to [count], 120 in production and 5 otherwise, and not
    before; it then starts counting again. *)
Theorem auto_topup_runs_on_the_count_th_completed_turn :
  forall (w : WorkerEnv) (production startupRecoveryThrows : bool)
         (turns : list Turn) (s : State) (db : AutoTopUp.DB),
    let count := if production then 120%nat else 5%nat in
    let completed := List.length (filter completes turns) in
    (completed < count)%nat ->
    let r := startWorker w false production startupRecoveryThrows turns s db in
    billing r = db
    /\ autoTopUpCounter r = completed
    /\ (forall t, completes t = true -> completed = (count - 1)%nat ->
        let r' :=
          startWorker w false production startupRecoveryThrows (turns ++ [t]) s db in
        billing r' = AutoTopUp.processAutoTopUp (turn_now t) (turn_payments t) db
        /\ autoTopUpCounter r' = 0%nat).
Proof.
  intros w production startupRecoveryThrows turns s db count completed H. cbv zeta.
  unfold startWorker. fold count.
  destruct (turns_before_the_pass w count turns
              {| state := recoverOnStartup startupRecoveryThrows s; billing := db;
                 autoTopUpCounter := 0 |}) as [B K]; [exact H |].
  cbn [billing autoTopUpCounter] in B, K.
  split; [exact B |]. split; [exact K |].
  intros t C E. rewrite fold_left_app. cbn [fold_left].
  match goal with
  | |- context [turn w count ?r t] =>
      destruct (turn_counts w count r t) as (_ & _ & T3)
  end.
  destruct (T3 C) as [B' K']; [rewrite K; fold completed; subst count; destruct production; lia |].
  rewrite B', K', B. split; reflexivity.
Qed.

End WorkerPass.

(** ** Concrete runs of the worker and the auto top-up *)

Lemma provider_prefix_is_split_at_the_first_slash_witness :
  resolveRequested
    (Demo.deployment "hybrid" None ["openai"] [] false (fun _ => None)
       (Demo.ok_json Demo.openai_completion) NoAbort)
    (Demo.chat None "acme/llama/3-70b" false)
  = ret {| rq_model := "llama/3-70b"; rq_provider := Some "custom";
           rq_customProviderName := Some "acme" |}.
Proof.
  apply (proj1 (provider_prefix_is_split_at_the_first_slash
                  (Demo.deployment "hybrid" None ["openai"] [] false (fun _ => None)
                     (Demo.ok_json Demo.openai_completion) NoAbort)
                  (Demo.chat None "acme/llama/3-70b" false) "acme" "llama/3-70b"
                  eq_refl eq_refl)).
  reflexivity.
Defined.

Lemma pass_releases_its_lock_witness :
  ~ In {| AutoTopUp.lock_key := AutoTopUp.AUTO_TOPUP_LOCK_KEY;
          AutoTopUp.lock_updatedAt := demo_now |}
      (AutoTopUp.locks (AutoTopUp.processAutoTopUp demo_now demo_payments demo_billing)).
Proof.
  intro I.
  apply (proj1 (proj2 (pass_releases_its_lock demo_now demo_payments demo_billing))
           eq_refl _ I).
  reflexivity.
Defined.

Lemma topup_is_not_repeated_within_the_hour_witness :
  let first := AutoTopUp.processAutoTopUp demo_now demo_payments demo_billing in
  transactions_of "org_1" first <> transactions_of "org_1" demo_billing
  /\ transactions_of "org_1"
       (fold_left (fun d p => AutoTopUp.processAutoTopUp (fst p) (snd p) d)
          [(demo_now + 30 * 60 * 1000, demo_payments);
           (demo_now + 45 * 60 * 1000, demo_payments)]
          first)
     = transactions_of "org_1" first.
Proof.
  intro first.
  assert (Changed : transactions_of "org_1" first <> transactions_of "org_1" demo_billing)
    by (vm_compute; discriminate).
  split; [exact Changed |].
  apply (proj2 (topup_is_not_repeated_within_the_hour demo_now demo_payments
                  demo_billing "org_1"
                  ltac:(intros t [<- | []] _; vm_compute; reflexivity) Changed)).
  repeat constructor; cbn [fst]; unfold demo_now; lia.
Defined.

Lemma lock_is_held_for_ten_minutes_witness :
  fst (AutoTopUp.acquireLock (demo_now + 5 * 60 * 1000) AutoTopUp.AUTO_TOPUP_LOCK_KEY
         (snd (AutoTopUp.acquireLock demo_now AutoTopUp.AUTO_TOPUP_LOCK_KEY
                 demo_billing)))
  = true
  <-> demo_now
      < demo_now + 5 * 60 * 1000 - AutoTopUp.LOCK_DURATION_MINUTES * 60 * 1000.
Proof.
  apply (proj1 (lock_is_held_for_ten_minutes demo_now (demo_now + 5 * 60 * 1000)
                  AutoTopUp.AUTO_TOPUP_LOCK_KEY demo_billing eq_refl)).
Defined.


Lemma credits_are_debited_by_the_cost_of_billable_rows_witness :
  assoc "org_1"
    (Worker.creditsOf
       (Worker.store (fst (Worker.processLogQueue demo_billed_worker Worker.NoFault
                             demo_queues))))
  = Some (17 # 4)
  /\ costs_of demo_billed_worker "org_1"
       (Worker.somes (map (Worker.JSON_parse demo_billed_worker)
                        (Worker.mainQueue (Worker.queues demo_queues))))
     = [1 # 2; 1 # 4].
Proof.
  split; [| reflexivity].
  rewrite (credits_are_debited_by_the_cost_of_billable_rows demo_billed_worker
             demo_queues "org_1" 5%Q).
  - vm_compute. reflexivity.
  - vm_compute. discriminate.
  - reflexivity.
Defined.

Lemma auto_topup_runs_on_the_count_th_completed_turn_witness :
  Worker.billing
    (Worker.startWorker demo_worker false false false
       (repeat demo_turn 4 ++ [demo_turn]) demo_queues demo_billing)
  = AutoTopUp.processAutoTopUp demo_now demo_payments demo_billing.
Proof.
  destruct (auto_topup_runs_on_the_count_th_completed_turn demo_worker false false
              (repeat demo_turn 4) demo_queues demo_billing) as (_ & _ & H).
  - vm_compute. lia.
  - apply (H demo_turn); reflexivity.
Defined.

(** ** The tool calls of a streamed response *)

Section ToolCallProperties.

Import ToolCalls.

Lemma nth_pad (i index : nat) (calls : list ToolCall) :
  nth i (pad index calls) blank = nth i calls blank.
Proof.
  unfold pad. destruct (Nat.ltb i (List.length calls)) eqn:L.
  - apply Nat.ltb_lt in L. apply app_nth1. exact L.
  - apply Nat.ltb_ge in L. rewrite app_nth2 by exact L.
    rewrite (nth_overflow calls) by exact L.
    generalize (i - List.length calls)%nat (S index - List.length calls)%nat.
    intros a b. revert a. induction b as [| b IH]; intro a; destruct a; cbn; auto.
Qed.

Lemma length_pad (index : nat) (calls : list ToolCall) :
  List.length (pad index calls) = Nat.max (List.length calls) (S index).
Proof. unfold pad. rewrite length_app, repeat_length. lia. Qed.

Lemma length_update_at (index : nat) (f : ToolCall -> ToolCall) (calls : list ToolCall) :
  List.length (update_at index f calls) = List.length calls.
Proof.
  revert index. induction calls as [| c r IH]; intro index; [reflexivity |].
  destruct index; cbn; [reflexivity | rewrite IH; reflexivity].
Qed.

Lemma nth_update_at (i index : nat) (f : ToolCall -> ToolCall) (calls : list ToolCall)
    (d : ToolCall) :
  nth i (update_at index f calls) d
  = if (Nat.eqb i index && Nat.ltb i (List.length calls))%bool
    then f (nth i calls d) else nth i calls d.
Proof.
  revert i index. induction calls as [| c r IH]; intros i index.
  - cbn. rewrite andb_false_r. reflexivity.
  - destruct index as [| index], i as [| i]; cbn [update_at nth]; try reflexivity.
    rewrite IH. reflexivity.
Qed.

Lemma nth_applyDelta (i : nat) (calls : list ToolCall) (d : ToolCallDelta) :
  tc_arguments (nth i (applyDelta calls d) blank)
  = (tc_arguments (nth i calls blank)
     ++ if Nat.eqb (d_index d) i
        then match str_or_null (d_arguments d) with
             | Some a => a
             | None => EmptyString
             end
        else EmptyString)%string.
Proof.
  unfold applyDelta. rewrite nth_update_at, nth_pad, length_pad, (Nat.eqb_sym i).
  destruct (Nat.eqb (d_index d) i) eqn:E.
  - apply Nat.eqb_eq in E. subst i.
    replace (Nat.ltb (d_index d) (Nat.max (List.length calls) (S (d_index d)))) with true
      by (symmetry; apply Nat.ltb_lt; lia).
    reflexivity.
  - cbn [andb]. rewrite append_nil_r. reflexivity.
Qed.

(** X25.  The deltas of OpenAI-format chunks are accumulated by index:
    the arguments of the call at an index are what they were, followed
    by the fragments the deltas carry for that index, in order; the
    array is as long as the largest index requires. *)
Theorem tool_call_arguments_are_concatenated :
  forall (deltas : list ToolCallDelta) (calls : list ToolCall) (i : nat),
    let result := fold_left applyDelta deltas calls in
    tc_arguments (nth i result blank)
    = (tc_arguments (nth i calls blank) ++ fragments i deltas)%string
    /\ List.length result
       = fold_left (fun n d => Nat.max n (S (d_index d))) deltas (List.length calls).
Proof.
  intros deltas. induction deltas as [| d deltas IH]; intros calls i; cbv zeta.
  - cbn. rewrite append_nil_r. split; reflexivity.
  - cbn [fold_left]. destruct (IH (applyDelta calls d) i) as [A L]. cbv zeta in A, L.
    rewrite A, L, nth_applyDelta. split.
    + rewrite append_assoc. f_equal. unfold fragments. cbn [filter].
      destruct (Nat.eqb (d_index d) i); [| reflexivity].
      cbn [map]. destruct (filter _ deltas); cbn [map String.concat];
        [rewrite append_nil_r |]; reflexivity.
    + f_equal. unfold applyDelta. rewrite length_update_at, length_pad. reflexivity.
Qed.

(** X26.  An Anthropic [tool_use] block that starts, followed by its
    [input_json_delta] events with non-empty fragments, adds one call with the id and name of
    the block and the concatenation of the fragments as arguments.  A
    fragment that arrives when no call was started is dropped. *)
Theorem anthropic_tool_call_is_assembled :
  forall (calls : option (list ToolCall)) (id name : string) (parts : list string),
    Forall (fun part => part <> EmptyString) parts ->
    fold_left (accumulate "anthropic")
      (tool_use_start id name :: map input_json_delta parts) calls
    = Some (match calls with Some l => l | None => [] end
            ++ [{| tc_id := Some id; tc_type := "function"; tc_name := Some name;
                   tc_arguments := String.concat EmptyString parts |}])
    /\ (forall part, part <> EmptyString ->
          accumulate "anthropic" None (input_json_delta part) = Some []).
Proof.
  intros calls id name parts H. split.
  - cbn [fold_left]. unfold accumulate at 2.
    cbn [extractToolCallsFromProvider String.eqb Ascii.eqb Bool.eqb tool_use_start
           field get fold_left step assoc is_str andb].
    cbn [fold_left].
    generalize (match calls with Some l => l | None => [] end). clear calls.
    intro calls.
    assert (G : forall (parts : list string) (before : string),
               Forall (fun part => part <> EmptyString) parts ->
               fold_left (accumulate "anthropic") (map input_json_delta parts)
                 (Some (calls ++ [{| tc_id := Some id; tc_type := "function";
                                     tc_name := Some name; tc_arguments := before |}]))
               = Some (calls ++ [{| tc_id := Some id; tc_type := "function";
                                    tc_name := Some name;
                                    tc_arguments :=
                                      before ++ String.concat EmptyString parts |}])).
    { clear H parts. induction parts as [| part parts IH]; intros before H.
      - cbn. rewrite append_nil_r. reflexivity.
      - inversion H as [| x xs Hx Hxs]; subst. cbn [map fold_left].
        assert (S1 : accumulate "anthropic"
                       (Some (calls ++ [{| tc_id := Some id; tc_type := "function";
                                           tc_name := Some name;
                                           tc_arguments := before |}]))
                       (input_json_delta part)
                     = Some (calls ++ [{| tc_id := Some id; tc_type := "function";
                                          tc_name := Some name;
                                          tc_arguments := before ++ part |}])).
        { unfold accumulate, extractToolCallsFromProvider, input_json_delta, str_at,
            str_or_null.
          cbn [String.eqb Ascii.eqb Bool.eqb field get fold_left step assoc is_str andb
                 as_str].
          rewrite (truthy_str_nonempty _ Hx). cbn [fold_left tc_arguments].
          unfold append_to_last. rewrite length_app. cbn [List.length].
          rewrite Nat.add_1_r.
          f_equal. clear. induction calls as [| c r IHc]; [reflexivity |].
          cbn [app List.length update_at]. f_equal. exact IHc. }
        rewrite S1, (IH (before ++ part)%string Hxs). do 3 f_equal.
        rewrite append_assoc. f_equal.
        destruct parts; cbn [String.concat]; [rewrite append_nil_r |]; reflexivity. }
    cbn [as_str]. rewrite (G parts EmptyString H). reflexivity.
  - intros part Hp.
    unfold accumulate, extractToolCallsFromProvider, input_json_delta, str_at, str_or_null.
    cbn [String.eqb Ascii.eqb Bool.eqb field get fold_left step assoc is_str andb as_str].
    rewrite (truthy_str_nonempty _ Hp). reflexivity.
Qed.

End ToolCallProperties.

Lemma anthropic_tool_call_is_assembled_witness :
  fold_left (ToolCalls.accumulate "anthropic")
    (tool_use_start "toolu_1" "get_weather"
     :: map input_json_delta ["{'city':"; "'Paris'}"])
    None
  = Some [{| ToolCalls.tc_id := Some "toolu_1"; ToolCalls.tc_type := "function";
             ToolCalls.tc_name := Some "get_weather";
             ToolCalls.tc_arguments := "{'city':'Paris'}" |}].
Proof.
  apply (proj1 (anthropic_tool_call_is_assembled None "toolu_1" "get_weather"
                  ["{'city':"; "'Paris'}"]
                  ltac:(repeat constructor; discriminate))).
Defined.

(** ** The recent-logs view *)

Section RecentLogsProperties.

Import RecentLogs.

Lemma params_get_delete (name other : string) (params : SearchParams) :
  params_get other (params_delete name params)
  = if String.eqb other name then None else params_get other params.
Proof.
  unfold params_get, params_delete.
  induction params as [| [k v] r IH]; cbn [filter assoc fst].
  - destruct (String.eqb other name); reflexivity.
  - destruct (String.eqb k name) eqn:E; cbn [negb assoc].
    + rewrite IH. destruct (String.eqb other name) eqn:O; [reflexivity |].
      apply String.eqb_eq in E. subst k. rewrite O. reflexivity.
    + rewrite IH. destruct (String.eqb other name) eqn:O; [| reflexivity].
      apply String.eqb_eq in O. subst other.
      rewrite (String.eqb_sym name k), E. reflexivity.
Qed.

Lemma params_get_set (name other value : string) (params : SearchParams) :
  params_get other (params_set name value params)
  = if String.eqb other name then Some value else params_get other params.
Proof.
  induction params as [| [k v] r IH]; cbn [params_set].
  - unfold params_get. cbn [assoc]. destruct (String.eqb other name); reflexivity.
  - destruct (String.eqb k name) eqn:E.
    + apply String.eqb_eq in E. subst k. unfold params_get. cbn [assoc].
      destruct (String.eqb other name) eqn:O; [reflexivity |].
      fold (params_get other (params_delete name r)). rewrite params_get_delete, O.
      reflexivity.
    + unfold params_get in *. cbn [assoc]. rewrite IH.
      destruct (String.eqb other k) eqn:O; [| reflexivity].
      apply String.eqb_eq in O. subst other. rewrite E. reflexivity.
Qed.


Lemma given_In (name n v : string) (o : option string) :
  In (n, v)
    match str_or_null o with
    | Some w => if negb (String.eqb w "all") then [(name, w)] else []
    | None => []
    end ->
  n = name /\ v <> "all" /\ v <> EmptyString /\ o = Some v.
Proof.
  unfold str_or_null. destruct o as [[| c s] |]; cbn [truthy_str]; try contradiction.
  destruct (String.eqb (String c s) "all") eqn:E; cbn [negb In]; [contradiction |].
  intros [H | []]. inversion H; subst.
  split; [reflexivity |]. split; [apply String.eqb_neq; exact E |].
  split; [discriminate | reflexivity].
Qed.

Lemma given_assoc (name : string) (o : option string) (rest : list (string * string)) :
  assoc name
    (match str_or_null o with
     | Some w => if negb (String.eqb w "all") then [(name, w)] else []
     | None => []
     end ++ rest)
  = match str_or_null o with
    | Some w => if String.eqb w "all" then assoc name rest else Some w
    | None => assoc name rest
    end.
Proof.
  destruct (str_or_null o) as [w |]; [| reflexivity].
  destruct (String.eqb w "all"); cbn [negb app assoc]; [reflexivity |].
  rewrite String.eqb_refl. reflexivity.
Qed.

Lemma given_assoc_other (name other : string) (o : option string)
    (rest : list (string * string)) :
  other <> name ->
  assoc other
    (match str_or_null o with
     | Some w => if negb (String.eqb w "all") then [(name, w)] else []
     | None => []
     end ++ rest)
  = assoc other rest.
Proof.
  intro N. destruct (str_or_null o) as [w |]; [| reflexivity].
  destruct (String.eqb w "all"); cbn [negb app assoc]; [reflexivity |].
  rewrite (eqb_false_of_neq _ _ N). reflexivity.
Qed.

(** X28.  After a filter is changed, the query for the logs carries
    that filter exactly as the URL does.  The query always orders by
    creation date, descending, and carries a filter only with the value
    of the state, which is neither [all] nor empty. *)
Theorem logs_query_agrees_with_the_url :
  forall (k : FilterKey) (value : string) (f : Filters) (searchParams : SearchParams)
         (projectId : option string),
    let state := fst (handleFilterChange k value f searchParams) in
    let url := snd (handleFilterChange k value f searchParams) in
    assoc (key_name k) (queryParams state projectId) = params_get (key_name k) url
    /\ assoc "orderBy" (queryParams state projectId) = Some "createdAt_desc"
    /\ (forall other v,
          In (key_name other, v) (queryParams state projectId) ->
          v <> "all" /\ v <> EmptyString /\ filter_of other state = Some v).
Proof.
  intros k value f searchParams projectId. cbv zeta.
  unfold handleFilterChange, updateUrlWithFilters. cbn [fst snd fold_left].
  set (filterValue := if String.eqb value "all" then None else Some value).
  split; [| split].
  - assert (U : params_get (key_name k)
                  match str_or_null filterValue with
                  | Some v =>
                      if negb (String.eqb v "all")
                      then params_set (key_name k) v searchParams
                      else params_delete (key_name k) searchParams
                  | None => params_delete (key_name k) searchParams
                  end
                = match str_or_null filterValue with
                  | Some v => if String.eqb v "all" then None else Some v
                  | None => None
                  end).
    { destruct (str_or_null filterValue) as [v |].
      - destruct (String.eqb v "all"); cbn [negb].
        + rewrite params_get_delete, String.eqb_refl. reflexivity.
        + rewrite params_get_set, String.eqb_refl. reflexivity.
      - rewrite params_get_delete, String.eqb_refl. reflexivity. }
    rewrite U. clear U. unfold queryParams. cbv zeta.
    assert (D : forall (name d : string) (o : option string) rest,
               name = "startDate" \/ name = "endDate" ->
               assoc (key_name k) (match o with Some d => [(name, d)] | None => [] end
                                   ++ rest)
               = assoc (key_name k) rest).
    { intros name d o rest N. destruct o as [d' |]; [| reflexivity].
      cbn [app assoc]. destruct N as [N | N]; subst name; destruct k; reflexivity. }
    assert (P : assoc (key_name k)
                  match str_or_null projectId with
                  | Some p => [("projectId", p)]
                  | None => []
                  end = None).
    { destruct (str_or_null projectId); destruct k; reflexivity. }
    cbn [app assoc].
    replace (String.eqb (key_name k) "orderBy") with false by (destruct k; reflexivity).
    destruct (dateRange (set_filter k filterValue f)) as [r |];
      rewrite ?(D "startDate" EmptyString), ?(D "endDate" EmptyString) by auto;
      cbn [app];
      destruct k;
      cbn [set_filter finishReason unifiedFinishReason provider model key_name] in *;
      repeat first
        [ rewrite given_assoc
        | rewrite given_assoc_other by discriminate ];
      rewrite ?P;
      try (destruct (str_or_null filterValue) as [v |];
           [destruct (String.eqb v "all") |]; reflexivity).
  - reflexivity.
  - intros other v I. unfold queryParams in I. cbv zeta in I.
    cbn [app In] in I. destruct I as [I | I]; [destruct other; discriminate I |].
    apply in_app_or in I. destruct I as [I | I].
    { destruct (dateRange _) as [[[s |] e] |]; cbn [range_start In] in I;
        try contradiction; destruct I as [I | []]; destruct other; discriminate I. }
    apply in_app_or in I. destruct I as [I | I].
    { destruct (dateRange _) as [[s [e |]] |]; cbn [range_end In] in I;
        try contradiction; destruct I as [I | []]; destruct other; discriminate I. }
    apply in_app_or in I. destruct I as [I | I].
    { apply given_In in I. destruct I as (N & A & E & O).
      destruct other; try discriminate N. repeat split; assumption. }
    apply in_app_or in I. destruct I as [I | I].
    { apply given_In in I. destruct I as (N & A & E & O).
      destruct other; try discriminate N. repeat split; assumption. }
    apply in_app_or in I. destruct I as [I | I].
    { apply given_In in I. destruct I as (N & A & E & O).
      destruct other; try discriminate N. repeat split; assumption. }
    apply in_app_or in I. destruct I as [I | I].
    { apply given_In in I. destruct I as (N & A & E & O).
      destruct other; try discriminate N. repeat split; assumption. }
    destruct (str_or_null projectId); cbn [In] in I; try contradiction.
    destruct I as [I | []]. destruct other; discriminate I.
Qed.

End RecentLogsProperties.


Lemma logs_query_agrees_with_the_url_witness :
  let blank_filters :=
    {| RecentLogs.dateRange := None; RecentLogs.finishReason := None;
       RecentLogs.unifiedFinishReason := None; RecentLogs.provider := None;
       RecentLogs.model := None |} in
  let state :=
    fst (RecentLogs.handleFilterChange RecentLogs.ProviderFilter "openai" blank_filters
           []) in
  "openai" <> "all" /\ "openai" <> EmptyString
  /\ RecentLogs.filter_of RecentLogs.ProviderFilter state = Some "openai".
Proof.
  intros blank_filters state.
  apply (proj2 (proj2 (logs_query_agrees_with_the_url RecentLogs.ProviderFilter "openai"
                         blank_filters [] (Some "proj_1")))
           RecentLogs.ProviderFilter "openai").
  vm_compute. right. left. reflexivity.
Defined.
